(** * Huefy SDK (JavaScript): retry loops, error classes and error mappers

    A shallow embedding of [src/errors.ts], [src/http.ts],
    [src/grpc-client.ts] and the kernel (subprocess) client, followed by the
    properties of the execution layer: number of attempts, back-off delays,
    retry predicates, error mapping and constructor defaults.

    Conventions.
    - JavaScript numbers that the code treats as counts, milliseconds or
      status codes are integers ([Z]) of magnitude below 2^53, which print
      with all their digits; [undefined] numbers are [None].
    - A [string] holds one character per UTF-16 code unit: it stands for a
      JavaScript string whose code units are all below 256.  Where the code
      looks at the characters of an argument (white space, length, the
      pattern of an e-mail address) the functions take the list of code
      units, so they are defined on every JavaScript string.
    - A JavaScript object used as a dictionary is a [gmap string JsVal].
    - [throw] is a value of a sum type: [inl] is the returned value, [inr] the
      thrown one.
    - The network, the RPC channel and the child process are inputs of the
      model: a function from the attempt number to what that attempt yields,
      or a list of process events. *)

From stdpp Require Import gmap strings pretty.
From Stdlib Require Import ZArith Ascii String List Bool Lia.
Import ListNotations.
Local Open Scope string_scope.
Local Open Scope Z_scope.

(** ** JavaScript values *)

Module Js.

(** Primitive values stored in [details] objects and in loosely typed
    fields. *)
Inductive JsVal : Type :=
| VUndefined
| VNull
| VBool (b : bool)
| VNum (n : Z)
| VStr (s : string).

(** A value of type [any]: a primitive or a plain object. *)
Inductive JsAny : Type :=
| AVal (v : JsVal)
| AObj (o : gmap string JsVal).

Definition undefined : JsAny := AVal VUndefined.

(** Truthiness, as used by [||], [!] and [if]. *)
Definition truthy (v : JsVal) : bool :=
  match v with
  | VUndefined | VNull => false
  | VBool b => b
  | VNum n => negb (n =? 0)
  | VStr s => negb (String.eqb s EmptyString)
  end.

(** [String(v)] and template-literal interpolation. *)
Definition ToString (v : JsVal) : string :=
  match v with
  | VUndefined => "undefined"
  | VNull => "null"
  | VBool true => "true"
  | VBool false => "false"
  | VNum n => pretty n
  | VStr s => s
  end.

(** [x || d] for an optional number: [undefined] and [0] select [d]. *)
Definition num_or (x : option Z) (d : Z) : Z :=
  match x with
  | Some n => if n =? 0 then d else n
  | None => d
  end.

(** [x || d] for an optional string: [undefined] and [''] select [d]. *)
Definition str_or (x : option string) (d : string) : string :=
  match x with
  | Some s => if String.eqb s EmptyString then d else s
  | None => d
  end.

(** A parameter with a default value: only [undefined] selects it. *)
Definition param_default {A : Type} (x : option A) (d : A) : A :=
  match x with
  | Some a => a
  | None => d
  end.

(** [s.includes(sub)] *)
Fixpoint includes (s sub : string) : bool :=
  if String.prefix sub s then true
  else match s with
       | EmptyString => false
       | String _ s' => includes s' sub
       end.

(** Own enumerable properties of a string primitive under object spread:
    one entry per character, keyed by its index. *)
Fixpoint spread_string (i : nat) (s : string) : gmap string JsVal :=
  match s with
  | EmptyString => ∅
  | String c s' => <[pretty i := VStr (String c EmptyString)]> (spread_string (S i) s')
  end.

(** [{...x}] *)
Definition spread (x : JsAny) : gmap string JsVal :=
  match x with
  | AObj o => o
  | AVal (VStr s) => spread_string 0 s
  | AVal _ => ∅
  end.

(** [o?.k] for an optional object. *)
Definition opt_get (o : option (gmap string JsVal)) (k : string) : JsVal :=
  match o with
  | Some m => default VUndefined (m !! k)
  | None => VUndefined
  end.

End Js.
Import Js.

(** ** types.ts *)

Module Types.

Record HuefyConfig : Type := {
  apiKey : JsVal;
  baseUrl : option string;
  timeout : option Z;
  retryAttempts : option Z;
  retryDelay : option Z;
}.

Record ErrorResponse : Type := {
  error : string;
  code : string;
  details : option (gmap string JsVal);
}.

Record RetryConfig : Type := {
  maxAttempts : Z;
  initialDelay : Z;
  backoffMultiplier : Z;
  maxDelay : Z;
  retryableStatusCodes : list Z;
}.

Record HttpResponse (T : Type) : Type := {
  data : T;
  status : Z;
  statusText : string;
  headers : gmap string string;
}.
Arguments data {T} _.
Arguments status {T} _.
Arguments statusText {T} _.
Arguments headers {T} _.

End Types.

(** ** errors.ts *)

Module Errors.

(** The class of an error object; [instanceof C] for a subclass [C] is a
    test on this tag, and [name] is its printed form. *)
Inductive ErrorClass : Type :=
| HuefyErrorC
| AuthenticationErrorC
| TemplateNotFoundErrorC
| InvalidTemplateDataErrorC
| InvalidRecipientErrorC
| ProviderErrorC
| RateLimitErrorC
| NetworkErrorC
| TimeoutErrorC
| ValidationErrorC.

Definition ErrorClass_eqb (a b : ErrorClass) : bool :=
  match a, b with
  | HuefyErrorC, HuefyErrorC
  | AuthenticationErrorC, AuthenticationErrorC
  | TemplateNotFoundErrorC, TemplateNotFoundErrorC
  | InvalidTemplateDataErrorC, InvalidTemplateDataErrorC
  | InvalidRecipientErrorC, InvalidRecipientErrorC
  | ProviderErrorC, ProviderErrorC
  | RateLimitErrorC, RateLimitErrorC
  | NetworkErrorC, NetworkErrorC
  | TimeoutErrorC, TimeoutErrorC
  | ValidationErrorC, ValidationErrorC => true
  | _, _ => false
  end.

Record HuefyError : Type := {
  cls : ErrorClass;
  message : string;
  code : string;
  statusCode : option Z;
  details : JsAny;
}.

Definition name (e : HuefyError) : string :=
  match cls e with
  | HuefyErrorC => "HuefyError"
  | AuthenticationErrorC => "AuthenticationError"
  | TemplateNotFoundErrorC => "TemplateNotFoundError"
  | InvalidTemplateDataErrorC => "InvalidTemplateDataError"
  | InvalidRecipientErrorC => "InvalidRecipientError"
  | ProviderErrorC => "ProviderError"
  | RateLimitErrorC => "RateLimitError"
  | NetworkErrorC => "NetworkError"
  | TimeoutErrorC => "TimeoutError"
  | ValidationErrorC => "ValidationError"
  end.

Definition instanceof (e : HuefyError) (c : ErrorClass) : bool :=
  match c with
  | HuefyErrorC => true
  | _ => ErrorClass_eqb (cls e) c
  end.

(** [new HuefyError(message, code = 'UNKNOWN_ERROR', statusCode?, details?)] *)
Definition new_HuefyError (message : string) (code : option string)
    (statusCode : option Z) (details : JsAny) : HuefyError :=
  {| cls := HuefyErrorC;
     message := message;
     code := param_default code "UNKNOWN_ERROR";
     statusCode := statusCode;
     details := details |}.

(** [super(...)] followed by the assignment of [this.name] in a subclass. *)
Definition subclass (c : ErrorClass) (base : HuefyError) : HuefyError :=
  {| cls := c;
     message := message base;
     code := code base;
     statusCode := statusCode base;
     details := details base |}.

Definition fromErrorResponse (response : Types.ErrorResponse)
    (statusCode : option Z) : HuefyError :=
  new_HuefyError (Types.error response) (Some (Types.code response)) statusCode
    (match Types.details response with
     | Some o => AObj o
     | None => undefined
     end).

Definition new_AuthenticationError (message : option string) (details : JsAny)
    : HuefyError :=
  subclass AuthenticationErrorC
    (new_HuefyError (param_default message "Invalid or missing API key")
       (Some "INVALID_API_KEY") (Some 401) details).

Definition new_TemplateNotFoundError (templateKey : JsVal) (details : JsAny)
    : HuefyError :=
  subclass TemplateNotFoundErrorC
    (new_HuefyError ("Template '" +:+ ToString templateKey +:+ "' not found")
       (Some "TEMPLATE_NOT_FOUND") (Some 404)
       (AObj (spread details ∪ {[ "template_key" := templateKey ]}))).

Definition new_InvalidTemplateDataError (message : option string)
    (details : JsAny) : HuefyError :=
  subclass InvalidTemplateDataErrorC
    (new_HuefyError (param_default message "Invalid template data")
       (Some "INVALID_TEMPLATE_DATA") (Some 400) details).

Definition new_InvalidRecipientError (recipient : JsVal) (details : JsAny)
    : HuefyError :=
  subclass InvalidRecipientErrorC
    (new_HuefyError ("Invalid recipient email: " +:+ ToString recipient)
       (Some "INVALID_RECIPIENT") (Some 400)
       (AObj (spread details ∪ {[ "recipient" := recipient ]}))).

Definition new_ProviderError (message : option string) (details : JsAny)
    : HuefyError :=
  subclass ProviderErrorC
    (new_HuefyError (param_default message "Email provider error")
       (Some "PROVIDER_ERROR") (Some 500) details).

Definition new_RateLimitError (message : option string) (details : JsAny)
    : HuefyError :=
  subclass RateLimitErrorC
    (new_HuefyError (param_default message "Rate limit exceeded")
       (Some "RATE_LIMIT_EXCEEDED") (Some 429) details).

(** The second parameter is the causing [Error]; only its message is
    read ([cause?.message]). *)
Definition new_NetworkError (message : option string) (cause : option string)
    : HuefyError :=
  subclass NetworkErrorC
    (new_HuefyError (param_default message "Network error")
       (Some "NETWORK_ERROR") None
       (AObj {[ "cause" := match cause with
                           | Some m => VStr m
                           | None => VUndefined
                           end ]})).

Definition new_TimeoutError (timeout : Z) : HuefyError :=
  subclass TimeoutErrorC
    (new_HuefyError ("Request timed out after " +:+ pretty timeout +:+ "ms")
       (Some "TIMEOUT_ERROR") None
       (AObj {[ "timeout" := VNum timeout ]})).

Definition new_ValidationError (message : option string) (details : JsAny)
    : HuefyError :=
  subclass ValidationErrorC
    (new_HuefyError (param_default message "Validation error")
       (Some "VALIDATION_ERROR") (Some 400) details).

Definition any_of_details (d : option (gmap string JsVal)) : JsAny :=
  match d with
  | Some o => AObj o
  | None => undefined
  end.

(** [x || 'unknown'] on a loosely typed value. *)
Definition or_unknown (v : JsVal) : JsVal :=
  if truthy v then v else VStr "unknown".

Definition createErrorFromResponse (data : Types.ErrorResponse)
    (statusCode : Z) : HuefyError :=
  let c := Types.code data in
  let d := any_of_details (Types.details data) in
  if String.eqb c "INVALID_API_KEY" then
    new_AuthenticationError (Some (Types.error data)) d
  else if String.eqb c "TEMPLATE_NOT_FOUND" then
    new_TemplateNotFoundError
      (or_unknown (opt_get (Types.details data) "template_key")) d
  else if String.eqb c "INVALID_TEMPLATE_DATA" then
    new_InvalidTemplateDataError (Some (Types.error data)) d
  else if String.eqb c "INVALID_RECIPIENT" then
    new_InvalidRecipientError
      (or_unknown (opt_get (Types.details data) "recipient")) d
  else if String.eqb c "PROVIDER_ERROR" then
    new_ProviderError (Some (Types.error data)) d
  else if String.eqb c "RATE_LIMIT_EXCEEDED" then
    new_RateLimitError (Some (Types.error data)) d
  else
    new_HuefyError (Types.error data) (Some c) (Some statusCode) d.

(** What a [catch] clause can receive. *)
Inductive Thrown : Type :=
| ThrownError (isTypeError : bool) (name message : string)
    (** a native [Error] (or [TypeError]) that is not a [HuefyError] *)
| ThrownHuefy (e : HuefyError)
| ThrownOther (falsy : bool) (rendering : string)
    (** any other value except [null] and [undefined], without properties
        [name], [message] and [isHuefyError]: whether it is falsy (the
        empty string, 0, NaN, [false]) and [String(value)] *).

Definition isHuefyError (error : Thrown) : bool :=
  match error with
  | ThrownHuefy _ => true
  | _ => false
  end.

Definition isErrorCode (error : Thrown) (c : string) : bool :=
  match error with
  | ThrownHuefy e => String.eqb (code e) c
  | _ => false
  end.

(** [error instanceof Error] *)
Definition instanceofError (error : Thrown) : bool :=
  match error with
  | ThrownError _ _ _ | ThrownHuefy _ => true
  | ThrownOther _ _ => false
  end.

Definition instanceofTypeError (error : Thrown) : bool :=
  match error with
  | ThrownError isTE _ _ => isTE
  | _ => false
  end.

(** [error.name] and [error.message], when [error] is an [Error]. *)
Definition thrown_name (error : Thrown) : option string :=
  match error with
  | ThrownError _ n _ => Some n
  | ThrownHuefy e => Some (name e)
  | ThrownOther _ _ => None
  end.

Definition thrown_message (error : Thrown) : option string :=
  match error with
  | ThrownError _ _ m => Some m
  | ThrownHuefy e => Some (message e)
  | ThrownOther _ _ => None
  end.

(** [x && x >= lo] on an optional status code. *)
Definition status_at_least (s : option Z) (lo : Z) : bool :=
  match s with
  | Some n => negb (n =? 0) && (lo <=? n)
  | None => false
  end.

Definition isRetryableError (error : Thrown) : bool :=
  match error with
  | ThrownHuefy e =>
      if instanceof e NetworkErrorC || instanceof e TimeoutErrorC then true
      else if status_at_least (statusCode e) 500 then true
      else if status_at_least (statusCode e) 400
              && match statusCode e with Some n => n <? 500 | None => false end
      then match statusCode e with Some n => n =? 429 | None => false end
      else false
  | _ => false
  end.

(** What [createErrorFromResponse] reads of its first argument when the
    caller hands it a decoded body under a cast
    ([responseData as unknown as ErrorResponse]):
    - [BodyNull m]: the body is [null], and reading [data.code] throws a
      [TypeError] with message [m];
    - [BodyFields error code details]: any other body, with the values of
      its properties [error], [code] and [details], [None] for a property
      that is missing (as all three are when the body is a number, a
      string, a boolean or an array).  A property that is present has the
      type [ErrorResponse] declares. *)
Inductive ErrorData : Type :=
| BodyNull (typeErrorMessage : string)
| BodyFields (error code : option string) (details : option (gmap string JsVal)).

(** A body of the declared type. *)
Definition typed (data : Types.ErrorResponse) : ErrorData :=
  BodyFields (Some (Types.error data)) (Some (Types.code data)) (Types.details data).

(** [data.code === c] in the [switch]. *)
Definition is_code (code : option string) (c : string) : bool :=
  match code with
  | Some c' => String.eqb c' c
  | None => false
  end.

(** [createErrorFromResponse(data, statusCode)] on a decoded body: the
    error it returns, or the [TypeError] it throws.  A missing [error]
    selects the default message of a subclass and leaves the message of a
    base error empty; a missing [code] selects UNKNOWN_ERROR. *)
Definition createErrorFromData (data : ErrorData) (statusCode : Z)
    : HuefyError + Thrown :=
  match data with
  | BodyNull m => inr (ThrownError true "TypeError" m)
  | BodyFields error code details =>
      let d := any_of_details details in
      inl (if is_code code "INVALID_API_KEY" then
             new_AuthenticationError error d
           else if is_code code "TEMPLATE_NOT_FOUND" then
             new_TemplateNotFoundError
               (or_unknown (opt_get details "template_key")) d
           else if is_code code "INVALID_TEMPLATE_DATA" then
             new_InvalidTemplateDataError error d
           else if is_code code "INVALID_RECIPIENT" then
             new_InvalidRecipientError
               (or_unknown (opt_get details "recipient")) d
           else if is_code code "PROVIDER_ERROR" then
             new_ProviderError error d
           else if is_code code "RATE_LIMIT_EXCEEDED" then
             new_RateLimitError error d
           else
             new_HuefyError (param_default error EmptyString) code
               (Some statusCode) d)
  end.

End Errors.

(** ** The retry loop shared by the three clients

    [HttpClient.request], [GrpcClient.makeGrpcRequest] and
    [KernelClient.executeKernelCommand] contain the same [for] loop; they
    differ in the awaited call, in the retry predicate and in what is thrown
    after the loop.  [attemptOp k] is what the awaited call of attempt [k]
    yields: [inl] a response, [inr] the caught value. *)

Module Retry.

(** What the loop does, in order. *)
Inductive Event : Type :=
| Attempt (attempt : Z)
| Sleep (ms : Z).

Section Loop.
Context {R E : Type}.
Variable retryConfig : Types.RetryConfig.
Variable attemptOp : Z -> R + E.
Variable isRetryable : E -> bool.

(** How the function leaves the loop: [return response], or the
    statement after the loop with the final [lastError] ([None] is
    [null]). *)
Inductive Exit : Type :=
| Returned (response : R)
| Fell (lastError : option E).

(** [for (let attempt = ...; attempt <= maxAttempts; attempt++)], from the
    given [attempt] on.  [fuel] bounds the number of iterations. *)
Fixpoint loop (fuel : nat) (attempt : Z) (lastError : option E)
    : option (Exit * list Event) :=
  match fuel with
  | O => None
  | S fuel' =>
      if attempt <=? Types.maxAttempts retryConfig then
        match attemptOp attempt with
        | inl response => Some (Returned response, [Attempt attempt])
        | inr error =>
            let lastError := Some error in
            if attempt =? Types.maxAttempts retryConfig then
              Some (Fell lastError, [Attempt attempt])
            else if negb (isRetryable error) then
              Some (Fell lastError, [Attempt attempt])
            else
              let delay :=
                Z.min (Types.initialDelay retryConfig
                       * Types.backoffMultiplier retryConfig ^ (attempt - 1))
                      (Types.maxDelay retryConfig) in
              match loop fuel' (attempt + 1) lastError with
              | Some (exit, events) =>
                  Some (exit, Attempt attempt :: Sleep delay :: events)
              | None => None
              end
        end
      else Some (Fell lastError, [])
  end.

(** The whole loop: [maxAttempts] iterations at most, plus the final
    test of the loop condition. *)
Definition run : option (Exit * list Event) :=
  loop (S (Z.to_nat (Types.maxAttempts retryConfig))) 1 None.

End Loop.

Definition attempts (events : list Event) : list Z :=
  flat_map (fun ev => match ev with Attempt k => [k] | Sleep _ => [] end) events.

Definition sleeps (events : list Event) : list Z :=
  flat_map (fun ev => match ev with Attempt _ => [] | Sleep ms => [ms] end) events.

End Retry.

(** ** http.ts *)

Module HttpClient.
Import Errors.

Definition DEFAULT_RETRY_CONFIG : Types.RetryConfig :=
  {| Types.maxAttempts := 3;
     Types.initialDelay := 1000;
     Types.backoffMultiplier := 2;
     Types.maxDelay := 10000;
     Types.retryableStatusCodes := [429; 500; 502; 503; 504] |}.

Record t : Type := {
  apiKey : string;
  baseUrl : string;
  timeout : Z;
  retryConfig : Types.RetryConfig;
}.

Definition is_string (v : JsVal) : bool :=
  match v with
  | VStr _ => true
  | _ => false
  end.

(** [new HttpClient(config)]: the client, or the thrown error. *)
Definition new (config : Types.HuefyConfig) : t + HuefyError :=
  let this_apiKey := Types.apiKey config in
  let this_baseUrl := str_or (Types.baseUrl config) "https://api.huefy.com/api/v1/sdk" in
  let this_timeout := num_or (Types.timeout config) 30000 in
  let this_retryConfig :=
    {| Types.maxAttempts :=
         num_or (Types.retryAttempts config) (Types.maxAttempts DEFAULT_RETRY_CONFIG);
       Types.initialDelay :=
         num_or (Types.retryDelay config) (Types.initialDelay DEFAULT_RETRY_CONFIG);
       Types.backoffMultiplier := Types.backoffMultiplier DEFAULT_RETRY_CONFIG;
       Types.maxDelay := Types.maxDelay DEFAULT_RETRY_CONFIG;
       Types.retryableStatusCodes := Types.retryableStatusCodes DEFAULT_RETRY_CONFIG |} in
  if negb (truthy this_apiKey) || negb (is_string this_apiKey) then
    inr (new_HuefyError "API key is required and must be a string"
           (Some "INVALID_CONFIG") None undefined)
  else if this_timeout <? 0 then
    inr (new_HuefyError "Timeout must be a positive number"
           (Some "INVALID_CONFIG") None undefined)
  else
    inl {| apiKey := ToString this_apiKey;
           baseUrl := this_baseUrl;
           timeout := this_timeout;
           retryConfig := this_retryConfig |}.

(** [response.ok] of the fetch API: the status is in 200..299. *)
Definition response_ok (status : Z) : bool :=
  (200 <=? status) && (status <=? 299).

Section MakeRequest.
(** [T] is the type of the decoded body; [asErrorResponse] is the cast
    [responseData as unknown as ErrorResponse]: what
    [createErrorFromResponse] reads of the body. *)
Context {T : Type}.
Variable asErrorResponse : T -> ErrorData.

(** What happens inside the [try] of one attempt: [FetchRejects] when a
    value is thrown before a response is obtained ([fetch] rejects, the
    timer aborts it, or the request cannot be built); [FetchResponds] when
    [fetch] resolves, with [json = None] when [response.json()] rejects. *)
Inductive FetchOutcome : Type :=
| FetchRejects (reason : Thrown)
| FetchResponds (status : Z) (statusText : string)
    (headers : list (string * string)) (json : option T).

(** [headers.forEach((value, key) => { result[key] = value })] *)
Definition extractHeaders (headers : list (string * string))
    : gmap string string :=
  fold_left (fun result kv => <[fst kv := snd kv]> result) headers ∅.

(** The body of the outer [try]. *)
Definition makeRequest_try (net : FetchOutcome)
    : Types.HttpResponse T + Thrown :=
  match net with
  | FetchRejects reason => inr reason
  | FetchResponds status statusText headers json =>
      match json with
      | None =>
          inr (ThrownHuefy
                 (new_HuefyError "Failed to parse response as JSON"
                    (Some "INVALID_RESPONSE") (Some status) undefined))
      | Some responseData =>
          if negb (response_ok status) then
            match createErrorFromData (asErrorResponse responseData) status with
            | inl e => inr (ThrownHuefy e)
            | inr typeError => inr typeError
            end
          else
            inl {| Types.data := responseData;
                   Types.status := status;
                   Types.statusText := statusText;
                   Types.headers := extractHeaders headers |}
      end
  end.

(** The outer [catch]: every caught value is rethrown as a
    [HuefyError]. *)
Definition makeRequest_catch (self : t) (timeout : option Z)
    (error : Thrown) : HuefyError :=
  if instanceofError error
     && match thrown_name error with
        | Some n => String.eqb n "AbortError"
        | None => false
        end
  then new_TimeoutError (num_or timeout (HttpClient.timeout self))
  else if instanceofTypeError error
          || (instanceofError error
              && match thrown_message error with
                 | Some m => includes m "fetch"
                 | None => false
                 end)
  then
    let message :=
      match thrown_message error with
      | Some m => m
      | None => "Unknown network error"
      end in
    new_NetworkError (Some ("Network error: " +:+ message)) (thrown_message error)
  else
    match error with
    | ThrownHuefy e => e
    | ThrownError _ _ m =>
        new_HuefyError ("Unexpected error: " +:+ m)
          (Some "UNEXPECTED_ERROR") None undefined
    | ThrownOther _ rendering =>
        new_HuefyError ("Unexpected error: " +:+ rendering)
          (Some "UNEXPECTED_ERROR") None undefined
    end.

Definition makeRequest (self : t) (timeout : option Z) (net : FetchOutcome)
    : Types.HttpResponse T + Thrown :=
  match makeRequest_try net with
  | inl response => inl response
  | inr error => inr (ThrownHuefy (makeRequest_catch self timeout error))
  end.

(** [request(method, endpoint, data, options)]; [net k] is the behaviour
    of the network at attempt [k].  The result is the exit of the loop
    (for [Fell lastError], [lastError] is thrown) and the trace. *)
Definition request (self : t) (options_timeout : option Z)
    (net : Z -> FetchOutcome)
    : option (Retry.Exit (R := Types.HttpResponse T) (E := Thrown)
              * list Retry.Event) :=
  let timeout := num_or options_timeout (HttpClient.timeout self) in
  Retry.run (retryConfig self)
    (fun attempt => makeRequest self (Some timeout) (net attempt))
    isRetryableError.

End MakeRequest.

End HttpClient.

(** ** grpc-client.ts *)

(** Status codes of the RPC library ([grpc.status]). *)
Module GrpcStatus.
Definition OK : Z := 0.
Definition CANCELLED : Z := 1.
Definition UNKNOWN : Z := 2.
Definition INVALID_ARGUMENT : Z := 3.
Definition DEADLINE_EXCEEDED : Z := 4.
Definition NOT_FOUND : Z := 5.
Definition ALREADY_EXISTS : Z := 6.
Definition PERMISSION_DENIED : Z := 7.
Definition RESOURCE_EXHAUSTED : Z := 8.
Definition FAILED_PRECONDITION : Z := 9.
Definition ABORTED : Z := 10.
Definition OUT_OF_RANGE : Z := 11.
Definition UNIMPLEMENTED : Z := 12.
Definition INTERNAL : Z := 13.
Definition UNAVAILABLE : Z := 14.
Definition DATA_LOSS : Z := 15.
Definition UNAUTHENTICATED : Z := 16.
End GrpcStatus.

Module GrpcClient.
Import Errors.

Definition DEFAULT_RETRY_CONFIG : Types.RetryConfig :=
  {| Types.maxAttempts := 3;
     Types.initialDelay := 1000;
     Types.backoffMultiplier := 2;
     Types.maxDelay := 10000;
     Types.retryableStatusCodes := [14; 13; 8] |}.

Record t : Type := {
  apiKey : string;
  endpoint : string;
  timeout : Z;
  retryConfig : Types.RetryConfig;
}.

(** The error object handed to the call-back of an RPC. *)
Record RawError : Type := {
  code : JsVal;
  details : option string;
  message : option string;
}.

(** [isProduction] is [process.env.NODE_ENV === 'production']. *)
Definition getGrpcEndpoint (isProduction : bool) (config : Types.HuefyConfig)
    : string :=
  match Types.baseUrl config with
  | Some url =>
      if negb (String.eqb url EmptyString) then url
      else if isProduction then "api.huefy.dev:50051" else "localhost:50051"
  | None => if isProduction then "api.huefy.dev:50051" else "localhost:50051"
  end.

(** [new GrpcClient(config)].  [initFailure] is the rendering of what
    loading the protocol definitions throws, if anything. *)
Definition new (isProduction : bool) (initFailure : option string)
    (config : Types.HuefyConfig) : t + HuefyError :=
  let this_apiKey := Types.apiKey config in
  let this_endpoint := getGrpcEndpoint isProduction config in
  let this_timeout := num_or (Types.timeout config) 30000 in
  let this_retryConfig :=
    {| Types.maxAttempts :=
         num_or (Types.retryAttempts config) (Types.maxAttempts DEFAULT_RETRY_CONFIG);
       Types.initialDelay :=
         num_or (Types.retryDelay config) (Types.initialDelay DEFAULT_RETRY_CONFIG);
       Types.backoffMultiplier := Types.backoffMultiplier DEFAULT_RETRY_CONFIG;
       Types.maxDelay := Types.maxDelay DEFAULT_RETRY_CONFIG;
       Types.retryableStatusCodes := Types.retryableStatusCodes DEFAULT_RETRY_CONFIG |} in
  if negb (truthy this_apiKey) || negb (HttpClient.is_string this_apiKey) then
    inr (new_HuefyError "API key is required and must be a string"
           (Some "INVALID_CONFIG") None undefined)
  else if this_timeout <? 0 then
    inr (new_HuefyError "Timeout must be a positive number"
           (Some "INVALID_CONFIG") None undefined)
  else
    match initFailure with
    | Some rendering =>
        inr (new_HuefyError ("Failed to initialize gRPC client: " +:+ rendering)
               (Some "GRPC_INIT_ERROR") None undefined)
    | None =>
        inl {| apiKey := ToString this_apiKey;
               endpoint := this_endpoint;
               timeout := this_timeout;
               retryConfig := this_retryConfig |}
    end.

Definition isRetryableGrpcError (self : t) (error : RawError) : bool :=
  match code error with
  | VNum n => existsb (Z.eqb n) (Types.retryableStatusCodes (retryConfig self))
  | _ => false
  end.

(** [code === status] in the [switch]. *)
Definition is_status (c : JsVal) (status : Z) : bool :=
  match c with
  | VNum n => n =? status
  | _ => false
  end.

Definition convertGrpcError (self : t) (error : option RawError) : HuefyError :=
  match error with
  | None => new_HuefyError "Unknown error occurred" (Some "UNKNOWN_ERROR") None undefined
  | Some error =>
      let c := code error in
      let message := str_or (details error) (str_or (message error) "Unknown gRPC error") in
      if is_status c GrpcStatus.INVALID_ARGUMENT then
        new_ValidationError (Some message) undefined
      else if is_status c GrpcStatus.UNAUTHENTICATED then
        new_AuthenticationError (Some message) undefined
      else if is_status c GrpcStatus.PERMISSION_DENIED then
        new_AuthenticationError (Some message) undefined
      else if is_status c GrpcStatus.NOT_FOUND then
        new_TemplateNotFoundError (VStr message) undefined
      else if is_status c GrpcStatus.RESOURCE_EXHAUSTED then
        new_RateLimitError (Some message) (AVal (VNum 0))
      else if is_status c GrpcStatus.UNAVAILABLE then
        new_ProviderError (Some EmptyString) (AVal (VStr EmptyString))
      else if is_status c GrpcStatus.DEADLINE_EXCEEDED then
        new_TimeoutError (timeout self)
      else if is_status c GrpcStatus.INTERNAL then
        new_HuefyError message (Some "INTERNAL_ERROR") None undefined
      else
        new_NetworkError
          (Some ("gRPC error (" +:+ ToString c +:+ "): " +:+ message)) None
  end.

Section MakeGrpcRequest.
Context {T : Type}.

(** [makeGrpcRequest(method, request)]; [rpc k] is what
    [executeGrpcCall] yields at attempt [k].  After the loop the
    converted [lastError] is thrown. *)
Definition makeGrpcRequest (self : t) (rpc : Z -> T + RawError)
    : option ((T + HuefyError) * list Retry.Event) :=
  match Retry.run (retryConfig self) rpc (isRetryableGrpcError self) with
  | Some (Retry.Returned response, events) => Some (inl response, events)
  | Some (Retry.Fell lastError, events) =>
      Some (inr (convertGrpcError self lastError), events)
  | None => None
  end.

End MakeGrpcRequest.

End GrpcClient.

(** ** The kernel (subprocess) client *)

Module KernelClient.
Import Errors.

Definition DEFAULT_RETRY_CONFIG : Types.RetryConfig :=
  {| Types.maxAttempts := 3;
     Types.initialDelay := 1000;
     Types.backoffMultiplier := 2;
     Types.maxDelay := 10000;
     Types.retryableStatusCodes := [14; 13; 8] |}.

Record t : Type := {
  apiKey : string;
  endpoint : string;
  timeout : Z;
  retryConfig : Types.RetryConfig;
  kernelBinaryPath : string;
}.

(** [platform] and [arch] are [os.platform()] and [os.arch()];
    [packageDir] is the package root. *)
Definition getKernelBinaryPath (platform arch packageDir : string)
    : string + HuefyError :=
  let joined binaryName := inl (packageDir +:+ "/bin/" +:+ binaryName) in
  if String.eqb platform "darwin" then
    joined (if String.eqb arch "arm64" then "kernel-cli-darwin-arm64"
            else "kernel-cli-darwin-amd64")
  else if String.eqb platform "linux" then
    joined (if String.eqb arch "arm64" then "kernel-cli-linux-arm64"
            else "kernel-cli-linux-amd64")
  else if String.eqb platform "win32" then
    joined "kernel-cli-windows-amd64.exe"
  else
    inr (new_HuefyError ("Unsupported platform: " +:+ platform)
           (Some "UNSUPPORTED_PLATFORM") None undefined).

Definition new (isProduction : bool) (platform arch packageDir : string)
    (config : Types.HuefyConfig) : t + HuefyError :=
  let this_apiKey := Types.apiKey config in
  let this_endpoint := GrpcClient.getGrpcEndpoint isProduction config in
  let this_timeout := num_or (Types.timeout config) 30000 in
  let this_retryConfig :=
    {| Types.maxAttempts :=
         num_or (Types.retryAttempts config) (Types.maxAttempts DEFAULT_RETRY_CONFIG);
       Types.initialDelay :=
         num_or (Types.retryDelay config) (Types.initialDelay DEFAULT_RETRY_CONFIG);
       Types.backoffMultiplier := Types.backoffMultiplier DEFAULT_RETRY_CONFIG;
       Types.maxDelay := Types.maxDelay DEFAULT_RETRY_CONFIG;
       Types.retryableStatusCodes := Types.retryableStatusCodes DEFAULT_RETRY_CONFIG |} in
  if negb (truthy this_apiKey) || negb (HttpClient.is_string this_apiKey) then
    inr (new_HuefyError "API key is required and must be a string"
           (Some "INVALID_CONFIG") None undefined)
  else if this_timeout <? 0 then
    inr (new_HuefyError "Timeout must be a positive number"
           (Some "INVALID_CONFIG") None undefined)
  else
    match getKernelBinaryPath platform arch packageDir with
    | inr e => inr e
    | inl path =>
        inl {| apiKey := ToString this_apiKey;
               endpoint := this_endpoint;
               timeout := this_timeout;
               retryConfig := this_retryConfig;
               kernelBinaryPath := path |}
    end.

(** [error.message?.includes(sub)] *)
Definition message_includes (error : Thrown) (sub : string) : bool :=
  match thrown_message error with
  | Some m => includes m sub
  | None => false
  end.

Definition isRetryableError (error : Thrown) : bool :=
  if match error with ThrownHuefy e => instanceof e TimeoutErrorC | _ => false end
  then true
  else if match error with ThrownHuefy e => instanceof e NetworkErrorC | _ => false end
  then true
  else if message_includes error "ECONNREFUSED" || message_includes error "timeout"
  then true
  else false.

(** [None] is [null]; [!error] also holds for a falsy value. *)
Definition convertError (self : t) (error : option Thrown) : HuefyError :=
  match error with
  | None | Some (ThrownOther true _) =>
      new_HuefyError "Unknown error occurred" (Some "UNKNOWN_ERROR") None undefined
  | Some (ThrownHuefy e) => e
  | Some error =>
      let message := str_or (thrown_message error) "Unknown kernel error" in
      if includes message "API key" then
        new_AuthenticationError (Some message) undefined
      else if includes message "template" then
        new_TemplateNotFoundError (VStr message) undefined
      else if includes message "rate limit" then
        new_RateLimitError (Some message) (AVal (VNum 0))
      else if includes message "timeout" then
        new_TimeoutError (timeout self)
      else if includes message "network" || includes message "connection" then
        new_NetworkError (Some message) None
      else
        new_HuefyError message (Some "KERNEL_ERROR") None undefined
  end.

Section Spawn.
(** [D] is the type of [response.data]. *)
Context {D : Type}.

Record CLIErrorBody : Type := {
  error_code : string;
  error_message : string;
}.

Record CLIResponse : Type := {
  success : bool;
  data : option D;
  error : option CLIErrorBody;
}.

(** [JSON.parse(stdout)] followed by the reads of the parsed value
    inside the same [try]: the response, or the rendering of what was
    thrown. *)
Variable JSON_parse : string -> CLIResponse + string.

(** What happens to the child process after [spawn], in order of
    occurrence.  [Close None] is a close with exit code [null] (the
    child was ended by a signal); [TimeoutFired] is the call-back of
    [setTimeout(..., this.timeout)]. *)
Inductive ProcEvent : Type :=
| StdoutData (chunk : string)
| StderrData (chunk : string)
| Close (exitCode : option Z)
| ErrorEvent (message : string)
| TimeoutFired.

(** The local variables of the promise executor, the state of the
    promise and whether [kill()] was called.  A promise keeps its first
    settlement. *)
Record ProcState : Type := {
  stdout : string;
  stderr : string;
  settled : option (option D + Thrown);
  killed : bool;
}.

Definition resolve (value : option D) (st : ProcState) : ProcState :=
  match settled st with
  | Some _ => st
  | None => {| stdout := stdout st; stderr := stderr st;
               settled := Some (inl value); killed := killed st |}
  end.

Definition reject (reason : Thrown) (st : ProcState) : ProcState :=
  match settled st with
  | Some _ => st
  | None => {| stdout := stdout st; stderr := stderr st;
               settled := Some (inr reason); killed := killed st |}
  end.

Definition plainError (message : string) : Thrown :=
  ThrownError false "Error" message.

Definition render_exit (exitCode : option Z) : string :=
  match exitCode with
  | Some n => pretty n
  | None => "null"
  end.

Definition on_close (exitCode : option Z) (st : ProcState) : ProcState :=
  if negb (match exitCode with Some n => n =? 0 | None => false end) then
    reject (plainError ("Kernel process exited with code "
                        +:+ render_exit exitCode +:+ ": " +:+ stderr st)) st
  else
    match JSON_parse (stdout st) with
    | inl response =>
        if negb (success response) then
          reject (ThrownHuefy
                    (new_HuefyError
                       (str_or (option_map error_message (error response))
                               "Unknown kernel error")
                       (Some (str_or (option_map error_code (error response))
                                     "KERNEL_ERROR"))
                       None undefined)) st
        else resolve (data response) st
    | inr parseError =>
        reject (plainError ("Failed to parse kernel response: " +:+ parseError)) st
    end.

Definition on_event (self : t) (st : ProcState) (ev : ProcEvent) : ProcState :=
  match ev with
  | StdoutData chunk =>
      {| stdout := stdout st +:+ chunk; stderr := stderr st;
         settled := settled st; killed := killed st |}
  | StderrData chunk =>
      {| stdout := stdout st; stderr := stderr st +:+ chunk;
         settled := settled st; killed := killed st |}
  | Close exitCode => on_close exitCode st
  | ErrorEvent message =>
      reject (plainError ("Failed to spawn kernel process: " +:+ message)) st
  | TimeoutFired =>
      reject (ThrownHuefy (new_TimeoutError (timeout self)))
        {| stdout := stdout st; stderr := stderr st;
           settled := settled st; killed := true |}
  end.

(** [spawnKernelProcess(request)].  [writeFailure] is the rendering of
    what writing the request to the child's input throws, if anything;
    [events] is what happens afterwards. *)
Definition spawnKernelProcess (self : t) (writeFailure : option string)
    (events : list ProcEvent) : ProcState :=
  let st0 := {| stdout := EmptyString; stderr := EmptyString;
               settled := None; killed := false |} in
  let st1 :=
    match writeFailure with
    | Some rendering =>
        reject (plainError ("Failed to write to kernel process: " +:+ rendering)) st0
    | None => st0
    end in
  fold_left (on_event self) events st1.

(** [executeKernelCommand(request)]; [spawned k] is what awaiting
    [spawnKernelProcess] yields at attempt [k]. *)
Definition executeKernelCommand (self : t) (spawned : Z -> option D + Thrown)
    : option ((option D + HuefyError) * list Retry.Event) :=
  match Retry.run (retryConfig self) spawned isRetryableError with
  | Some (Retry.Returned response, events) => Some (inl response, events)
  | Some (Retry.Fell lastError, events) =>
      Some (inr (convertError self lastError), events)
  | None => None
  end.

End Spawn.

End KernelClient.

(** ** The vocabulary of the specification

    The definitions of this module follow the specification's words; the
    theorems below compare them with the code. *)

Module Spec.
Import Errors.

(** The closed set of error kinds. *)
Inductive Kind : Type :=
| Authentication
| TemplateNotFound
| InvalidTemplateData
| InvalidRecipient
| Provider
| RateLimit
| Network
| Timeout
| Validation
| Internal
| Unknown.

#[global] Instance Kind_eq_dec : EqDecision Kind.
Proof. solve_decision. Defined.

(** The kind of an error object is its class.  An error of the base class
    is [Internal] when it carries the code INTERNAL_ERROR and [Unknown]
    otherwise. *)
Definition kind (e : HuefyError) : Kind :=
  match cls e with
  | AuthenticationErrorC => Authentication
  | TemplateNotFoundErrorC => TemplateNotFound
  | InvalidTemplateDataErrorC => InvalidTemplateData
  | InvalidRecipientErrorC => InvalidRecipient
  | ProviderErrorC => Provider
  | RateLimitErrorC => RateLimit
  | NetworkErrorC => Network
  | TimeoutErrorC => Timeout
  | ValidationErrorC => Validation
  | HuefyErrorC =>
      if String.eqb (code e) "INTERNAL_ERROR" then Internal else Unknown
  end.

(** The statusCode column of the mapping table. *)
Definition table_statusCode (k : Kind) : option Z :=
  match k with
  | Authentication => Some 401
  | TemplateNotFound => Some 404
  | InvalidTemplateData => Some 400
  | InvalidRecipient => Some 400
  | Provider => Some 500
  | RateLimit => Some 429
  | Network => None
  | Timeout => None
  | Validation => Some 400
  | Internal => Some 500
  | Unknown => None
  end.

(** "kind and statusCode are consistent with the mapping table" *)
Definition consistent (e : HuefyError) : Prop :=
  statusCode e = table_statusCode (kind e).

(** The kinds that "never retry". *)
Definition never_retried (k : Kind) : bool :=
  match k with
  | Authentication | TemplateNotFound | InvalidTemplateData
  | InvalidRecipient | Validation => true
  | _ => false
  end.

(** The retryable set: "{Network, Timeout} unconditionally, plus
    RateLimit, plus any kind whose statusCode >= 500". *)
Definition in_retryable_set (e : HuefyError) : bool :=
  match kind e with
  | Network | Timeout | RateLimit => true
  | _ => match statusCode e with
         | Some s => 500 <=? s
         | None => false
         end
  end.

(** "delayMs = min(initialDelayMs * backoffMultiplier^(attempt-1),
    maxDelayMs)" *)
Definition delayMs (config : Types.RetryConfig) (attempt : Z) : Z :=
  Z.min (Types.initialDelay config * Types.backoffMultiplier config ^ (attempt - 1))
        (Types.maxDelay config).

(** A run of [n] attempts numbered from [first], with the back-off sleep
    of attempt [k] between attempt [k] and attempt [k + 1]. *)
Fixpoint backoff_trace (config : Types.RetryConfig) (first : Z) (n : nat)
    : list Retry.Event :=
  match n with
  | O => []
  | S n' =>
      Retry.Attempt first ::
      match n' with
      | O => []
      | S _ => Retry.Sleep (delayMs config first) :: backoff_trace config (first + 1) n'
      end
  end.

(** [n] consecutive numbers from [first]. *)
Fixpoint Zrange (first : Z) (n : nat) : list Z :=
  match n with
  | O => []
  | S n' => first :: Zrange (first + 1) n'
  end.

(** A trace of [n] attempts under the policy: the attempts are numbered
    1 to [n], and the sleep after attempt [k], for [k] from 1 to [n - 1],
    lasts [delayMs config k]. *)
Definition backoff_run (config : Types.RetryConfig) (events : list Retry.Event)
    (n : nat) : Prop :=
  events = backoff_trace config 1 n
  /\ Retry.attempts events = Zrange 1 n
  /\ Retry.sleeps events = map (delayMs config) (Zrange 1 (n - 1)).

(** The code table of the RPC transport as the specification gives it. *)
Definition rpc_table (c : JsVal) : Kind :=
  match c with
  | VNum 16 => Authentication
  | VNum 5 => TemplateNotFound
  | VNum 8 => RateLimit
  | VNum 14 => Provider
  | VNum 4 => Timeout
  | VNum 3 => Validation
  | VNum 13 => Internal
  | _ => Network
  end.

(** The same table with permission-denied mapped to [Authentication]. *)
Definition rpc_table_amended (c : JsVal) : Kind :=
  match c with
  | VNum 7 => Authentication
  | _ => rpc_table c
  end.

End Spec.

(** The error objects that the constructors of errors.ts build. *)
Inductive Constructed : Errors.HuefyError -> Prop :=
| C_HuefyError m c s d : Constructed (Errors.new_HuefyError m c s d)
| C_AuthenticationError m d : Constructed (Errors.new_AuthenticationError m d)
| C_TemplateNotFoundError k d : Constructed (Errors.new_TemplateNotFoundError k d)
| C_InvalidTemplateDataError m d : Constructed (Errors.new_InvalidTemplateDataError m d)
| C_InvalidRecipientError r d : Constructed (Errors.new_InvalidRecipientError r d)
| C_ProviderError m d : Constructed (Errors.new_ProviderError m d)
| C_RateLimitError m d : Constructed (Errors.new_RateLimitError m d)
| C_NetworkError m c : Constructed (Errors.new_NetworkError m c)
| C_TimeoutError t : Constructed (Errors.new_TimeoutError t)
| C_ValidationError m d : Constructed (Errors.new_ValidationError m d).

(** [error.details.k] *)
Definition details_get (e : Errors.HuefyError) (k : string) : option JsVal :=
  match Errors.details e with
  | AObj o => o !! k
  | AVal _ => None
  end.

(** The remote codes of the mapping table, with their kinds. *)
Definition known_code_kind (c : string) : option Spec.Kind :=
  if String.eqb c "INVALID_API_KEY" then Some Spec.Authentication
  else if String.eqb c "TEMPLATE_NOT_FOUND" then Some Spec.TemplateNotFound
  else if String.eqb c "INVALID_TEMPLATE_DATA" then Some Spec.InvalidTemplateData
  else if String.eqb c "INVALID_RECIPIENT" then Some Spec.InvalidRecipient
  else if String.eqb c "PROVIDER_ERROR" then Some Spec.Provider
  else if String.eqb c "RATE_LIMIT_EXCEEDED" then Some Spec.RateLimit
  else None.

(** The codes that the clients assign themselves: the members of
    [ErrorCode] and the literals of errors.ts, http.ts, grpc-client.ts and
    the kernel client. *)
Definition sdk_codes : list string :=
  ["INVALID_API_KEY"; "TEMPLATE_NOT_FOUND"; "INVALID_TEMPLATE_DATA";
   "INVALID_RECIPIENT"; "PROVIDER_ERROR"; "RATE_LIMIT_EXCEEDED";
   "INTERNAL_ERROR"; "NETWORK_ERROR"; "TIMEOUT_ERROR"; "VALIDATION_ERROR";
   "UNKNOWN_ERROR"; "INVALID_RESPONSE"; "UNEXPECTED_ERROR"; "KERNEL_ERROR";
   "INVALID_CONFIG"; "GRPC_INIT_ERROR"; "UNSUPPORTED_PLATFORM"].

(** The codes of the errors that each transport builds itself. *)
Definition stream_codes : list string :=
  ["TIMEOUT_ERROR"; "NETWORK_ERROR"; "INVALID_RESPONSE"; "UNEXPECTED_ERROR";
   "UNKNOWN_ERROR"; "INVALID_API_KEY"; "TEMPLATE_NOT_FOUND";
   "INVALID_TEMPLATE_DATA"; "INVALID_RECIPIENT"; "PROVIDER_ERROR";
   "RATE_LIMIT_EXCEEDED"].

Definition rpc_codes : list string :=
  ["UNKNOWN_ERROR"; "VALIDATION_ERROR"; "INVALID_API_KEY"; "TEMPLATE_NOT_FOUND";
   "RATE_LIMIT_EXCEEDED"; "PROVIDER_ERROR"; "TIMEOUT_ERROR"; "INTERNAL_ERROR";
   "NETWORK_ERROR"].

Definition subprocess_codes : list string :=
  ["UNKNOWN_ERROR"; "INVALID_API_KEY"; "TEMPLATE_NOT_FOUND";
   "RATE_LIMIT_EXCEEDED"; "TIMEOUT_ERROR"; "NETWORK_ERROR"; "KERNEL_ERROR"].

(** The status codes that the RPC mapper lists. *)
Definition rpc_listed : list Z :=
  [GrpcStatus.INVALID_ARGUMENT; GrpcStatus.UNAUTHENTICATED;
   GrpcStatus.PERMISSION_DENIED; GrpcStatus.NOT_FOUND;
   GrpcStatus.RESOURCE_EXHAUSTED; GrpcStatus.UNAVAILABLE;
   GrpcStatus.DEADLINE_EXCEEDED; GrpcStatus.INTERNAL].

(** The trace of [k] failed attempts, numbered from 1, each followed by
    its back-off sleep. *)
Definition retried (config : Types.RetryConfig) (k : nat) : list Retry.Event :=
  flat_map (fun j => [Retry.Attempt j; Retry.Sleep (Spec.delayMs config j)])
    (Spec.Zrange 1 k).

(** The events by which the child writes to its output or diagnostic
    stream. *)
Definition data_event (ev : KernelClient.ProcEvent) : bool :=
  match ev with
  | KernelClient.StdoutData _ | KernelClient.StderrData _ => true
  | _ => false
  end.

(** The events other than the end of the child. *)
Definition not_close (ev : KernelClient.ProcEvent) : bool :=
  match ev with
  | KernelClient.Close _ => false
  | _ => true
  end.

(** What the [data] handlers of the output and of the diagnostic stream
    have appended to [stdout] and to [stderr] after the given events. *)
Fixpoint stdout_of (events : list KernelClient.ProcEvent) : string :=
  match events with
  | [] => EmptyString
  | KernelClient.StdoutData chunk :: rest => chunk +:+ stdout_of rest
  | _ :: rest => stdout_of rest
  end.

Fixpoint stderr_of (events : list KernelClient.ProcEvent) : string :=
  match events with
  | [] => EmptyString
  | KernelClient.StderrData chunk :: rest => chunk +:+ stderr_of rest
  | _ :: rest => stderr_of rest
  end.

(** ** Sample clients and inputs *)

Module Samples.

Definition config : Types.HuefyConfig :=
  {| Types.apiKey := VStr "test-api-key";
     Types.baseUrl := None;
     Types.timeout := None;
     Types.retryAttempts := None;
     Types.retryDelay := None |}.

(** A configuration that sets the three numbers to 0, and one with a
    negative time-out. *)
Definition zero_config : Types.HuefyConfig :=
  {| Types.apiKey := VStr "test-api-key";
     Types.baseUrl := None;
     Types.timeout := Some 0;
     Types.retryAttempts := Some 0;
     Types.retryDelay := Some 0 |}.

Definition negative_timeout_config : Types.HuefyConfig :=
  {| Types.apiKey := VStr "test-api-key";
     Types.baseUrl := None;
     Types.timeout := Some (-1);
     Types.retryAttempts := None;
     Types.retryDelay := None |}.

(** The clients built from [config]: three attempts, delays 1000 and
    2000, time-out 30000. *)
Definition http : HttpClient.t :=
  {| HttpClient.apiKey := "test-api-key";
     HttpClient.baseUrl := "https://api.huefy.com/api/v1/sdk";
     HttpClient.timeout := 30000;
     HttpClient.retryConfig := HttpClient.DEFAULT_RETRY_CONFIG |}.

Definition grpc : GrpcClient.t :=
  {| GrpcClient.apiKey := "test-api-key";
     GrpcClient.endpoint := "localhost:50051";
     GrpcClient.timeout := 30000;
     GrpcClient.retryConfig := GrpcClient.DEFAULT_RETRY_CONFIG |}.

(** A configuration that allows five attempts, and the RPC client built
    from it. *)
Definition five_attempts_config : Types.HuefyConfig :=
  {| Types.apiKey := VStr "test-api-key";
     Types.baseUrl := None;
     Types.timeout := None;
     Types.retryAttempts := Some 5;
     Types.retryDelay := None |}.

Definition grpc_five : GrpcClient.t :=
  {| GrpcClient.apiKey := "test-api-key";
     GrpcClient.endpoint := "localhost:50051";
     GrpcClient.timeout := 30000;
     GrpcClient.retryConfig :=
       {| Types.maxAttempts := 5;
          Types.initialDelay := 1000;
          Types.backoffMultiplier := 2;
          Types.maxDelay := 10000;
          Types.retryableStatusCodes := [14; 13; 8] |} |}.

Definition kernel : KernelClient.t :=
  {| KernelClient.apiKey := "test-api-key";
     KernelClient.endpoint := "localhost:50051";
     KernelClient.timeout := 30000;
     KernelClient.retryConfig := KernelClient.DEFAULT_RETRY_CONFIG;
     KernelClient.kernelBinaryPath := "/pkg/bin/kernel-cli-linux-amd64" |}.

(** What the close handler rejects with when the child exits with code 1
    and the given diagnostic text. *)
Definition kernel_failure (diagnostics : string) : Errors.Thrown :=
  Errors.ThrownError false "Error"
    ("Kernel process exited with code 1: " +:+ diagnostics).

Definition rpc_error (status : Z) (text : string) : GrpcClient.RawError :=
  {| GrpcClient.code := VNum status;
     GrpcClient.details := Some text;
     GrpcClient.message := None |}.

(** The remote error payload of the round-trip property. *)
Definition template_not_found_payload : Types.ErrorResponse :=
  {| Types.error := "x";
     Types.code := "TEMPLATE_NOT_FOUND";
     Types.details := Some {[ "template_key" := VStr "t" ]} |}.

(** A 503 answer of the remote service. *)
Definition unavailable_payload : Types.ErrorResponse :=
  {| Types.error := "Service unavailable";
     Types.code := "SERVICE_UNAVAILABLE";
     Types.details := None |}.

Definition answer (status : Z) (body : option Types.ErrorResponse)
    : HttpClient.FetchOutcome (T := Types.ErrorResponse) :=
  HttpClient.FetchResponds status EmptyString [] body.

(** A stand-in for [JSON.parse] on the child's output: only the text
    [ok] decodes, to a successful response without data. *)
Definition parse_ok_only (s : string)
    : KernelClient.CLIResponse (D := string) + string :=
  if String.eqb s "ok" then
    inl {| KernelClient.success := true;
           KernelClient.data := None;
           KernelClient.error := None |}
  else inr "SyntaxError: Unexpected token".

End Samples.

(** The retry policy the three constructors build from a configuration;
    [codes] is the list of status codes of the client's default policy. *)
Definition built_policy (config : Types.HuefyConfig) (codes : list Z)
    : Types.RetryConfig :=
  {| Types.maxAttempts := num_or (Types.retryAttempts config) 3;
     Types.initialDelay := num_or (Types.retryDelay config) 1000;
     Types.backoffMultiplier := 2;
     Types.maxDelay := 10000;
     Types.retryableStatusCodes := codes |}.

(** ** Regular expressions

    The anchored pattern of [isValidEmail] is matched by derivatives:
    [test r s] is [/^r$/.test(s)] for a pattern without groups or
    look-around, on the code units of [s]. *)

Module Regex.

Inductive regex : Type :=
| Empty
| Eps
| Class (p : N -> bool)
| Cat (r1 r2 : regex)
| Alt (r1 r2 : regex)
| Star (r : regex).

(** [r+] and a literal character. *)
Definition Plus (r : regex) : regex := Cat r (Star r).
Definition Chr (c : N) : regex := Class (N.eqb c).

Fixpoint nullable (r : regex) : bool :=
  match r with
  | Empty => false
  | Eps => true
  | Class _ => false
  | Cat r1 r2 => nullable r1 && nullable r2
  | Alt r1 r2 => nullable r1 || nullable r2
  | Star _ => true
  end.

Fixpoint deriv (c : N) (r : regex) : regex :=
  match r with
  | Empty => Empty
  | Eps => Empty
  | Class p => if p c then Eps else Empty
  | Cat r1 r2 =>
      if nullable r1 then Alt (Cat (deriv c r1) r2) (deriv c r2)
      else Cat (deriv c r1) r2
  | Alt r1 r2 => Alt (deriv c r1) (deriv c r2)
  | Star r' => Cat (deriv c r') (Star r')
  end.

Fixpoint test (r : regex) (s : list N) : bool :=
  match s with
  | [] => nullable r
  | c :: s' => test (deriv c r) s'
  end.

(** The strings a pattern denotes. *)
Inductive lang : regex -> list N -> Prop :=
| lang_Eps : lang Eps []
| lang_Class p c : p c = true -> lang (Class p) [c]
| lang_Cat r1 r2 s1 s2 :
    lang r1 s1 -> lang r2 s2 -> lang (Cat r1 r2) (s1 ++ s2)%list
| lang_Alt_l r1 r2 s : lang r1 s -> lang (Alt r1 r2) s
| lang_Alt_r r1 r2 s : lang r2 s -> lang (Alt r1 r2) s
| lang_Star_nil r : lang (Star r) []
| lang_Star_cons r s1 s2 :
    lang r s1 -> lang (Star r) s2 -> lang (Star r) (s1 ++ s2)%list.

End Regex.

(** ** client.ts *)

Module HuefyClient.
Import Errors.

(** [typeof v] *)
Definition typeof (v : JsAny) : string :=
  match v with
  | AVal VUndefined => "undefined"
  | AVal VNull => "object"
  | AVal (VBool _) => "boolean"
  | AVal (VNum _) => "number"
  | AVal (VStr _) => "string"
  | AObj _ => "object"
  end.

(** Truthiness of a value of type [any]: every object is truthy. *)
Definition truthy_any (v : JsAny) : bool :=
  match v with
  | AVal x => truthy x
  | AObj _ => true
  end.

(** The string held by a value whose [typeof] is string. *)
Definition string_of (v : JsAny) : string :=
  match v with
  | AVal (VStr s) => s
  | _ => EmptyString
  end.

(** The UTF-16 code units of a string of the model, one per character. *)
Definition code_units (s : string) : list N :=
  map Ascii.N_of_ascii (String.list_ascii_of_string s).

(** White space and line terminators, by code unit: tab, line feed,
    vertical tab, form feed, carriage return, space, no-break space,
    U+1680, U+2000 to U+200A, U+2028, U+2029, U+202F, U+205F, U+3000 and
    U+FEFF.  This is the class [\s] and what [trim] removes. *)
Definition is_space (c : N) : bool :=
  (existsb (N.eqb c)
     [9; 10; 11; 12; 13; 32; 160; 5760; 8232; 8233; 8239; 8287; 12288; 65279]
   || ((8192 <=? c) && (c <=? 8202)))%N.

Fixpoint trimStart (s : list N) : list N :=
  match s with
  | [] => []
  | c :: s' => if is_space c then trimStart s' else s
  end.

Fixpoint trimEnd (s : list N) : list N :=
  match s with
  | [] => []
  | c :: s' =>
      match trimEnd s' with
      | [] => if is_space c then [] else [c]
      | rest => c :: rest
      end
  end.

Definition trim (s : list N) : list N := trimEnd (trimStart s).

(** The class [[^\s@]]; 64 is the code unit of [@]. *)
Definition not_space_at (c : N) : bool :=
  negb (is_space c) && negb (c =? 64)%N.

(** A non-empty string without white space and without [@]. *)
Definition word (w : list N) : Prop :=
  w <> [] /\ forallb not_space_at w = true.

(** [/^[^\s@]+@[^\s@]+\.[^\s@]+$/]; 46 is the code unit of the dot. *)
Definition emailRegex : Regex.regex :=
  Regex.Cat (Regex.Plus (Regex.Class not_space_at))
    (Regex.Cat (Regex.Chr 64)
       (Regex.Cat (Regex.Plus (Regex.Class not_space_at))
          (Regex.Cat (Regex.Chr 46)
             (Regex.Plus (Regex.Class not_space_at))))).

(** [isValidEmail(email)], on the code units of [email]. *)
Definition isValidEmail (email : list N) : bool :=
  Regex.test emailRegex email.

(** The [data] argument as it arrives: a primitive, an array, or a plain
    object with its entries in the order in which [Object.entries] lists
    them (keys that are array indices first, in ascending order, then the
    other keys in insertion order). *)
Inductive JsData : Type :=
| DataVal (v : JsVal)
| DataArray (items : list JsAny)
| DataObject (entries : list (string * JsAny)).

Definition ValidationError (message : string) : HuefyError :=
  new_ValidationError (Some message) undefined.

(** The first entry whose value is not a string, as the [for] loop over
    [Object.entries(data)] finds it. *)
Definition first_non_string (entries : list (string * JsAny))
    : option (string * JsAny) :=
  List.find (fun kv => negb (String.eqb (typeof (snd kv)) "string")) entries.

(** [validateSendEmailInput(templateKey, data, recipient)]: [None] when it
    returns, the thrown error otherwise.  [length] is the number of code
    units. *)
Definition validateSendEmailInput (templateKey : JsAny) (data : JsData)
    (recipient : JsAny) : option HuefyError :=
  if negb (truthy_any templateKey) || negb (String.eqb (typeof templateKey) "string")
  then Some (ValidationError "Template key is required and must be a string")
  else if (List.length (trim (code_units (string_of templateKey))) =? 0)%nat
  then Some (ValidationError "Template key cannot be empty")
  else if (100 <? List.length (code_units (string_of templateKey)))%nat
  then Some (ValidationError "Template key cannot exceed 100 characters")
  else
    match data with
    | DataVal _ => Some (ValidationError "Data is required and must be an object")
    | DataArray _ => Some (ValidationError "Data must be an object, not an array")
    | DataObject entries =>
        match first_non_string entries with
        | Some (key, value) =>
            Some (ValidationError
                    ("Data value for key '" +:+ key +:+ "' must be a string, got "
                     +:+ typeof value))
        | None =>
            if negb (truthy_any recipient)
               || negb (String.eqb (typeof recipient) "string")
            then Some (ValidationError "Recipient is required and must be a string")
            else if negb (isValidEmail (code_units (string_of recipient)))
            then Some (ValidationError
                         ("Invalid email address: " +:+ string_of recipient))
            else if (254 <? List.length (code_units (string_of recipient)))%nat
            then Some (ValidationError "Email address cannot exceed 254 characters")
            else None
        end
    end.

(** The request payload built by [sendEmail]; [providerType] is present
    when [options.provider] is truthy. *)
Record SendEmailRequest : Type := {
  templateKey : string;
  data : list (string * JsAny);
  recipient : string;
  providerType : option string;
}.

Section Client.
(** [T] is the type of the decoded response body. *)
Context {T : Type}.
Variable asErrorResponse : T -> ErrorData.

(** The event call-backs.  A call-back is a function of the caller; what
    it does is given by what it throws, if anything. *)
Record HuefyEventCallbacks : Type := {
  onSendStart : option (SendEmailRequest -> option Thrown);
  onSendSuccess : option (T -> option Thrown);
  onSendError : option (HuefyError -> option Thrown);
}.

Record t : Type := {
  http : HttpClient.t;
  callbacks : option HuefyEventCallbacks;
}.

(** [new HuefyClient(config, callbacks)] *)
Definition new (config : Types.HuefyConfig) (callbacks : option HuefyEventCallbacks)
    : t + HuefyError :=
  match HttpClient.new config with
  | inl h => inl {| http := h; callbacks := callbacks |}
  | inr e => inr e
  end.

(** What [sendEmail] does besides computing its result, in order. *)
Inductive ClientEvent : Type :=
| CalledSendStart (request : SendEmailRequest)
| Posted (request : SendEmailRequest) (events : list Retry.Event)
| CalledSendSuccess (response : T)
| CalledSendError (error : HuefyError).

(** [this.callbacks?.f?.(x)]: the event of the call and what it throws. *)
Definition call_back {A : Type} (self : t)
    (f : HuefyEventCallbacks -> option (A -> option Thrown))
    (event : ClientEvent) (x : A) : list ClientEvent * option Thrown :=
  match callbacks self with
  | Some cbs =>
      match f cbs with
      | Some g => ([event], g x)
      | None => ([], None)
      end
  | None => ([], None)
  end.

(** [error instanceof HuefyError ? error : new HuefyError(error instanceof
    Error ? error.message : String(error), 'UNEXPECTED_ERROR')], with
    [None] for [null]. *)
Definition toHuefyError (error : option Thrown) : HuefyError :=
  match error with
  | Some (ThrownHuefy e) => e
  | Some (ThrownError _ _ m) => new_HuefyError m (Some "UNEXPECTED_ERROR") None undefined
  | Some (ThrownOther _ rendering) =>
      new_HuefyError rendering (Some "UNEXPECTED_ERROR") None undefined
  | None => new_HuefyError "null" (Some "UNEXPECTED_ERROR") None undefined
  end.

(** The [catch] clause of [sendEmail]. *)
Definition sendEmail_catch (self : t) (error : option Thrown)
    (before : list ClientEvent) : (T + Thrown) * list ClientEvent :=
  let huefyError := toHuefyError error in
  match call_back self onSendError (CalledSendError huefyError) huefyError with
  | (events, Some thrown) => (inr thrown, (before ++ events)%list)
  | (events, None) => (inr (ThrownHuefy huefyError), (before ++ events)%list)
  end.

(** [sendEmail(templateKey, data, recipient, options)]; [provider] is
    [options?.provider] and [net k] the behaviour of the network at
    attempt [k] of the POST. *)
Definition sendEmail (self : t) (templateKey : JsAny) (data : JsData)
    (recipient : JsAny) (provider : option string)
    (net : Z -> HttpClient.FetchOutcome)
    : option ((T + Thrown) * list ClientEvent) :=
  match validateSendEmailInput templateKey data recipient with
  | Some e => Some (inr (ThrownHuefy e), [])
  | None =>
      let request :=
        {| HuefyClient.templateKey := string_of templateKey;
           HuefyClient.data := match data with
                               | DataObject entries => entries
                               | _ => []
                               end;
           HuefyClient.recipient := string_of recipient;
           HuefyClient.providerType :=
             match provider with
             | Some p => if String.eqb p EmptyString then None else Some p
             | None => None
             end |} in
      match call_back self onSendStart (CalledSendStart request) request with
      | (started, Some thrown) => Some (sendEmail_catch self (Some thrown) started)
      | (started, None) =>
          match HttpClient.request asErrorResponse (http self) None net with
          | None => None
          | Some (Retry.Returned response, events) =>
              let posted := (started ++ [Posted request events])%list in
              match call_back self onSendSuccess
                      (CalledSendSuccess (Types.data response)) (Types.data response) with
              | (succeeded, Some thrown) =>
                  Some (sendEmail_catch self (Some thrown) (posted ++ succeeded)%list)
              | (succeeded, None) =>
                  Some (inl (Types.data response), (posted ++ succeeded)%list)
              end
          | Some (Retry.Fell lastError, events) =>
              Some (sendEmail_catch self lastError
                      (started ++ [Posted request events])%list)
          end
      end
  end.

(** [validateTemplate(templateKey, testData)] *)
Definition validateTemplate (self : t) (templateKey : JsAny) (testData : JsData)
    (net : Z -> HttpClient.FetchOutcome) : option bool :=
  match sendEmail self templateKey testData (AVal (VStr "test@huefy.com")) None net with
  | None => None
  | Some (inl _, _) => Some true
  | Some (inr (ThrownHuefy e), _) =>
      Some (negb (existsb (String.eqb (code e))
                    ["TEMPLATE_NOT_FOUND"; "INVALID_TEMPLATE_DATA"]))
  | Some (inr _, _) => Some false
  end.

(** One element of the array given to [sendBulkEmails]. *)
Record BulkEmail : Type := {
  bulk_templateKey : JsAny;
  bulk_data : JsData;
  bulk_recipient : JsAny;
  bulk_provider : option string;
}.

(** One element of the array [sendBulkEmails] resolves to. *)
Record BulkResult : Type := {
  email : JsAny;
  success : bool;
  result : option T;
  error : option HuefyError;
}.

(** The function mapped over the array: it catches whatever [sendEmail]
    throws. *)
Definition sendBulkEmails_one (self : t) (item : BulkEmail)
    (net : Z -> HttpClient.FetchOutcome) : option BulkResult :=
  match sendEmail self (bulk_templateKey item) (bulk_data item)
          (bulk_recipient item) (bulk_provider item) net with
  | None => None
  | Some (inl r, _) =>
      Some {| email := bulk_recipient item; success := true;
              result := Some r; error := None |}
  | Some (inr thrown, _) =>
      Some {| email := bulk_recipient item; success := false;
              result := None; error := Some (toHuefyError (Some thrown)) |}
  end.

Fixpoint sendBulkEmails_all (self : t) (index : nat) (emails : list BulkEmail)
    (net : nat -> Z -> HttpClient.FetchOutcome) : option (list BulkResult) :=
  match emails with
  | [] => Some []
  | item :: rest =>
      match sendBulkEmails_one self item (net index),
            sendBulkEmails_all self (S index) rest net with
      | Some r, Some rs => Some (r :: rs)
      | _, _ => None
      end
  end.

(** [sendBulkEmails(emails)]; [emails = None] when the argument is not an
    array, and [net i] is the network as the send of element [i] sees it.
    Only the resolved array is modelled, not the interleaving of the
    sends. *)
Definition sendBulkEmails (self : t) (emails : option (list BulkEmail))
    (net : nat -> Z -> HttpClient.FetchOutcome)
    : option (list BulkResult + HuefyError) :=
  match emails with
  | None | Some [] =>
      Some (inr (ValidationError "Emails array is required and must not be empty"))
  | Some items =>
      if (100 <? List.length items)%nat then
        Some (inr (ValidationError "Maximum 100 emails allowed per bulk request"))
      else
        match sendBulkEmails_all self 0 items net with
        | Some results => Some (inl results)
        | None => None
        end
  end.

End Client.

End HuefyClient.

(** ** Sample inputs of the main client *)

Module ClientSamples.

(** A decoded body, read as a send response or as an error response. *)
Record Body : Type := {
  message_id : string;
  error_response : Types.ErrorResponse;
}.

Definition as_error (body : Body) : Errors.ErrorData :=
  Errors.typed (error_response body).

Definition sent : Body :=
  {| message_id := "msg-1";
     error_response := {| Types.error := EmptyString;
                          Types.code := EmptyString;
                          Types.details := None |} |}.

Definition unavailable : Body :=
  {| message_id := EmptyString; error_response := Samples.unavailable_payload |}.

Definition invalid_key : Body :=
  {| message_id := EmptyString;
     error_response := {| Types.error := "bad key";
                          Types.code := "INVALID_API_KEY";
                          Types.details := None |} |}.

(** A body that is [null] or of the declared type. *)
Definition nullable (body : option Types.ErrorResponse) : Errors.ErrorData :=
  match body with
  | Some data => Errors.typed data
  | None => Errors.BodyNull "Cannot read properties of null"
  end.

Definition respond (status : Z) (body : option Body) : HttpClient.FetchOutcome :=
  HttpClient.FetchResponds status EmptyString [] body.

(** A service that answers 503 at attempts 1 and 2 and 200 afterwards. *)
Definition recovers (attempt : Z) : HttpClient.FetchOutcome :=
  if attempt <? 3 then respond 503 (Some unavailable) else respond 200 (Some sent).

(** A service that answers 503 at attempt 1 and 401 afterwards. *)
Definition then_unauthorized (attempt : Z) : HttpClient.FetchOutcome :=
  if attempt <? 2 then respond 503 (Some unavailable)
  else respond 401 (Some invalid_key).

(** An RPC peer and a child process that fail retryably twice. *)
Definition rpc_recovers (attempt : Z) : unit + GrpcClient.RawError :=
  if attempt <? 3 then inr (Samples.rpc_error 14 "down") else inl tt.

Definition rpc_then_denied (attempt : Z) : unit + GrpcClient.RawError :=
  if attempt <? 2 then inr (Samples.rpc_error 14 "down")
  else inr (Samples.rpc_error 7 "denied").

Definition child_recovers (attempt : Z) : option unit + Errors.Thrown :=
  if attempt <? 3 then inr (Errors.ThrownHuefy (Errors.new_TimeoutError 30000))
  else inl (Some tt).

Definition child_then_fails (attempt : Z) : option unit + Errors.Thrown :=
  if attempt <? 2 then inr (Errors.ThrownHuefy (Errors.new_TimeoutError 30000))
  else inr (Samples.kernel_failure "unknown command").

(** The main client without call-backs, and one whose call-backs return
    except [onSendSuccess], which throws. *)
Definition client : HuefyClient.t (T := Body) :=
  {| HuefyClient.http := Samples.http; HuefyClient.callbacks := None |}.

Definition failing_success_callbacks : HuefyClient.HuefyEventCallbacks (T := Body) :=
  {| HuefyClient.onSendStart := Some (fun _ => None);
     HuefyClient.onSendSuccess :=
       Some (fun _ => Some (Errors.ThrownError false "Error" "metrics down"));
     HuefyClient.onSendError := Some (fun _ => None) |}.

Definition observed_client : HuefyClient.t (T := Body) :=
  {| HuefyClient.http := Samples.http;
     HuefyClient.callbacks := Some failing_success_callbacks |}.

Definition key : JsAny := AVal (VStr "welcome-email").
Definition data : HuefyClient.JsData :=
  HuefyClient.DataObject [("name", AVal (VStr "John Doe"))].
Definition to : JsAny := AVal (VStr "john@example.com").

(** The payload [sendEmail] builds from the three sample arguments. *)
Definition request : HuefyClient.SendEmailRequest :=
  {| HuefyClient.templateKey := "welcome-email";
     HuefyClient.data := [("name", AVal (VStr "John Doe"))];
     HuefyClient.recipient := "john@example.com";
     HuefyClient.providerType := None |}.

(** A service that always answers 401 with an invalid-key body, and one
    that always answers 200. *)
Definition unauthorized (attempt : Z) : HttpClient.FetchOutcome :=
  respond 401 (Some invalid_key).

Definition accepts (attempt : Z) : HttpClient.FetchOutcome :=
  respond 200 (Some sent).

Definition bulk (recipient : string) : HuefyClient.BulkEmail :=
  {| HuefyClient.bulk_templateKey := key;
     HuefyClient.bulk_data := data;
     HuefyClient.bulk_recipient := AVal (VStr recipient);
     HuefyClient.bulk_provider := None |}.

End ClientSamples.

(** * Properties *)

(** ** The retry loop *)

Section LoopFacts.
Context {R E : Type}.
Variable retryConfig : Types.RetryConfig.
Variable attemptOp : Z -> R + E.
Variable isRetryable : E -> bool.

Let N := Types.maxAttempts retryConfig.
Let loop := Retry.loop retryConfig attemptOp isRetryable.

(** One iteration of the loop. *)
Lemma loop_S (fuel : nat) (attempt : Z) (lastError : option E) :
  loop (S fuel) attempt lastError
  = if attempt <=? N then
      match attemptOp attempt with
      | inl response => Some (Retry.Returned response, [Retry.Attempt attempt])
      | inr error =>
          if attempt =? N then
            Some (Retry.Fell (Some error), [Retry.Attempt attempt])
          else if negb (isRetryable error) then
            Some (Retry.Fell (Some error), [Retry.Attempt attempt])
          else
            match loop fuel (attempt + 1) (Some error) with
            | Some (exit, events) =>
                Some (exit, Retry.Attempt attempt
                            :: Retry.Sleep (Spec.delayMs retryConfig attempt)
                            :: events)
            | None => None
            end
      end
    else Some (Retry.Fell lastError, []).
Proof. reflexivity. Qed.

(** With more fuel than remaining iterations the loop ends. *)
Lemma loop_total (fuel : nat) :
  forall attempt lastError,
    (Z.to_nat (N + 1 - attempt) < fuel)%nat ->
    exists r, loop fuel attempt lastError = Some r.
Proof.
  induction fuel as [|fuel IH]; intros attempt lastError Hfuel; [lia|].
  unfold loop in *; simpl. fold N.
  destruct (attempt <=? N) eqn:Hle; [|eauto].
  destruct (attemptOp attempt) as [response|error]; [eauto|].
  destruct (attempt =? N) eqn:Hlast; [eauto|].
  destruct (negb (isRetryable error)); [eauto|].
  apply Z.leb_le in Hle. apply Z.eqb_neq in Hlast.
  destruct (IH (attempt + 1) (Some error)) as [[exit events] Hrec]; [lia|].
  rewrite Hrec. eauto.
Qed.

Lemma run_total :
  exists r, Retry.run retryConfig attemptOp isRetryable = Some r.
Proof. apply loop_total. fold N. lia. Qed.

(** Whatever the attempts yield, the trace of the loop is a back-off
    trace: attempts numbered consecutively, each sleep computed from the
    number of the attempt before it. *)
Lemma loop_trace (fuel : nat) :
  forall attempt lastError exit events,
    loop fuel attempt lastError = Some (exit, events) ->
    exists n, events = Spec.backoff_trace retryConfig attempt n
              /\ (n <= Z.to_nat (N + 1 - attempt))%nat.
Proof.
  induction fuel as [|fuel IH]; intros attempt lastError exit events Hrun;
    [discriminate|].
  unfold loop in *; simpl in Hrun. fold N in Hrun.
  destruct (attempt <=? N) eqn:Hle.
  2:{ inversion Hrun; subst. exists 0%nat. split; [reflexivity|lia]. }
  apply Z.leb_le in Hle.
  assert (Hone : exists n, [Retry.Attempt attempt]
                           = Spec.backoff_trace retryConfig attempt n
                           /\ (n <= Z.to_nat (N + 1 - attempt))%nat).
  { exists 1%nat. split; [reflexivity|lia]. }
  destruct (attemptOp attempt) as [response|error].
  { inversion Hrun; subst. exact Hone. }
  destruct (attempt =? N) eqn:Hlast.
  { inversion Hrun; subst. exact Hone. }
  destruct (negb (isRetryable error)).
  { inversion Hrun; subst. exact Hone. }
  apply Z.eqb_neq in Hlast.
  destruct (Retry.loop retryConfig attemptOp isRetryable fuel (attempt + 1) (Some error))
    as [[exit' events']|] eqn:Hrec; [|discriminate].
  inversion Hrun; subst.
  destruct (IH _ _ _ _ Hrec) as [n [Hev Hn]].
  destruct n as [|n].
  - (* the recursive call starts with the loop test, which succeeds *)
    exfalso. destruct fuel as [|fuel']; [discriminate|].
    simpl in Hrec. fold N in Hrec.
    assert (Hle' : (attempt + 1 <=? N) = true) by (apply Z.leb_le; lia).
    rewrite Hle' in Hrec.
    destruct (attemptOp (attempt + 1)); [inversion Hrec; subst; discriminate|].
    destruct (attempt + 1 =? N); [inversion Hrec; subst; discriminate|].
    destruct (negb (isRetryable e)); [inversion Hrec; subst; discriminate|].
    destruct (Retry.loop retryConfig attemptOp isRetryable fuel' (attempt + 1 + 1) (Some e))
      as [[? ?]|]; inversion Hrec; subst; discriminate.
  - exists (S (S n)). split; [|lia].
    simpl. unfold Spec.delayMs. rewrite Hev. reflexivity.
Qed.

(** When every attempt fails with a retryable error, the loop makes all
    the remaining attempts and leaves with the error of the last one. *)
Lemma loop_all_fail (fuel : nat) :
  forall attempt lastError,
    1 <= attempt <= N ->
    (Z.to_nat (N + 1 - attempt) < fuel)%nat ->
    (forall k, attempt <= k <= N ->
               exists e, attemptOp k = inr e /\ isRetryable e = true) ->
    exists e, attemptOp N = inr e
              /\ loop fuel attempt lastError
                 = Some (Retry.Fell (Some e),
                         Spec.backoff_trace retryConfig attempt
                           (Z.to_nat (N + 1 - attempt))).
Proof.
  induction fuel as [|fuel IH]; intros attempt lastError Hrange Hfuel Hfail; [lia|].
  unfold loop in *; simpl. fold N.
  assert (Hle : (attempt <=? N) = true) by (apply Z.leb_le; lia).
  rewrite Hle.
  destruct (Hfail attempt ltac:(lia)) as [e [He Hretry]].
  rewrite He, Hretry. simpl.
  destruct (attempt =? N) eqn:Hlast.
  - apply Z.eqb_eq in Hlast. subst attempt.
    exists e. split; [exact He|].
    replace (Z.to_nat (N + 1 - N)) with 1%nat by lia. reflexivity.
  - apply Z.eqb_neq in Hlast.
    destruct (IH (attempt + 1) (Some e)) as [e' [He' Hrec]];
      [lia | lia | intros k Hk; apply Hfail; lia |].
    rewrite Hrec. exists e'. split; [exact He'|].
    replace (Z.to_nat (N + 1 - attempt))
      with (S (Z.to_nat (N + 1 - (attempt + 1)))) by lia.
    destruct (Z.to_nat (N + 1 - (attempt + 1))) as [|m] eqn:Hm; [lia|].
    reflexivity.
Qed.

Lemma run_all_fail :
  1 <= N ->
  (forall k, 1 <= k <= N -> exists e, attemptOp k = inr e /\ isRetryable e = true) ->
  exists e, attemptOp N = inr e
            /\ Retry.run retryConfig attemptOp isRetryable
               = Some (Retry.Fell (Some e),
                       Spec.backoff_trace retryConfig 1 (Z.to_nat N)).
Proof.
  intros HN Hfail.
  destruct (loop_all_fail (S (Z.to_nat N)) 1 None) as [e [He Hrun]];
    [lia | lia | exact Hfail |].
  exists e. split; [exact He|].
  unfold Retry.run. fold N. unfold loop in Hrun. rewrite Hrun.
  replace (N + 1 - 1) with N by lia. reflexivity.
Qed.

Lemma run_trace :
  exists exit n,
    Retry.run retryConfig attemptOp isRetryable
    = Some (exit, Spec.backoff_trace retryConfig 1 n)
    /\ (n <= Z.to_nat N)%nat.
Proof.
  destruct run_total as [[exit events] Hrun].
  destruct (loop_trace _ _ _ _ _ Hrun) as [n [Hev Hn]].
  exists exit, n. subst events. split; [exact Hrun|].
  replace (N + 1 - 1) with N in Hn by lia. exact Hn.
Qed.

(** A first failure that the predicate rejects ends the loop at once. *)
Lemma run_first_not_retryable (e : E) :
  1 <= N ->
  attemptOp 1 = inr e ->
  isRetryable e = false ->
  Retry.run retryConfig attemptOp isRetryable
  = Some (Retry.Fell (Some e), [Retry.Attempt 1]).
Proof.
  intros HN He Hno. unfold Retry.run. fold N. fold loop. rewrite loop_S.
  assert (Hle : (1 <=? N) = true) by (apply Z.leb_le; lia).
  rewrite Hle, He, Hno.
  destruct (1 =? N); reflexivity.
Qed.

(** After a first failure, a second attempt is made exactly when the
    predicate accepts the error and the budget allows it. *)
Lemma run_second_attempt (e : E) :
  2 <= N ->
  attemptOp 1 = inr e ->
  exists exit events,
    Retry.run retryConfig attemptOp isRetryable = Some (exit, events)
    /\ (In (Retry.Attempt 2) events <-> isRetryable e = true).
Proof.
  intros HN He.
  destruct run_total as [[exit events] Hrun].
  exists exit, events. split; [exact Hrun|].
  destruct (isRetryable e) eqn:Hretry.
  - split; [reflexivity|intros _].
    unfold Retry.run in Hrun. fold N in Hrun. fold loop in Hrun.
    rewrite loop_S in Hrun.
    assert (Hle : (1 <=? N) = true) by (apply Z.leb_le; lia).
    assert (Hne : (1 =? N) = false) by (apply Z.eqb_neq; lia).
    rewrite Hle, He, Hne, Hretry in Hrun. cbn [negb] in Hrun.
    destruct (loop (Z.to_nat N) (1 + 1) (Some e))
      as [[exit' events']|] eqn:Hrec; [|discriminate].
    inversion Hrun; subst exit events.
    destruct (Z.to_nat N) as [|fuel'] eqn:HfN; [lia|].
    rewrite loop_S in Hrec.
    assert (Hle2 : (1 + 1 <=? N) = true) by (apply Z.leb_le; lia).
    rewrite Hle2 in Hrec.
    destruct (attemptOp (1 + 1)).
    { inversion Hrec; subst. right; right; left; reflexivity. }
    destruct (1 + 1 =? N).
    { inversion Hrec; subst. right; right; left; reflexivity. }
    destruct (negb (isRetryable e0)).
    { inversion Hrec; subst. right; right; left; reflexivity. }
    destruct (loop fuel' (1 + 1 + 1) (Some e0))
      as [[? ?]|]; inversion Hrec; subst. right; right; left; reflexivity.
  - rewrite (run_first_not_retryable e ltac:(lia) He Hretry) in Hrun.
    inversion Hrun; subst exit events.
    split; [|discriminate].
    intros [Hin|[]]. discriminate.
Qed.

End LoopFacts.

(** ** Back-off traces *)

Lemma attempts_backoff_trace (config : Types.RetryConfig) (n : nat) :
  forall first,
    Retry.attempts (Spec.backoff_trace config first n) = Spec.Zrange first n.
Proof.
  induction n as [|n IH]; intros first; [reflexivity|].
  destruct n as [|n]; [reflexivity|].
  change (Retry.attempts (Spec.backoff_trace config first (S (S n))))
    with (first :: Retry.attempts (Spec.backoff_trace config (first + 1) (S n))).
  rewrite IH. reflexivity.
Qed.

Lemma sleeps_backoff_trace (config : Types.RetryConfig) (n : nat) :
  forall first,
    Retry.sleeps (Spec.backoff_trace config first n)
    = map (Spec.delayMs config) (Spec.Zrange first (n - 1)).
Proof.
  induction n as [|n IH]; intros first; [reflexivity|].
  destruct n as [|n]; [reflexivity|].
  change (Retry.sleeps (Spec.backoff_trace config first (S (S n))))
    with (Spec.delayMs config first
          :: Retry.sleeps (Spec.backoff_trace config (first + 1) (S n))).
  rewrite IH. simpl. rewrite Nat.sub_0_r. reflexivity.
Qed.

Lemma backoff_trace_run (config : Types.RetryConfig) (n : nat) :
  Spec.backoff_run config (Spec.backoff_trace config 1 n) n.
Proof.
  split; [reflexivity|].
  split; [apply attempts_backoff_trace | apply sleeps_backoff_trace].
Qed.

Lemma length_Zrange (n : nat) : forall first, length (Spec.Zrange first n) = n.
Proof.
  induction n as [|n IH]; intros first; [reflexivity|].
  simpl. rewrite IH. reflexivity.
Qed.

(** ** Attempts and delays of the three clients *)

(** On the stream client every constructed error of the stated retryable
    set is accepted by the retry predicate. *)
Lemma in_retryable_set_isRetryableError (e : Errors.HuefyError) :
  Constructed e ->
  Spec.in_retryable_set e = true ->
  Errors.isRetryableError (Errors.ThrownHuefy e) = true.
Proof.
  intros Hc Hin. destruct Hc; try reflexivity; try discriminate Hin.
  unfold Spec.in_retryable_set, Spec.kind in Hin. simpl in Hin.
  unfold Errors.isRetryableError, Errors.status_at_least. simpl.
  destruct (String.eqb (param_default c "UNKNOWN_ERROR") "INTERNAL_ERROR");
    (destruct s as [s|]; [|discriminate Hin]);
    apply Z.leb_le in Hin;
    destruct (Z.eqb_spec s 0); try lia;
    destruct (Z.leb_spec 500 s); try lia; reflexivity.
Qed.

(** C1, as the code has it.  With [maxAttempts = N >= 1] and a transport
    whose every attempt fails with an error that the client's own retry
    predicate accepts, each client makes exactly the attempts 1 to [N] and
    then throws the error classified from attempt [N]: the stream client
    throws the error of the last attempt, the RPC and subprocess clients
    throw its conversion.  The predicates are those of C3.  On the stream
    client every constructed error of the stated retryable set is
    accepted; on the RPC client being of a retryable kind is not
    enough. *)
Theorem C1_all_attempts_then_last_error (N : Z) (HN : 1 <= N) :
  (forall (T : Type) (asErrorResponse : T -> Errors.ErrorData)
          (self : HttpClient.t) (options_timeout : option Z)
          (net : Z -> HttpClient.FetchOutcome),
      Types.maxAttempts (HttpClient.retryConfig self) = N ->
      (forall k, 1 <= k <= N ->
         exists e,
           HttpClient.makeRequest asErrorResponse self
             (Some (num_or options_timeout (HttpClient.timeout self))) (net k) = inr e
           /\ Errors.isRetryableError e = true) ->
      exists e events,
        HttpClient.makeRequest asErrorResponse self
          (Some (num_or options_timeout (HttpClient.timeout self))) (net N) = inr e
        /\ HttpClient.request asErrorResponse self options_timeout net
           = Some (Retry.Fell (Some e), events)
        /\ Retry.attempts events = Spec.Zrange 1 (Z.to_nat N))
  /\ (forall (T : Type) (self : GrpcClient.t) (rpc : Z -> T + GrpcClient.RawError),
      Types.maxAttempts (GrpcClient.retryConfig self) = N ->
      (forall k, 1 <= k <= N ->
         exists e, rpc k = inr e /\ GrpcClient.isRetryableGrpcError self e = true) ->
      exists e events,
        rpc N = inr e
        /\ GrpcClient.makeGrpcRequest self rpc
           = Some (inr (GrpcClient.convertGrpcError self (Some e)), events)
        /\ Retry.attempts events = Spec.Zrange 1 (Z.to_nat N))
  /\ (forall (D : Type) (self : KernelClient.t)
             (spawned : Z -> option D + Errors.Thrown),
      Types.maxAttempts (KernelClient.retryConfig self) = N ->
      (forall k, 1 <= k <= N ->
         exists e, spawned k = inr e /\ KernelClient.isRetryableError e = true) ->
      exists e events,
        spawned N = inr e
        /\ KernelClient.executeKernelCommand self spawned
           = Some (inr (KernelClient.convertError self (Some e)), events)
        /\ Retry.attempts events = Spec.Zrange 1 (Z.to_nat N))
  /\ (forall e : Errors.HuefyError,
        Constructed e ->
        Spec.in_retryable_set e = true ->
        Errors.isRetryableError (Errors.ThrownHuefy e) = true).
Proof.
  split; [|split; [|split]]; [| | | exact in_retryable_set_isRetryableError].
  - intros T asER self opt net HmaxN Hfail.
    destruct (run_all_fail (HttpClient.retryConfig self)
                (fun attempt =>
                   HttpClient.makeRequest asER self
                     (Some (num_or opt (HttpClient.timeout self))) (net attempt))
                Errors.isRetryableError) as [e [He Hrun]].
    + rewrite HmaxN. exact HN.
    + rewrite HmaxN. exact Hfail.
    + rewrite HmaxN in He, Hrun.
      exists e, (Spec.backoff_trace (HttpClient.retryConfig self) 1 (Z.to_nat N)).
      split; [exact He|]. split; [exact Hrun|].
      apply attempts_backoff_trace.
  - intros T self rpc HmaxN Hfail.
    destruct (run_all_fail (GrpcClient.retryConfig self) rpc
                (GrpcClient.isRetryableGrpcError self)) as [e [He Hrun]].
    + rewrite HmaxN. exact HN.
    + rewrite HmaxN. exact Hfail.
    + rewrite HmaxN in He, Hrun.
      exists e, (Spec.backoff_trace (GrpcClient.retryConfig self) 1 (Z.to_nat N)).
      split; [exact He|]. split; [|apply attempts_backoff_trace].
      unfold GrpcClient.makeGrpcRequest. rewrite Hrun. reflexivity.
  - intros D self spawned HmaxN Hfail.
    destruct (run_all_fail (KernelClient.retryConfig self) spawned
                KernelClient.isRetryableError) as [e [He Hrun]].
    + rewrite HmaxN. exact HN.
    + rewrite HmaxN. exact Hfail.
    + rewrite HmaxN in He, Hrun.
      exists e, (Spec.backoff_trace (KernelClient.retryConfig self) 1 (Z.to_nat N)).
      split; [exact He|]. split; [|apply attempts_backoff_trace].
      unfold KernelClient.executeKernelCommand. rewrite Hrun. reflexivity.
Qed.

(** An instance of C1: three attempts against a service that always answers
    503, an RPC peer that is always unavailable, and a child process that
    always times out. *)
Lemma C1_all_attempts_witness :
  (exists e events,
      HttpClient.makeRequest Errors.typed Samples.http (Some 30000)
        (Samples.answer 503 (Some Samples.unavailable_payload)) = inr e
      /\ HttpClient.request Errors.typed Samples.http None
           (fun _ => Samples.answer 503 (Some Samples.unavailable_payload))
         = Some (Retry.Fell (Some e), events)
      /\ Retry.attempts events = [1; 2; 3])
  /\ (exists e events,
      @inr unit _ (Samples.rpc_error 14 "down") = inr e
      /\ GrpcClient.makeGrpcRequest (T := unit) Samples.grpc
           (fun _ => inr (Samples.rpc_error 14 "down"))
         = Some (inr (GrpcClient.convertGrpcError Samples.grpc (Some e)), events)
      /\ Retry.attempts events = [1; 2; 3])
  /\ (exists e events,
      @inr (option unit) _ (Errors.ThrownHuefy (Errors.new_TimeoutError 30000)) = inr e
      /\ KernelClient.executeKernelCommand (D := unit) Samples.kernel
           (fun _ => inr (Errors.ThrownHuefy (Errors.new_TimeoutError 30000)))
         = Some (inr (KernelClient.convertError Samples.kernel (Some e)), events)
      /\ Retry.attempts events = [1; 2; 3]).
Proof.
  destruct (C1_all_attempts_then_last_error 3 ltac:(lia))
    as [Hhttp [Hgrpc [Hkernel _]]].
  split; [|split].
  - apply (Hhttp Types.ErrorResponse Errors.typed Samples.http None
             (fun _ => Samples.answer 503 (Some Samples.unavailable_payload)));
      [reflexivity|].
    intros k _. eexists. split; reflexivity.
  - apply (Hgrpc unit Samples.grpc (fun _ => inr (Samples.rpc_error 14 "down")));
      [reflexivity|].
    intros k _. eexists. split; reflexivity.
  - apply (Hkernel unit Samples.kernel
             (fun _ => inr (Errors.ThrownHuefy (Errors.new_TimeoutError 30000))));
      [reflexivity|].
    intros k _. eexists. split; reflexivity.
Defined.

(** C1 as stated fails on the RPC client.  With five attempts allowed, a
    peer that always fails with deadline-exceeded, classified as
    [Timeout], or with the status code unknown, classified as [Network],
    is attempted once, although both kinds are in the stated retryable
    set. *)
Lemma C1_rpc_retryable_kind_attempted_once :
  GrpcClient.new false None Samples.five_attempts_config = inl Samples.grpc_five
  /\ Types.maxAttempts (GrpcClient.retryConfig Samples.grpc_five) = 5
  /\ (let e := GrpcClient.convertGrpcError Samples.grpc_five
                 (Some (Samples.rpc_error GrpcStatus.DEADLINE_EXCEEDED "late")) in
      Spec.kind e = Spec.Timeout
      /\ Spec.in_retryable_set e = true
      /\ GrpcClient.makeGrpcRequest (T := unit) Samples.grpc_five
           (fun _ => inr (Samples.rpc_error GrpcStatus.DEADLINE_EXCEEDED "late"))
         = Some (inr e, [Retry.Attempt 1]))
  /\ (let e := GrpcClient.convertGrpcError Samples.grpc_five
                 (Some (Samples.rpc_error GrpcStatus.UNKNOWN "reset")) in
      Spec.kind e = Spec.Network
      /\ Spec.in_retryable_set e = true
      /\ GrpcClient.makeGrpcRequest (T := unit) Samples.grpc_five
           (fun _ => inr (Samples.rpc_error GrpcStatus.UNKNOWN "reset"))
         = Some (inr e, [Retry.Attempt 1])).
Proof. repeat split; reflexivity. Qed.

(** The loop goes on after a failure that the predicate accepts: when the
    attempts from [attempt] on fail retryably [k] times and one more
    attempt is allowed, the trace starts with these [k] attempts, each
    followed by its back-off sleep, and then attempt [attempt + k] is
    made. *)
Section PrefixFacts.
Context {R E : Type}.
Variable retryConfig : Types.RetryConfig.
Variable attemptOp : Z -> R + E.
Variable isRetryable : E -> bool.

Lemma loop_starts_with_attempt (fuel : nat) (attempt : Z) (lastError : option E) :
  attempt <= Types.maxAttempts retryConfig ->
  (Z.to_nat (Types.maxAttempts retryConfig + 1 - attempt) < fuel)%nat ->
  exists exit rest,
    Retry.loop retryConfig attemptOp isRetryable fuel attempt lastError
    = Some (exit, Retry.Attempt attempt :: rest).
Proof.
  intros Hle Hfuel. destruct fuel as [|fuel]; [lia|].
  rewrite loop_S. apply Z.leb_le in Hle. rewrite Hle. apply Z.leb_le in Hle.
  destruct (attemptOp attempt) as [response|error]; [eauto|].
  destruct (attempt =? Types.maxAttempts retryConfig) eqn:Hlast; [eauto|].
  destruct (negb (isRetryable error)); [eauto|].
  apply Z.eqb_neq in Hlast.
  destruct (loop_total retryConfig attemptOp isRetryable fuel (attempt + 1) (Some error))
    as [[exit events] Hrec]; [lia|].
  rewrite Hrec. eauto.
Qed.

Lemma loop_retried (k : nat) :
  forall fuel attempt lastError,
    attempt + Z.of_nat k <= Types.maxAttempts retryConfig ->
    (Z.to_nat (Types.maxAttempts retryConfig + 1 - attempt) < fuel)%nat ->
    (forall j, attempt <= j < attempt + Z.of_nat k ->
               exists e, attemptOp j = inr e /\ isRetryable e = true) ->
    exists exit rest,
      Retry.loop retryConfig attemptOp isRetryable fuel attempt lastError
      = Some (exit,
              (flat_map (fun j => [Retry.Attempt j;
                                   Retry.Sleep (Spec.delayMs retryConfig j)])
                 (Spec.Zrange attempt k)
               ++ Retry.Attempt (attempt + Z.of_nat k) :: rest)%list).
Proof.
  induction k as [|k IH]; intros fuel attempt lastError Hle Hfuel Hfail.
  - replace (attempt + Z.of_nat 0) with attempt by lia.
    apply loop_starts_with_attempt; [lia | exact Hfuel].
  - destruct fuel as [|fuel]; [lia|].
    rewrite loop_S.
    assert (Hle1 : (attempt <=? Types.maxAttempts retryConfig) = true)
      by (apply Z.leb_le; lia).
    assert (Hne : (attempt =? Types.maxAttempts retryConfig) = false)
      by (apply Z.eqb_neq; lia).
    destruct (Hfail attempt ltac:(lia)) as [e [He Hretry]].
    rewrite Hle1, He, Hne, Hretry. cbn [negb].
    destruct (IH fuel (attempt + 1) (Some e)) as [exit [rest Hrec]];
      [lia | lia | intros j Hj; apply Hfail; lia |].
    rewrite Hrec. exists exit, rest.
    replace (attempt + 1 + Z.of_nat k) with (attempt + Z.of_nat (S k)) by lia.
    reflexivity.
Qed.

Lemma run_retried (k : Z) :
  1 <= k < Types.maxAttempts retryConfig ->
  (forall j, 1 <= j <= k -> exists e, attemptOp j = inr e /\ isRetryable e = true) ->
  exists exit rest,
    Retry.run retryConfig attemptOp isRetryable
    = Some (exit, (retried retryConfig (Z.to_nat k)
                   ++ Retry.Attempt (k + 1) :: rest)%list).
Proof.
  intros Hk Hfail. unfold Retry.run, retried.
  destruct (loop_retried (Z.to_nat k)
              (S (Z.to_nat (Types.maxAttempts retryConfig))) 1 None)
    as [exit [rest Hrun]]; [lia | lia | intros j Hj; apply Hfail; lia |].
  rewrite Hrun. exists exit, rest.
  replace (1 + Z.of_nat (Z.to_nat k)) with (k + 1) by lia. reflexivity.
Qed.

End PrefixFacts.

(** C2. In every client's retry loop, when the attempts 1 to [k] fail
    with errors that the client's retry predicate accepts and [k] is below
    [maxAttempts], each of these attempts is followed by a sleep of exactly
    [min (initialDelay * backoffMultiplier ^ (j - 1)) maxDelay] for its
    number [j], and after the sleep of attempt [k] attempt [k + 1] is
    made.  Whatever the attempts yield, the whole trace is a back-off
    trace of at most [maxAttempts] attempts: nothing else is slept, and
    the delay depends on the number of the attempt alone. *)
Theorem C2_backoff_delays_exact :
  (forall (T : Type) (asErrorResponse : T -> Errors.ErrorData)
          (self : HttpClient.t) (options_timeout : option Z)
          (net : Z -> HttpClient.FetchOutcome),
      (forall k,
          1 <= k < Types.maxAttempts (HttpClient.retryConfig self) ->
          (forall j, 1 <= j <= k ->
             exists e,
               HttpClient.makeRequest asErrorResponse self
                 (Some (num_or options_timeout (HttpClient.timeout self))) (net j)
               = inr e
               /\ Errors.isRetryableError e = true) ->
          exists exit rest,
            HttpClient.request asErrorResponse self options_timeout net
            = Some (exit, (retried (HttpClient.retryConfig self) (Z.to_nat k)
                           ++ Retry.Attempt (k + 1) :: rest)%list))
      /\ exists exit events n,
           HttpClient.request asErrorResponse self options_timeout net
           = Some (exit, events)
           /\ Spec.backoff_run (HttpClient.retryConfig self) events n
           /\ (n <= Z.to_nat (Types.maxAttempts (HttpClient.retryConfig self)))%nat)
  /\ (forall (T : Type) (self : GrpcClient.t) (rpc : Z -> T + GrpcClient.RawError),
      (forall k,
          1 <= k < Types.maxAttempts (GrpcClient.retryConfig self) ->
          (forall j, 1 <= j <= k ->
             exists e, rpc j = inr e
                       /\ GrpcClient.isRetryableGrpcError self e = true) ->
          exists result rest,
            GrpcClient.makeGrpcRequest self rpc
            = Some (result, (retried (GrpcClient.retryConfig self) (Z.to_nat k)
                             ++ Retry.Attempt (k + 1) :: rest)%list))
      /\ exists result events n,
           GrpcClient.makeGrpcRequest self rpc = Some (result, events)
           /\ Spec.backoff_run (GrpcClient.retryConfig self) events n
           /\ (n <= Z.to_nat (Types.maxAttempts (GrpcClient.retryConfig self)))%nat)
  /\ (forall (D : Type) (self : KernelClient.t)
             (spawned : Z -> option D + Errors.Thrown),
      (forall k,
          1 <= k < Types.maxAttempts (KernelClient.retryConfig self) ->
          (forall j, 1 <= j <= k ->
             exists e, spawned j = inr e
                       /\ KernelClient.isRetryableError e = true) ->
          exists result rest,
            KernelClient.executeKernelCommand self spawned
            = Some (result, (retried (KernelClient.retryConfig self) (Z.to_nat k)
                             ++ Retry.Attempt (k + 1) :: rest)%list))
      /\ exists result events n,
           KernelClient.executeKernelCommand self spawned = Some (result, events)
           /\ Spec.backoff_run (KernelClient.retryConfig self) events n
           /\ (n <= Z.to_nat (Types.maxAttempts (KernelClient.retryConfig self)))%nat).
Proof.
  split; [|split].
  - intros T asER self opt net. split.
    + intros k Hk Hfail. unfold HttpClient.request.
      apply run_retried; assumption.
    + destruct (run_trace (HttpClient.retryConfig self)
                  (fun attempt =>
                     HttpClient.makeRequest asER self
                       (Some (num_or opt (HttpClient.timeout self))) (net attempt))
                  Errors.isRetryableError) as [exit [n [Hrun Hn]]].
      exists exit, (Spec.backoff_trace (HttpClient.retryConfig self) 1 n), n.
      split; [exact Hrun|]. split; [apply backoff_trace_run | exact Hn].
  - intros T self rpc. split.
    + intros k Hk Hfail. unfold GrpcClient.makeGrpcRequest.
      destruct (run_retried (GrpcClient.retryConfig self) rpc
                  (GrpcClient.isRetryableGrpcError self) k Hk Hfail)
        as [exit [rest Hrun]].
      rewrite Hrun. destruct exit as [response|lastError]; eauto.
    + destruct (run_trace (GrpcClient.retryConfig self) rpc
                  (GrpcClient.isRetryableGrpcError self)) as [exit [n [Hrun Hn]]].
      unfold GrpcClient.makeGrpcRequest. rewrite Hrun.
      destruct exit as [response|lastError]; eexists; eexists; exists n;
        (split; [reflexivity|]); (split; [apply backoff_trace_run | exact Hn]).
  - intros D self spawned. split.
    + intros k Hk Hfail. unfold KernelClient.executeKernelCommand.
      destruct (run_retried (KernelClient.retryConfig self) spawned
                  KernelClient.isRetryableError k Hk Hfail)
        as [exit [rest Hrun]].
      rewrite Hrun. destruct exit as [response|lastError]; eauto.
    + destruct (run_trace (KernelClient.retryConfig self) spawned
                  KernelClient.isRetryableError) as [exit [n [Hrun Hn]]].
      unfold KernelClient.executeKernelCommand. rewrite Hrun.
      destruct exit as [response|lastError]; eexists; eexists; exists n;
        (split; [reflexivity|]); (split; [apply backoff_trace_run | exact Hn]).
Qed.

(** An instance of C2: the default stream client against a service that
    answers 503 twice; attempts 1 and 2 are followed by sleeps of 1000 and
    2000 ms, and attempt 3 is made. *)
Lemma C2_backoff_delays_witness :
  exists exit rest,
    HttpClient.request Errors.typed Samples.http None
      (fun _ => Samples.answer 503 (Some Samples.unavailable_payload))
    = Some (exit,
            ([Retry.Attempt 1; Retry.Sleep 1000; Retry.Attempt 2; Retry.Sleep 2000]
             ++ Retry.Attempt 3 :: rest)%list).
Proof.
  destruct C2_backoff_delays_exact as [Hhttp _].
  apply (proj1 (Hhttp Types.ErrorResponse Errors.typed Samples.http None
                  (fun _ => Samples.answer 503 (Some Samples.unavailable_payload)))
           2).
  - simpl. lia.
  - intros j _. eexists. split; reflexivity.
Defined.

(** The delays of a default client that fails retryably three times. *)
Example default_delays :
  HttpClient.request Errors.typed Samples.http None
    (fun _ => Samples.answer 503 (Some Samples.unavailable_payload))
  = Some (Retry.Fell
            (Some (Errors.ThrownHuefy
                     (Errors.new_HuefyError "Service unavailable"
                        (Some "SERVICE_UNAVAILABLE") (Some 503) undefined))),
          [Retry.Attempt 1; Retry.Sleep 1000; Retry.Attempt 2; Retry.Sleep 2000;
           Retry.Attempt 3]).
Proof. reflexivity. Qed.

(** ** Retry predicates *)

Lemma never_retried_not_retryable (e : Errors.HuefyError) :
  Constructed e ->
  Spec.never_retried (Spec.kind e) = true ->
  Errors.isRetryableError (Errors.ThrownHuefy e) = false.
Proof.
  intros Hc Hk. destruct Hc; try reflexivity; try discriminate Hk.
  unfold Spec.kind in Hk. simpl in Hk.
  destruct (String.eqb (param_default c "UNKNOWN_ERROR") "INTERNAL_ERROR");
    discriminate Hk.
Qed.

Lemma new_grpc_retryable_codes (isProduction : bool) (initFailure : option string)
    (config : Types.HuefyConfig) (self : GrpcClient.t) :
  GrpcClient.new isProduction initFailure config = inl self ->
  Types.retryableStatusCodes (GrpcClient.retryConfig self) = [14; 13; 8].
Proof.
  unfold GrpcClient.new. intros Hnew.
  destruct (negb (truthy (Types.apiKey config))
            || negb (HttpClient.is_string (Types.apiKey config))); [discriminate|].
  destruct (num_or (Types.timeout config) 30000 <? 0); [discriminate|].
  destruct initFailure; [discriminate|].
  inversion Hnew; subst. reflexivity.
Qed.

(** The RPC retry predicate in terms of the raw status code. *)
Lemma isRetryableGrpcError_codes (self : GrpcClient.t) (raw : GrpcClient.RawError) :
  Types.retryableStatusCodes (GrpcClient.retryConfig self) = [14; 13; 8] ->
  GrpcClient.isRetryableGrpcError self raw
  = match GrpcClient.code raw with
    | VNum n => (n =? 14) || (n =? 13) || (n =? 8)
    | _ => false
    end.
Proof.
  intros Hcodes. unfold GrpcClient.isRetryableGrpcError. rewrite Hcodes.
  destruct (GrpcClient.code raw); try reflexivity.
  simpl. rewrite orb_false_r, orb_assoc. reflexivity.
Qed.

(** The kind of a converted RPC error, by raw status code. *)
Lemma kind_convertGrpcError (self : GrpcClient.t) (raw : GrpcClient.RawError) :
  Spec.kind (GrpcClient.convertGrpcError self (Some raw))
  = Spec.rpc_table_amended (GrpcClient.code raw).
Proof.
  unfold GrpcClient.convertGrpcError, GrpcClient.is_status.
  destruct (GrpcClient.code raw) as [| |b|n|s]; try reflexivity.
  destruct (n =? GrpcStatus.INVALID_ARGUMENT) eqn:H3;
    [apply Z.eqb_eq in H3; subst n; reflexivity|].
  destruct (n =? GrpcStatus.UNAUTHENTICATED) eqn:H16;
    [apply Z.eqb_eq in H16; subst n; reflexivity|].
  destruct (n =? GrpcStatus.PERMISSION_DENIED) eqn:H7;
    [apply Z.eqb_eq in H7; subst n; reflexivity|].
  destruct (n =? GrpcStatus.NOT_FOUND) eqn:H5;
    [apply Z.eqb_eq in H5; subst n; reflexivity|].
  destruct (n =? GrpcStatus.RESOURCE_EXHAUSTED) eqn:H8;
    [apply Z.eqb_eq in H8; subst n; reflexivity|].
  destruct (n =? GrpcStatus.UNAVAILABLE) eqn:H14;
    [apply Z.eqb_eq in H14; subst n; reflexivity|].
  destruct (n =? GrpcStatus.DEADLINE_EXCEEDED) eqn:H4;
    [apply Z.eqb_eq in H4; subst n; reflexivity|].
  destruct (n =? GrpcStatus.INTERNAL) eqn:H13;
    [apply Z.eqb_eq in H13; subst n; reflexivity|].
  apply Z.eqb_neq in H3, H16, H7, H5, H8, H14, H4, H13.
  unfold GrpcStatus.INVALID_ARGUMENT, GrpcStatus.UNAUTHENTICATED,
    GrpcStatus.PERMISSION_DENIED, GrpcStatus.NOT_FOUND,
    GrpcStatus.RESOURCE_EXHAUSTED, GrpcStatus.UNAVAILABLE,
    GrpcStatus.DEADLINE_EXCEEDED, GrpcStatus.INTERNAL in *.
  change (Spec.kind (Errors.new_NetworkError
            (Some ("gRPC error (" +:+ ToString (VNum n) +:+ "): "
                   +:+ str_or (GrpcClient.details raw)
                         (str_or (GrpcClient.message raw) "Unknown gRPC error")))
            None)) with Spec.Network.
  unfold Spec.rpc_table_amended, Spec.rpc_table.
  destruct n as [|p|p]; try reflexivity.
  do 5 (destruct p as [p|p|]; try reflexivity; try lia).
Qed.

Lemma ErrorClass_eqb_eq (a b : Errors.ErrorClass) :
  Errors.ErrorClass_eqb a b = true <-> a = b.
Proof. destruct a, b; simpl; split; intros H; congruence. Qed.

(** The stream retry predicate as a test on the class and the status. *)
Lemma isRetryableError_status (e : Errors.HuefyError) :
  Errors.isRetryableError (Errors.ThrownHuefy e)
  = (Errors.instanceof e Errors.NetworkErrorC
     || Errors.instanceof e Errors.TimeoutErrorC
     || match Errors.statusCode e with
        | Some s => (500 <=? s) || (s =? 429)
        | None => false
        end).
Proof.
  unfold Errors.isRetryableError, Errors.status_at_least.
  destruct (Errors.instanceof e Errors.NetworkErrorC
            || Errors.instanceof e Errors.TimeoutErrorC); [reflexivity|].
  destruct (Errors.statusCode e) as [s|]; [|reflexivity].
  destruct (Z.eqb_spec s 0), (Z.leb_spec 500 s), (Z.leb_spec 400 s),
    (Z.ltb_spec s 500), (Z.eqb_spec s 429); simpl; try reflexivity; lia.
Qed.

(** The subprocess retry predicate, in full. *)
Lemma kernel_isRetryableError_iff (error : Errors.Thrown) :
  KernelClient.isRetryableError error = true
  <-> ((exists e, error = Errors.ThrownHuefy e
                  /\ (Errors.cls e = Errors.TimeoutErrorC
                      \/ Errors.cls e = Errors.NetworkErrorC))
       \/ KernelClient.message_includes error "ECONNREFUSED" = true
       \/ KernelClient.message_includes error "timeout" = true).
Proof.
  assert (Hinst : forall c,
             c <> Errors.HuefyErrorC ->
             match error with
             | Errors.ThrownHuefy e => Errors.instanceof e c
             | _ => false
             end = true
             <-> exists e, error = Errors.ThrownHuefy e /\ Errors.cls e = c).
  { intros c Hc. destruct error as [isTE n m|e|r].
    - split; [discriminate|]. intros [e [He _]]. discriminate.
    - split.
      + intros H. exists e. split; [reflexivity|].
        apply ErrorClass_eqb_eq. destruct c; try exact H. congruence.
      + intros [e' [He' Hcls]]. inversion He'; subst e'.
        apply ErrorClass_eqb_eq in Hcls. destruct c; try exact Hcls. congruence.
    - split; [discriminate|]. intros [e [He _]]. discriminate. }
  pose proof (Hinst Errors.TimeoutErrorC ltac:(discriminate)) as Ht.
  pose proof (Hinst Errors.NetworkErrorC ltac:(discriminate)) as Hn.
  clear Hinst. unfold KernelClient.isRetryableError.
  destruct (match error with
            | Errors.ThrownHuefy e => Errors.instanceof e Errors.TimeoutErrorC
            | _ => false
            end).
  { split; [intros _|reflexivity].
    destruct (proj1 Ht eq_refl) as [e [He Hc]]. left. exists e. auto. }
  destruct (match error with
            | Errors.ThrownHuefy e => Errors.instanceof e Errors.NetworkErrorC
            | _ => false
            end).
  { split; [intros _|reflexivity].
    destruct (proj1 Hn eq_refl) as [e [He Hc]]. left. exists e. auto. }
  destruct (KernelClient.message_includes error "ECONNREFUSED"); simpl;
    [split; auto|].
  destruct (KernelClient.message_includes error "timeout"); simpl;
    [split; auto|].
  split; [discriminate|].
  intros [[e [He [Hc|Hc]]]|[H|H]]; try discriminate H.
  - assert (Hf : false = true) by (apply Ht; exists e; auto). discriminate Hf.
  - assert (Hf : false = true) by (apply Hn; exists e; auto). discriminate Hf.
Qed.

(** The RPC retry predicate in terms of the classified kind. *)
Lemma rpc_retry_iff_kind (isProduction : bool) (initFailure : option string)
    (config : Types.HuefyConfig) (self : GrpcClient.t) (raw : GrpcClient.RawError) :
  GrpcClient.new isProduction initFailure config = inl self ->
  (GrpcClient.isRetryableGrpcError self raw = true
   <-> (Spec.kind (GrpcClient.convertGrpcError self (Some raw)) = Spec.Provider
        \/ Spec.kind (GrpcClient.convertGrpcError self (Some raw)) = Spec.Internal
        \/ Spec.kind (GrpcClient.convertGrpcError self (Some raw)) = Spec.RateLimit)).
Proof.
  intros Hnew.
  rewrite (isRetryableGrpcError_codes self raw
             (new_grpc_retryable_codes _ _ _ _ Hnew)).
  rewrite kind_convertGrpcError.
  destruct (GrpcClient.code raw) as [| |b|n|s];
    try (cbn; split; [discriminate | intros [H|[H|H]]; discriminate H]).
  destruct n as [|p|p];
    try (cbn; split; [discriminate | intros [H|[H|H]]; discriminate H]).
  do 5 (destruct p as [p|p|];
        try (cbn; split; [discriminate | intros [H|[H|H]]; discriminate H]);
        try (cbn; split; [intros _; auto | reflexivity])).
Qed.

(** C3, as the code has it.  Each client has a retry predicate of its own.
    - Stream: an error is retried exactly when it is a [HuefyError] that is
      a [NetworkError] or a [TimeoutError], or whose statusCode is at least
      500 or equal to 429; so every constructed [RateLimit] error is
      retried.
    - RPC: a failure is retried exactly when its status code is
      unavailable, internal or resource-exhausted, that is, when it is
      classified as [Provider], [Internal] or [RateLimit]; failures
      classified as [Timeout] or [Network] are not retried.
    - Subprocess: a [TimeoutError], a [NetworkError] and a failure whose
      message contains ECONNREFUSED or timeout are retried.
    In the loop the three clients share, with at least two attempts
    allowed, a failed first attempt is followed by a second one exactly
    when the client's predicate accepts the error. *)
Theorem C3_retry_predicates_by_transport :
  (forall error : Errors.Thrown,
      Errors.isRetryableError error = true
      <-> exists e, error = Errors.ThrownHuefy e
                    /\ (Errors.cls e = Errors.NetworkErrorC
                        \/ Errors.cls e = Errors.TimeoutErrorC
                        \/ exists s, Errors.statusCode e = Some s
                                     /\ (500 <= s \/ s = 429)))
  /\ (forall e, Constructed e -> Spec.kind e = Spec.RateLimit ->
                Errors.isRetryableError (Errors.ThrownHuefy e) = true)
  /\ (forall isProduction initFailure config self (raw : GrpcClient.RawError),
        GrpcClient.new isProduction initFailure config = inl self ->
        (GrpcClient.isRetryableGrpcError self raw = true
         <-> (Spec.kind (GrpcClient.convertGrpcError self (Some raw)) = Spec.Provider
              \/ Spec.kind (GrpcClient.convertGrpcError self (Some raw)) = Spec.Internal
              \/ Spec.kind (GrpcClient.convertGrpcError self (Some raw)) = Spec.RateLimit)))
  /\ (forall error : Errors.Thrown,
        ((exists e, error = Errors.ThrownHuefy e
                    /\ (Errors.cls e = Errors.TimeoutErrorC
                        \/ Errors.cls e = Errors.NetworkErrorC))
         \/ KernelClient.message_includes error "ECONNREFUSED" = true
         \/ KernelClient.message_includes error "timeout" = true) ->
        KernelClient.isRetryableError error = true)
  /\ (forall (R E : Type) (retryConfig : Types.RetryConfig)
             (attemptOp : Z -> R + E) (isRetryable : E -> bool) (e : E),
        2 <= Types.maxAttempts retryConfig ->
        attemptOp 1 = inr e ->
        exists exit events,
          Retry.run retryConfig attemptOp isRetryable = Some (exit, events)
          /\ (In (Retry.Attempt 2) events <-> isRetryable e = true)).
Proof.
  split; [|split; [|split; [|split]]];
    [| | | | intros R E retryConfig attemptOp isRetryable e;
             apply run_second_attempt].
  - intros error. destruct error as [isTE n m|e|r].
    + split; [discriminate|]. intros [e [He _]]. discriminate.
    + rewrite isRetryableError_status.
      change (Errors.instanceof e Errors.NetworkErrorC)
        with (Errors.ErrorClass_eqb (Errors.cls e) Errors.NetworkErrorC).
      change (Errors.instanceof e Errors.TimeoutErrorC)
        with (Errors.ErrorClass_eqb (Errors.cls e) Errors.TimeoutErrorC).
      rewrite !orb_true_iff, !ErrorClass_eqb_eq. split.
      * intros H. exists e. split; [reflexivity|].
        destruct H as [[H|H]|H]; auto.
        destruct (Errors.statusCode e) as [s|]; [|discriminate].
        right; right. exists s. split; [reflexivity|].
        apply orb_true_iff in H. destruct H as [H|H];
          [left; apply Z.leb_le; exact H | right; apply Z.eqb_eq; exact H].
      * intros [e' [He' H]]. inversion He'; subst e'. clear He'.
        destruct H as [H|[H|[s [Hs H]]]]; auto.
        right. rewrite Hs. apply orb_true_iff.
        destruct H as [H|H];
          [left; apply Z.leb_le; exact H | right; apply Z.eqb_eq; exact H].
    + split; [discriminate|]. intros [e [He _]]. discriminate.
  - intros e Hc Hk. destruct Hc; try discriminate Hk; try reflexivity.
    unfold Spec.kind in Hk. simpl in Hk.
    destruct (String.eqb (param_default c "UNKNOWN_ERROR") "INTERNAL_ERROR");
      discriminate Hk.
  - intros isProduction initFailure config self raw Hnew.
    exact (rpc_retry_iff_kind _ _ _ _ raw Hnew).
  - intros error H. apply kernel_isRetryableError_iff. exact H.
Qed.

(** Instances of C3: a constructed rate-limit error on the stream client,
    a resource-exhausted failure on the RPC client built from the sample
    configuration, a time-out on the subprocess client, and the second
    attempt of the RPC loop after an unavailable failure. *)
Lemma C3_retry_predicates_witness :
  Errors.isRetryableError
    (Errors.ThrownHuefy (Errors.new_RateLimitError None undefined)) = true
  /\ (GrpcClient.new false None Samples.config = inl Samples.grpc
      /\ (GrpcClient.isRetryableGrpcError Samples.grpc (Samples.rpc_error 8 "quota")
          = true
          <-> (Spec.kind (GrpcClient.convertGrpcError Samples.grpc
                            (Some (Samples.rpc_error 8 "quota"))) = Spec.Provider
               \/ Spec.kind (GrpcClient.convertGrpcError Samples.grpc
                               (Some (Samples.rpc_error 8 "quota"))) = Spec.Internal
               \/ Spec.kind (GrpcClient.convertGrpcError Samples.grpc
                               (Some (Samples.rpc_error 8 "quota")))
                  = Spec.RateLimit)))
  /\ KernelClient.isRetryableError
       (Errors.ThrownHuefy (Errors.new_TimeoutError 30000)) = true
  /\ (exists exit events,
        Retry.run (R := unit) GrpcClient.DEFAULT_RETRY_CONFIG
          (fun _ => inr (Samples.rpc_error 14 "down"))
          (GrpcClient.isRetryableGrpcError Samples.grpc)
        = Some (exit, events)
        /\ (In (Retry.Attempt 2) events
            <-> GrpcClient.isRetryableGrpcError Samples.grpc
                  (Samples.rpc_error 14 "down") = true)).
Proof.
  destruct C3_retry_predicates_by_transport
    as [_ [Hrate [Hrpc [Hkernel Hloop]]]].
  split; [|split; [|split]].
  - apply (Hrate (Errors.new_RateLimitError None undefined));
      [constructor | reflexivity].
  - split; [reflexivity|].
    apply (Hrpc false None Samples.config Samples.grpc (Samples.rpc_error 8 "quota")).
    reflexivity.
  - apply (Hkernel (Errors.ThrownHuefy (Errors.new_TimeoutError 30000))).
    left. eexists. split; [reflexivity|]. left. reflexivity.
  - apply (Hloop unit GrpcClient.RawError GrpcClient.DEFAULT_RETRY_CONFIG
             (fun _ => inr (Samples.rpc_error 14 "down"))
             (GrpcClient.isRetryableGrpcError Samples.grpc)
             (Samples.rpc_error 14 "down")).
    + simpl. lia.
    + reflexivity.
Defined.

(** C3 as stated fails on the RPC client: a deadline-exceeded failure is
    classified as [Timeout], which is in the stated retryable set, but the
    RPC retry predicate rejects it, and with three attempts allowed only
    one is made. *)
Lemma C3_rpc_timeout_not_retried :
  Spec.kind (GrpcClient.convertGrpcError Samples.grpc
               (Some (Samples.rpc_error 4 "deadline"))) = Spec.Timeout
  /\ Spec.in_retryable_set
       (GrpcClient.convertGrpcError Samples.grpc
          (Some (Samples.rpc_error 4 "deadline"))) = true
  /\ GrpcClient.isRetryableGrpcError Samples.grpc (Samples.rpc_error 4 "deadline")
     = false
  /\ Types.maxAttempts (GrpcClient.retryConfig Samples.grpc) = 3
  /\ GrpcClient.makeGrpcRequest (T := unit) Samples.grpc
       (fun _ => inr (Samples.rpc_error 4 "deadline"))
     = Some (inr (Errors.new_TimeoutError 30000), [Retry.Attempt 1]).
Proof. repeat split; reflexivity. Qed.

(** The subprocess client does not retry a failure that it classifies as
    [RateLimit]: the child's diagnostic text decides the class after the
    loop, and the retry predicate does not look for it. *)
Example kernel_rate_limit_not_retried :
  let failure := Samples.kernel_failure "rate limit exceeded" in
  Spec.kind (KernelClient.convertError Samples.kernel (Some failure)) = Spec.RateLimit
  /\ KernelClient.isRetryableError failure = false
  /\ KernelClient.executeKernelCommand (D := unit) Samples.kernel (fun _ => inr failure)
     = Some (inr (Errors.new_RateLimitError
                    (Some "Kernel process exited with code 1: rate limit exceeded")
                    (AVal (VNum 0))),
             [Retry.Attempt 1]).
Proof. repeat split; reflexivity. Qed.

(** C4, as the code has it.  With more than one attempt allowed, a first
    attempt that fails with an [Authentication], [TemplateNotFound],
    [InvalidTemplateData], [InvalidRecipient] or [Validation] error ends
    the call: one attempt, no sleep, and that error is thrown.  This holds
    for the stream client, for the RPC client with the error classified
    from the raw failure, and for the subprocess client when the message
    of the failure contains neither ECONNREFUSED nor timeout. *)
Theorem C4_non_retryable_single_attempt :
  (forall (T : Type) (asErrorResponse : T -> Errors.ErrorData)
          (self : HttpClient.t) (options_timeout : option Z)
          (net : Z -> HttpClient.FetchOutcome) (e : Errors.HuefyError),
      1 < Types.maxAttempts (HttpClient.retryConfig self) ->
      HttpClient.makeRequest asErrorResponse self
        (Some (num_or options_timeout (HttpClient.timeout self))) (net 1)
      = inr (Errors.ThrownHuefy e) ->
      Constructed e ->
      Spec.never_retried (Spec.kind e) = true ->
      HttpClient.request asErrorResponse self options_timeout net
      = Some (Retry.Fell (Some (Errors.ThrownHuefy e)), [Retry.Attempt 1]))
  /\ (forall (T : Type) isProduction initFailure config (self : GrpcClient.t)
             (rpc : Z -> T + GrpcClient.RawError) (raw : GrpcClient.RawError),
      GrpcClient.new isProduction initFailure config = inl self ->
      1 < Types.maxAttempts (GrpcClient.retryConfig self) ->
      rpc 1 = inr raw ->
      Spec.never_retried
        (Spec.kind (GrpcClient.convertGrpcError self (Some raw))) = true ->
      GrpcClient.makeGrpcRequest self rpc
      = Some (inr (GrpcClient.convertGrpcError self (Some raw)), [Retry.Attempt 1]))
  /\ (forall (D : Type) (self : KernelClient.t)
             (spawned : Z -> option D + Errors.Thrown) (error : Errors.Thrown),
      1 < Types.maxAttempts (KernelClient.retryConfig self) ->
      spawned 1 = inr error ->
      Spec.never_retried
        (Spec.kind (KernelClient.convertError self (Some error))) = true ->
      KernelClient.message_includes error "ECONNREFUSED" = false ->
      KernelClient.message_includes error "timeout" = false ->
      KernelClient.executeKernelCommand self spawned
      = Some (inr (KernelClient.convertError self (Some error)), [Retry.Attempt 1])).
Proof.
  split; [|split].
  - intros T asER self opt net e Hmax Hfirst Hc Hk.
    unfold HttpClient.request.
    apply run_first_not_retryable; [lia | exact Hfirst |].
    apply never_retried_not_retryable; assumption.
  - intros T isProduction initFailure config self rpc raw Hnew Hmax Hfirst Hk.
    unfold GrpcClient.makeGrpcRequest.
    rewrite (run_first_not_retryable (GrpcClient.retryConfig self) rpc
               (GrpcClient.isRetryableGrpcError self) raw); [reflexivity | lia | exact Hfirst |].
    destruct (GrpcClient.isRetryableGrpcError self raw) eqn:Hretry; [|reflexivity].
    apply (proj1 (rpc_retry_iff_kind _ _ _ _ raw Hnew)) in Hretry.
    destruct Hretry as [H|[H|H]]; rewrite H in Hk; discriminate Hk.
  - intros D self spawned error Hmax Hfirst Hk Hconn Htime.
    unfold KernelClient.executeKernelCommand.
    rewrite (run_first_not_retryable (KernelClient.retryConfig self) spawned
               KernelClient.isRetryableError error); [reflexivity | lia | exact Hfirst |].
    destruct (KernelClient.isRetryableError error) eqn:Hretry; [|reflexivity].
    apply kernel_isRetryableError_iff in Hretry.
    destruct Hretry as [[e [He Hcls]]|[H|H]].
    + subst error. simpl in Hk. unfold Spec.kind in Hk.
      destruct Hcls as [Hcls|Hcls]; rewrite Hcls in Hk; discriminate Hk.
    + rewrite H in Hconn. discriminate Hconn.
    + rewrite H in Htime. discriminate Htime.
Qed.

(** Instances of C4: an invalid-key answer over the stream client, an
    unauthenticated failure over the RPC client and a child that reports an
    unknown template, three attempts allowed. *)
Lemma C4_non_retryable_witness :
  HttpClient.request Errors.typed Samples.http None
    (fun _ => Samples.answer 401
                (Some {| Types.error := "bad key";
                         Types.code := "INVALID_API_KEY";
                         Types.details := None |}))
  = Some (Retry.Fell
            (Some (Errors.ThrownHuefy
                     (Errors.new_AuthenticationError (Some "bad key") undefined))),
          [Retry.Attempt 1])
  /\ GrpcClient.makeGrpcRequest (T := unit) Samples.grpc
       (fun _ => inr (Samples.rpc_error 16 "no credential"))
     = Some (inr (GrpcClient.convertGrpcError Samples.grpc
                    (Some (Samples.rpc_error 16 "no credential"))),
             [Retry.Attempt 1])
  /\ KernelClient.executeKernelCommand (D := unit) Samples.kernel
       (fun _ => inr (Samples.kernel_failure "unknown template"))
     = Some (inr (KernelClient.convertError Samples.kernel
                    (Some (Samples.kernel_failure "unknown template"))),
             [Retry.Attempt 1]).
Proof.
  destruct C4_non_retryable_single_attempt as [Hhttp [Hgrpc Hkernel]].
  split; [|split].
  - apply (Hhttp Types.ErrorResponse Errors.typed
             Samples.http None
             (fun _ => Samples.answer 401
                         (Some {| Types.error := "bad key";
                                  Types.code := "INVALID_API_KEY";
                                  Types.details := None |}))
             (Errors.new_AuthenticationError (Some "bad key") undefined)).
    + reflexivity.
    + reflexivity.
    + constructor.
    + reflexivity.
  - apply (Hgrpc unit false None Samples.config
             Samples.grpc (fun _ => inr (Samples.rpc_error 16 "no credential"))
             (Samples.rpc_error 16 "no credential")).
    + reflexivity.
    + reflexivity.
    + reflexivity.
    + reflexivity.
  - apply (Hkernel unit Samples.kernel
             (fun _ => inr (Samples.kernel_failure "unknown template"))
             (Samples.kernel_failure "unknown template")).
    + reflexivity.
    + reflexivity.
    + reflexivity.
    + reflexivity.
    + reflexivity.
Defined.

(** C4 as stated fails on the subprocess client.  Its retry predicate
    reads the message of the failure and the converter assigns the class
    after the loop: a child that keeps failing with a diagnostic that
    mentions both a template and a time-out is attempted three times, with
    the two back-off sleeps, and the error thrown in the end is a
    [TemplateNotFound] error. *)
Lemma C4_subprocess_retries_by_message :
  Types.maxAttempts (KernelClient.retryConfig Samples.kernel) = 3
  /\ Spec.kind (KernelClient.convertError Samples.kernel
                  (Some (Samples.kernel_failure "template rendering timeout")))
     = Spec.TemplateNotFound
  /\ Spec.never_retried Spec.TemplateNotFound = true
  /\ KernelClient.executeKernelCommand (D := unit) Samples.kernel
       (fun _ => inr (Samples.kernel_failure "template rendering timeout"))
     = Some (inr (Errors.new_TemplateNotFoundError
                    (VStr "Kernel process exited with code 1: template rendering timeout")
                    undefined),
             [Retry.Attempt 1; Retry.Sleep 1000; Retry.Attempt 2; Retry.Sleep 2000;
              Retry.Attempt 3]).
Proof. repeat split; reflexivity. Qed.

(** ** The RPC error mapper *)

(** C5, as the code has it.  The mapper follows the stated table for every
    status code except permission-denied, which it maps to
    [Authentication] like unauthenticated; all remaining codes, and a code
    that is not a number, map to [Network]. *)
Theorem C5_rpc_mapping_table (self : GrpcClient.t) (raw : GrpcClient.RawError) :
  Spec.kind (GrpcClient.convertGrpcError self (Some raw))
  = Spec.rpc_table_amended (GrpcClient.code raw)
  /\ (GrpcClient.code raw = VNum GrpcStatus.PERMISSION_DENIED ->
      Spec.kind (GrpcClient.convertGrpcError self (Some raw)) = Spec.Authentication)
  /\ (GrpcClient.code raw <> VNum GrpcStatus.PERMISSION_DENIED ->
      Spec.kind (GrpcClient.convertGrpcError self (Some raw))
      = Spec.rpc_table (GrpcClient.code raw)).
Proof.
  rewrite kind_convertGrpcError. split; [reflexivity|]. split.
  - intros Hc. rewrite Hc. reflexivity.
  - intros Hc. unfold Spec.rpc_table_amended.
    destruct (GrpcClient.code raw) as [| |b|n|s]; try reflexivity.
    destruct n as [|p|p]; try reflexivity.
    do 3 (destruct p as [p|p|]; try reflexivity).
    exfalso. apply Hc. reflexivity.
Qed.

(** An instance of C5: permission-denied and deadline-exceeded. *)
Lemma C5_rpc_mapping_witness :
  Spec.kind (GrpcClient.convertGrpcError Samples.grpc
               (Some (Samples.rpc_error 7 "denied"))) = Spec.Authentication
  /\ Spec.kind (GrpcClient.convertGrpcError Samples.grpc
                  (Some (Samples.rpc_error 4 "late"))) = Spec.rpc_table (VNum 4).
Proof.
  split.
  - apply (proj1 (proj2 (C5_rpc_mapping_table Samples.grpc
                           (Samples.rpc_error 7 "denied")))).
    reflexivity.
  - apply (proj2 (proj2 (C5_rpc_mapping_table Samples.grpc
                           (Samples.rpc_error 4 "late")))).
    discriminate.
Defined.

(** C5 as stated fails at permission-denied: it is a status code other
    than the seven listed, and the mapper does not send it to [Network]. *)
Lemma C5_permission_denied_is_authentication :
  Spec.rpc_table (VNum GrpcStatus.PERMISSION_DENIED) = Spec.Network
  /\ Spec.kind (GrpcClient.convertGrpcError Samples.grpc
                  (Some (Samples.rpc_error GrpcStatus.PERMISSION_DENIED "denied")))
     = Spec.Authentication
  /\ Spec.kind (GrpcClient.convertGrpcError Samples.grpc
                  (Some (Samples.rpc_error GrpcStatus.PERMISSION_DENIED "denied")))
     <> Spec.rpc_table (VNum GrpcStatus.PERMISSION_DENIED).
Proof. repeat split; try reflexivity. discriminate. Qed.

(** ** Only classified errors are thrown *)

Section ExitFacts.
Context {R E : Type}.
Variable retryConfig : Types.RetryConfig.
Variable attemptOp : Z -> R + E.
Variable isRetryable : E -> bool.

(** The [lastError] at the exit of the loop is the one it started with or
    the error of some attempt. *)
Lemma loop_fell (fuel : nat) :
  forall attempt lastError final events,
    Retry.loop retryConfig attemptOp isRetryable fuel attempt lastError
    = Some (Retry.Fell final, events) ->
    final = lastError \/ exists k e, attemptOp k = inr e /\ final = Some e.
Proof.
  induction fuel as [|fuel IH]; intros attempt lastError final events Hrun;
    [discriminate|].
  rewrite (loop_S retryConfig attemptOp isRetryable) in Hrun.
  destruct (attempt <=? Types.maxAttempts retryConfig).
  2:{ inversion Hrun; subst. left; reflexivity. }
  destruct (attemptOp attempt) as [response|error] eqn:Hop; [discriminate|].
  destruct (attempt =? Types.maxAttempts retryConfig).
  { inversion Hrun; subst. right. eauto. }
  destruct (negb (isRetryable error)).
  { inversion Hrun; subst. right. eauto. }
  destruct (Retry.loop retryConfig attemptOp isRetryable fuel (attempt + 1) (Some error))
    as [[exit' events']|] eqn:Hrec; [|discriminate].
  inversion Hrun; subst.
  destruct (IH _ _ _ _ Hrec) as [Hsame|Hsome].
  - right. subst final. eauto.
  - right. exact Hsome.
Qed.

(** With at least one attempt allowed, a call that does not return
    leaves the loop with the error of some attempt, never with [null]. *)
Lemma run_fell :
  1 <= Types.maxAttempts retryConfig ->
  forall final events,
    Retry.run retryConfig attemptOp isRetryable = Some (Retry.Fell final, events) ->
    exists k e, attemptOp k = inr e /\ final = Some e.
Proof.
  intros HN final events Hrun. unfold Retry.run in Hrun.
  rewrite (loop_S retryConfig attemptOp isRetryable) in Hrun.
  assert (Hle : (1 <=? Types.maxAttempts retryConfig) = true)
    by (apply Z.leb_le; lia).
  rewrite Hle in Hrun.
  destruct (attemptOp 1) as [response|error] eqn:Hop; [discriminate|].
  destruct (1 =? Types.maxAttempts retryConfig).
  { inversion Hrun; subst. eauto. }
  destruct (negb (isRetryable error)).
  { inversion Hrun; subst. eauto. }
  destruct (Retry.loop retryConfig attemptOp isRetryable _ (1 + 1) (Some error))
    as [[exit' events']|] eqn:Hrec; [|discriminate].
  inversion Hrun; subst.
  destruct (loop_fell _ _ _ _ _ Hrec) as [Hsame|Hsome].
  - subst final. eauto.
  - exact Hsome.
Qed.

End ExitFacts.

Lemma name_not_AbortError (e : Errors.HuefyError) :
  String.eqb (Errors.name e) "AbortError" = false.
Proof. unfold Errors.name. destruct (Errors.cls e); reflexivity. Qed.

Ltac in_list := simpl; auto 20.

(** The code of an error built from a decoded body is one of the six
    known codes, UNKNOWN_ERROR when the body has no code, or the code of
    the body. *)
Lemma createErrorFromData_code (error code : option string)
    (details : option (gmap string JsVal)) (statusCode : Z) (e : Errors.HuefyError) :
  Errors.createErrorFromData (Errors.BodyFields error code details) statusCode = inl e ->
  In (Errors.code e) stream_codes \/ code = Some (Errors.code e).
Proof.
  unfold Errors.createErrorFromData, Errors.is_code. intros H.
  inversion H as [He]. clear H He.
  destruct code as [c|]; [|left; in_list].
  repeat match goal with
         | |- context [String.eqb c ?k] => destruct (String.eqb c k); [left; in_list|]
         end.
  right. reflexivity.
Qed.

(** What the [catch] of [makeRequest] rethrows carries a code of the
    stream client, or is the caught [HuefyError] itself. *)
Lemma makeRequest_catch_code (self : HttpClient.t) (timeout : option Z)
    (error : Errors.Thrown) :
  In (Errors.code (HttpClient.makeRequest_catch self timeout error)) stream_codes
  \/ error = Errors.ThrownHuefy (HttpClient.makeRequest_catch self timeout error).
Proof.
  unfold HttpClient.makeRequest_catch.
  destruct error as [isTE n m|e|falsy r]; simpl.
  - destruct (String.eqb n "AbortError"); [left; in_list|].
    destruct (isTE || includes m "fetch"); left; in_list.
  - rewrite name_not_AbortError.
    destruct (includes (Errors.message e) "fetch"); [left; in_list|].
    right. reflexivity.
  - left. in_list.
Qed.

(** Where the code of an error thrown by [makeRequest] comes from. *)
Lemma makeRequest_throws (T : Type) (asErrorResponse : T -> Errors.ErrorData)
    (self : HttpClient.t) (timeout : option Z) (net : HttpClient.FetchOutcome)
    (thrown : Errors.Thrown) :
  HttpClient.makeRequest asErrorResponse self timeout net = inr thrown ->
  exists e,
    thrown = Errors.ThrownHuefy e
    /\ (In (Errors.code e) stream_codes
        \/ (exists status statusText headers body error details,
              net = HttpClient.FetchResponds status statusText headers (Some body)
              /\ HttpClient.response_ok status = false
              /\ asErrorResponse body
                 = Errors.BodyFields error (Some (Errors.code e)) details)
        \/ net = HttpClient.FetchRejects (Errors.ThrownHuefy e)).
Proof.
  unfold HttpClient.makeRequest. intros H.
  destruct (HttpClient.makeRequest_try asErrorResponse net) as [response|error] eqn:Htry;
    [discriminate H|].
  inversion H; subst thrown. clear H. eexists. split; [reflexivity|].
  destruct (makeRequest_catch_code self timeout error) as [Hin|Hsame]; [left; exact Hin|].
  remember (HttpClient.makeRequest_catch self timeout error) as e eqn:Heqe.
  clear Heqe.
  rewrite Hsame in Htry. unfold HttpClient.makeRequest_try in Htry.
  destruct net as [reason|status statusText headers [body|]].
  - inversion Htry; subst reason. right; right. reflexivity.
  - destruct (HttpClient.response_ok status) eqn:Hok; [discriminate Htry|].
    cbn [negb] in Htry.
    destruct (asErrorResponse body) as [m|error' code details] eqn:Hbody.
    + discriminate Htry.
    + destruct (Errors.createErrorFromData (Errors.BodyFields error' code details) status)
        as [e0|typeError] eqn:Hbuild; [|simpl in Hbuild; discriminate Hbuild].
      inversion Htry; subst e0.
      destruct (createErrorFromData_code _ _ _ _ _ Hbuild) as [Hin|Hcode];
        [left; exact Hin|].
      right; left. subst code.
      exists status, statusText, headers, body, error', details. auto.
  - inversion Htry; subst. left. in_list.
Qed.

Lemma convertGrpcError_code (self : GrpcClient.t) (error : option GrpcClient.RawError) :
  In (Errors.code (GrpcClient.convertGrpcError self error)) rpc_codes.
Proof.
  unfold GrpcClient.convertGrpcError. destruct error as [raw|]; [|in_list].
  repeat match goal with
         | |- context [GrpcClient.is_status ?c ?k] =>
             destruct (GrpcClient.is_status c k); [in_list|]
         end.
  in_list.
Qed.

Lemma convertError_code (self : KernelClient.t) (error : option Errors.Thrown) :
  In (Errors.code (KernelClient.convertError self error)) subprocess_codes
  \/ error = Some (Errors.ThrownHuefy (KernelClient.convertError self error)).
Proof.
  unfold KernelClient.convertError.
  destruct error as [[isTE n m|e|[|] r]|];
    try (right; reflexivity);
    repeat match goal with
           | |- context [if ?b then _ else _] => destruct b
           end;
    left; in_list.
Qed.

(** C6, as the code has it.  No raw failure crosses the boundary: a call
    returns a response or throws a [HuefyError].
    - Stream (with at least one attempt allowed): the error thrown is what
      [makeRequest] rethrew at some attempt.  Its code is one of the codes
      of the stream client, or the code of the decoded body of an answer
      outside 200..299, or the code of a [HuefyError] that the exchange
      itself rejected with.  A value that is not recognised becomes a base
      error with code UNEXPECTED_ERROR, of kind [Unknown].
    - RPC: the error thrown is the conversion of the failure of some
      attempt (or of [null]); its code is one of the codes of the mapper;
      a status code that the mapper does not list, or that is not a
      number, gives a [NetworkError], of kind [Network].
    - Subprocess: the error thrown carries one of the codes of the
      converter, or is the [HuefyError] that some attempt rejected with,
      unchanged.  A failure without any of the key words becomes a base
      error with code KERNEL_ERROR, a falsy or missing one a base error
      with code UNKNOWN_ERROR, both of kind [Unknown]. *)
Theorem C6_only_classified_errors_thrown :
  (forall (T : Type) (asErrorResponse : T -> Errors.ErrorData)
          (self : HttpClient.t) (options_timeout : option Z)
          (net : Z -> HttpClient.FetchOutcome),
      1 <= Types.maxAttempts (HttpClient.retryConfig self) ->
      exists events,
        (exists response,
            HttpClient.request asErrorResponse self options_timeout net
            = Some (Retry.Returned response, events))
        \/ (exists e k,
            HttpClient.request asErrorResponse self options_timeout net
            = Some (Retry.Fell (Some (Errors.ThrownHuefy e)), events)
            /\ HttpClient.makeRequest asErrorResponse self
                 (Some (num_or options_timeout (HttpClient.timeout self))) (net k)
               = inr (Errors.ThrownHuefy e)))
  /\ (forall (T : Type) (asErrorResponse : T -> Errors.ErrorData)
             (self : HttpClient.t) (timeout : option Z)
             (net : HttpClient.FetchOutcome) (thrown : Errors.Thrown),
      HttpClient.makeRequest asErrorResponse self timeout net = inr thrown ->
      exists e,
        thrown = Errors.ThrownHuefy e
        /\ (In (Errors.code e) stream_codes
            \/ (exists status statusText headers body error details,
                  net = HttpClient.FetchResponds status statusText headers (Some body)
                  /\ HttpClient.response_ok status = false
                  /\ asErrorResponse body
                     = Errors.BodyFields error (Some (Errors.code e)) details)
            \/ net = HttpClient.FetchRejects (Errors.ThrownHuefy e)))
  /\ (forall (self : HttpClient.t) (timeout : option Z) (error : Errors.Thrown),
      Errors.isHuefyError error = false ->
      Errors.instanceofTypeError error = false ->
      Errors.thrown_name error <> Some "AbortError" ->
      (forall m, Errors.thrown_message error = Some m -> includes m "fetch" = false) ->
      Errors.code (HttpClient.makeRequest_catch self timeout error)
      = "UNEXPECTED_ERROR"
      /\ Spec.kind (HttpClient.makeRequest_catch self timeout error)
         = Spec.Unknown)
  /\ (forall (T : Type) (self : GrpcClient.t) (rpc : Z -> T + GrpcClient.RawError),
      exists (result : T + Errors.HuefyError) events,
        GrpcClient.makeGrpcRequest self rpc = Some (result, events)
        /\ forall e,
             result = inr e ->
             In (Errors.code e) rpc_codes
             /\ (e = GrpcClient.convertGrpcError self None
                 \/ exists k raw,
                      rpc k = inr raw
                      /\ e = GrpcClient.convertGrpcError self (Some raw)))
  /\ (forall (self : GrpcClient.t) (raw : GrpcClient.RawError),
      (forall n, GrpcClient.code raw = VNum n -> ~ In n rpc_listed) ->
      Errors.cls (GrpcClient.convertGrpcError self (Some raw)) = Errors.NetworkErrorC
      /\ Errors.code (GrpcClient.convertGrpcError self (Some raw)) = "NETWORK_ERROR"
      /\ Spec.kind (GrpcClient.convertGrpcError self (Some raw)) = Spec.Network)
  /\ (forall (D : Type) (self : KernelClient.t)
             (spawned : Z -> option D + Errors.Thrown),
      exists (result : option D + Errors.HuefyError) events,
        KernelClient.executeKernelCommand self spawned = Some (result, events)
        /\ forall e,
             result = inr e ->
             In (Errors.code e) subprocess_codes
             \/ exists k, spawned k = inr (Errors.ThrownHuefy e))
  /\ (forall (self : KernelClient.t) (isTypeError : bool) (name message : string),
      (forall keyword,
          In keyword ["API key"; "template"; "rate limit"; "timeout";
                      "network"; "connection"] ->
          includes (str_or (Some message) "Unknown kernel error") keyword = false) ->
      let e := KernelClient.convertError self
                 (Some (Errors.ThrownError isTypeError name message)) in
      Errors.code e = "KERNEL_ERROR" /\ Spec.kind e = Spec.Unknown)
  /\ (forall (self : KernelClient.t) (falsy : bool) (rendering : string),
      let e := KernelClient.convertError self
                 (Some (Errors.ThrownOther falsy rendering)) in
      Errors.code e = (if falsy then "UNKNOWN_ERROR" else "KERNEL_ERROR")
      /\ Spec.kind e = Spec.Unknown)
  /\ (forall self,
        Errors.code (GrpcClient.convertGrpcError self None) = "UNKNOWN_ERROR"
        /\ Spec.kind (GrpcClient.convertGrpcError self None) = Spec.Unknown)
  /\ (forall self,
        Errors.code (KernelClient.convertError self None) = "UNKNOWN_ERROR"
        /\ Spec.kind (KernelClient.convertError self None) = Spec.Unknown).
Proof.
  repeat apply conj.
  - intros T asER self opt net HN.
    unfold HttpClient.request.
    destruct (run_total (HttpClient.retryConfig self)
                (fun attempt =>
                   HttpClient.makeRequest asER self
                     (Some (num_or opt (HttpClient.timeout self))) (net attempt))
                Errors.isRetryableError) as [[exit events] Hrun].
    exists events. destruct exit as [response|final].
    + left. exists response. exact Hrun.
    + right. destruct (run_fell _ _ _ HN _ _ Hrun) as [k [thrown [Hop Hfinal]]].
      subst final.
      destruct (makeRequest_throws _ _ _ _ _ _ Hop) as [e [He _]]. subst thrown.
      exists e, k. split; [exact Hrun | exact Hop].
  - intros T asER self timeout net thrown. apply makeRequest_throws.
  - intros self timeout error Hh Hte Hname Hmsg.
    unfold HttpClient.makeRequest_catch. rewrite Hte.
    destruct error as [isTE n m|e|falsy r]; [| discriminate Hh |].
    + simpl in *.
      destruct (String.eqb_spec n "AbortError") as [Heq|Hne];
        [subst n; exfalso; apply Hname; reflexivity|].
      rewrite (Hmsg m eq_refl). simpl. split; reflexivity.
    + simpl. split; reflexivity.
  - intros T self rpc. unfold GrpcClient.makeGrpcRequest.
    destruct (run_total (GrpcClient.retryConfig self) rpc
                (GrpcClient.isRetryableGrpcError self)) as [[exit events] Hrun].
    rewrite Hrun. destruct exit as [response|final].
    + eexists. eexists. split; [reflexivity|]. intros e He. discriminate He.
    + eexists. eexists. split; [reflexivity|]. intros e He.
      inversion He; subst e. split; [apply convertGrpcError_code|].
      unfold Retry.run in Hrun.
      destruct (loop_fell _ _ _ _ _ _ _ _ Hrun) as [Hnull|[k [raw [Hop Hfinal]]]];
        subst final; [left; reflexivity | right; eauto].
  - intros self raw Hcode.
    unfold GrpcClient.convertGrpcError, GrpcClient.is_status.
    destruct (GrpcClient.code raw) as [| |b|n|s0]; try (repeat split; reflexivity).
    pose proof (Hcode n eq_refl) as Hn. unfold rpc_listed in Hn.
    repeat match goal with
           | |- context [n =? ?k] =>
               destruct (Z.eqb_spec n k);
               [exfalso; apply Hn; subst n; in_list|]
           end.
    repeat split; reflexivity.
  - intros D self spawned. unfold KernelClient.executeKernelCommand.
    destruct (run_total (KernelClient.retryConfig self) spawned
                KernelClient.isRetryableError) as [[exit events] Hrun].
    rewrite Hrun. destruct exit as [response|final].
    + eexists. eexists. split; [reflexivity|]. intros e He. discriminate He.
    + eexists. eexists. split; [reflexivity|]. intros e He.
      inversion He; subst e.
      destruct (convertError_code self final) as [Hin|Hsame]; [left; exact Hin|].
      right. unfold Retry.run in Hrun.
      destruct (loop_fell _ _ _ _ _ _ _ _ Hrun) as [Hnull|[k [thrown [Hop Hfinal]]]].
      * subst final. discriminate Hsame.
      * exists k. rewrite Hop. rewrite Hfinal in Hsame at 1.
        inversion Hsame as [Hthrown]. rewrite <- Hthrown. reflexivity.
  - intros self isTE n m Hkw e. subst e.
    unfold KernelClient.convertError. cbn [Errors.thrown_message].
    rewrite (Hkw "API key"), (Hkw "template"), (Hkw "rate limit"),
      (Hkw "timeout"), (Hkw "network"), (Hkw "connection");
      simpl; auto 10.
  - intros self falsy r e. subst e. destruct falsy; split; reflexivity.
  - intros self. split; reflexivity.
  - intros self. split; reflexivity.
Qed.

(** Instances of C6: the sample stream client when the exchange rejects
    with a value that is not an error, a caught [RangeError], an RPC
    failure with a status code that the mapper does not list, and a child
    whose output does not decode. *)
Lemma C6_only_classified_errors_witness :
  (exists events,
      (exists response,
          HttpClient.request Errors.typed Samples.http None
            (fun _ => HttpClient.FetchRejects (T := Types.ErrorResponse)
                        (Errors.ThrownOther false "boom"))
          = Some (Retry.Returned response, events))
      \/ (exists e (k : Z),
          HttpClient.request Errors.typed Samples.http None
            (fun _ => HttpClient.FetchRejects (T := Types.ErrorResponse)
                        (Errors.ThrownOther false "boom"))
          = Some (Retry.Fell (Some (Errors.ThrownHuefy e)), events)
          /\ HttpClient.makeRequest Errors.typed Samples.http (Some 30000)
               (HttpClient.FetchRejects (T := Types.ErrorResponse)
                  (Errors.ThrownOther false "boom"))
             = inr (Errors.ThrownHuefy e)))
  /\ (Errors.code (HttpClient.makeRequest_catch Samples.http None
                     (Errors.ThrownError false "RangeError" "boom"))
      = "UNEXPECTED_ERROR"
      /\ Spec.kind (HttpClient.makeRequest_catch Samples.http None
                      (Errors.ThrownError false "RangeError" "boom"))
         = Spec.Unknown)
  /\ (Errors.cls (GrpcClient.convertGrpcError Samples.grpc
                    (Some (Samples.rpc_error GrpcStatus.ABORTED "aborted")))
      = Errors.NetworkErrorC
      /\ Errors.code (GrpcClient.convertGrpcError Samples.grpc
                        (Some (Samples.rpc_error GrpcStatus.ABORTED "aborted")))
         = "NETWORK_ERROR"
      /\ Spec.kind (GrpcClient.convertGrpcError Samples.grpc
                      (Some (Samples.rpc_error GrpcStatus.ABORTED "aborted")))
         = Spec.Network)
  /\ (Errors.code (KernelClient.convertError Samples.kernel
                     (Some (Errors.ThrownError false "Error"
                              "Failed to parse kernel response: SyntaxError")))
      = "KERNEL_ERROR"
      /\ Spec.kind (KernelClient.convertError Samples.kernel
                      (Some (Errors.ThrownError false "Error"
                               "Failed to parse kernel response: SyntaxError")))
         = Spec.Unknown).
Proof.
  destruct C6_only_classified_errors_thrown
    as [Hhttp [_ [Hcatch [_ [Hrpc [_ [Hconvert _]]]]]]].
  split; [|split; [|split]].
  - apply (Hhttp Types.ErrorResponse Errors.typed Samples.http None
             (fun _ => HttpClient.FetchRejects (Errors.ThrownOther false "boom"))).
    simpl. lia.
  - apply (Hcatch Samples.http None (Errors.ThrownError false "RangeError" "boom")).
    + reflexivity.
    + reflexivity.
    + discriminate.
    + intros m Hm. inversion Hm; subst m. reflexivity.
  - apply (Hrpc Samples.grpc (Samples.rpc_error GrpcStatus.ABORTED "aborted")).
    intros n Hn. inversion Hn; subst n.
    intros Hin. simpl in Hin.
    destruct Hin as [H|[H|[H|[H|[H|[H|[H|[H|[]]]]]]]]]; discriminate H.
  - apply (Hconvert Samples.kernel false "Error"
             "Failed to parse kernel response: SyntaxError").
    intros keyword Hin. simpl in Hin.
    destruct Hin as [H|[H|[H|[H|[H|[H|[]]]]]]]; subst keyword; reflexivity.
Defined.

(** C6 as stated fails on the codes and on the kind of unrecognised
    failures.  An answer 418 whose body carries a code of the remote
    service is thrown by the stream client with that code, which is not
    a code of the SDK; a child response with [success] false hands its
    code to the caller in the same way; and an RPC failure with a status
    code that the mapper does not list is classified as [Network], not as
    [Unknown] or [Internal]. *)
Lemma C6_remote_code_crosses_boundary :
  (exists e,
      HttpClient.request Errors.typed Samples.http None
        (fun _ => Samples.answer 418
                    (Some {| Types.error := "short and stout";
                             Types.code := "I_AM_A_TEAPOT";
                             Types.details := None |}))
      = Some (Retry.Fell (Some (Errors.ThrownHuefy e)), [Retry.Attempt 1])
      /\ Errors.code e = "I_AM_A_TEAPOT"
      /\ ~ In (Errors.code e) sdk_codes)
  /\ (exists e,
        KernelClient.executeKernelCommand (D := unit) Samples.kernel
          (fun _ => inr (Errors.ThrownHuefy
                           (Errors.new_HuefyError "quota" (Some "E_QUOTA")
                              None undefined)))
        = Some (inr e, [Retry.Attempt 1])
        /\ Errors.code e = "E_QUOTA"
        /\ ~ In (Errors.code e) sdk_codes)
  /\ (let e := GrpcClient.convertGrpcError Samples.grpc
                 (Some (Samples.rpc_error GrpcStatus.ABORTED "aborted")) in
      Spec.kind e = Spec.Network
      /\ Spec.kind e <> Spec.Unknown
      /\ Spec.kind e <> Spec.Internal).
Proof.
  split; [|split].
  - eexists. split; [reflexivity|]. split; [reflexivity|].
    simpl. intros H. repeat (destruct H as [H|H]; [discriminate H|]). exact H.
  - eexists. split; [reflexivity|]. split; [reflexivity|].
    simpl. intros H. repeat (destruct H as [H|H]; [discriminate H|]). exact H.
  - repeat split; try reflexivity; discriminate.
Qed.

(** ** Error classes *)

(** C7. Whatever the HTTP status, the payload
    [{error: "x", code: "TEMPLATE_NOT_FOUND", details: {template_key: "t"}}]
    is classified as a [TemplateNotFound] error with statusCode 404 whose
    details carry [template_key = "t"]. *)
Theorem C7_template_not_found_round_trip (statusCode : Z) :
  let e := Errors.createErrorFromResponse Samples.template_not_found_payload
             statusCode in
  Spec.kind e = Spec.TemplateNotFound
  /\ Errors.statusCode e = Some 404
  /\ details_get e "template_key" = Some (VStr "t").
Proof. repeat split; vm_compute; reflexivity. Qed.

(** The same payload through [makeRequest], answered with status 404. *)
Example template_not_found_through_makeRequest :
  HttpClient.makeRequest Errors.typed Samples.http None
    (Samples.answer 404 (Some Samples.template_not_found_payload))
  = inr (Errors.ThrownHuefy
           (Errors.createErrorFromResponse Samples.template_not_found_payload 404)).
Proof. vm_compute. reflexivity. Qed.

(** C8, as the code has it.  An error built by one of the dedicated error
    classes carries the statusCode of the mapping table for its kind
    (Authentication 401, TemplateNotFound 404,
    InvalidTemplateData/InvalidRecipient/Validation 400, Provider 500,
    RateLimit 429, Network and Timeout none).  For each of the six known
    remote codes (INVALID_API_KEY, TEMPLATE_NOT_FOUND,
    INVALID_TEMPLATE_DATA, INVALID_RECIPIENT, PROVIDER_ERROR,
    RATE_LIMIT_EXCEEDED) [createErrorFromResponse] builds the error of the
    dedicated class of that code, with the kind and the statusCode of the
    table whatever the HTTP status; for any other code it builds a base
    error that carries the remote code and the HTTP status as received. *)
Theorem C8_status_of_error_classes :
  (forall e, Constructed e -> Errors.cls e <> Errors.HuefyErrorC -> Spec.consistent e)
  /\ (forall c,
        known_code_kind c <> None
        <-> In c ["INVALID_API_KEY"; "TEMPLATE_NOT_FOUND"; "INVALID_TEMPLATE_DATA";
                  "INVALID_RECIPIENT"; "PROVIDER_ERROR"; "RATE_LIMIT_EXCEEDED"])
  /\ (known_code_kind "INVALID_API_KEY" = Some Spec.Authentication
      /\ known_code_kind "TEMPLATE_NOT_FOUND" = Some Spec.TemplateNotFound
      /\ known_code_kind "INVALID_TEMPLATE_DATA" = Some Spec.InvalidTemplateData
      /\ known_code_kind "INVALID_RECIPIENT" = Some Spec.InvalidRecipient
      /\ known_code_kind "PROVIDER_ERROR" = Some Spec.Provider
      /\ known_code_kind "RATE_LIMIT_EXCEEDED" = Some Spec.RateLimit)
  /\ (forall data statusCode k,
        known_code_kind (Types.code data) = Some k ->
        let e := Errors.createErrorFromResponse data statusCode in
        Spec.kind e = k
        /\ Errors.cls e <> Errors.HuefyErrorC
        /\ Errors.code e = Types.code data
        /\ Errors.statusCode e = Spec.table_statusCode k
        /\ Spec.consistent e)
  /\ (forall data statusCode,
        known_code_kind (Types.code data) = None ->
        Errors.createErrorFromResponse data statusCode
        = Errors.new_HuefyError (Types.error data) (Some (Types.code data))
            (Some statusCode) (Errors.any_of_details (Types.details data))).
Proof.
  split; [|split; [|split; [|split]]].
  - intros e Hc Hcls. destruct Hc; try reflexivity. exfalso. apply Hcls. reflexivity.
  - intros c. unfold known_code_kind. simpl.
    repeat match goal with
           | |- context [String.eqb c ?k] =>
               destruct (String.eqb_spec c k);
               [subst c; split; [intros _; auto 10 | discriminate]|]
           end.
    split; [intros H; exfalso; apply H; reflexivity|].
    intros H. repeat (destruct H as [H|H]; [congruence|]). contradiction.
  - repeat split; reflexivity.
  - intros data statusCode k Hk e. subst e.
    unfold known_code_kind in Hk. unfold Errors.createErrorFromResponse.
    repeat match type of Hk with
           | context [String.eqb (Types.code data) ?c] =>
               destruct (String.eqb_spec (Types.code data) c) as [Heq|_];
               [inversion Hk; subst k; rewrite Heq;
                repeat split; try reflexivity; discriminate|]
           end.
    discriminate Hk.
  - intros data statusCode. unfold known_code_kind, Errors.createErrorFromResponse.
    repeat match goal with
           | |- context [String.eqb (Types.code data) ?c] =>
               destruct (String.eqb (Types.code data) c); [discriminate|]
           end.
    reflexivity.
Qed.

(** Instances of C8: a rate-limit error built by its class, and a
    rate-limit answer that arrives with HTTP status 503. *)
Lemma C8_status_of_error_classes_witness :
  Spec.consistent (Errors.new_RateLimitError None undefined)
  /\ (let e := Errors.createErrorFromResponse
                 {| Types.error := "slow down";
                    Types.code := "RATE_LIMIT_EXCEEDED";
                    Types.details := None |} 503 in
      Spec.kind e = Spec.RateLimit
      /\ Errors.cls e <> Errors.HuefyErrorC
      /\ Errors.code e = "RATE_LIMIT_EXCEEDED"
      /\ Errors.statusCode e = Some 429
      /\ Spec.consistent e).
Proof.
  split.
  - apply (proj1 C8_status_of_error_classes
             (Errors.new_RateLimitError None undefined)).
    + constructor.
    + discriminate.
  - apply (proj1 (proj2 (proj2 (proj2 C8_status_of_error_classes)))
             {| Types.error := "slow down";
                Types.code := "RATE_LIMIT_EXCEEDED";
                Types.details := None |} 503 Spec.RateLimit).
    reflexivity.
Defined.

(** C8 as stated fails on base errors.  A 429 answer whose body carries an
    unknown code, and a 429 answer whose body does not decode, both yield
    an error with statusCode 429 whose kind is not [RateLimit]; and the RPC
    mapper builds an [Internal] error without statusCode. *)
Lemma C8_status_429_with_other_kind :
  (let e := Errors.createErrorFromResponse
              {| Types.error := "Too many requests";
                 Types.code := "TOO_MANY_REQUESTS";
                 Types.details := None |} 429 in
   Errors.statusCode e = Some 429
   /\ Spec.kind e = Spec.Unknown
   /\ ~ Spec.consistent e)
  /\ (exists e,
        HttpClient.makeRequest Errors.typed Samples.http None
          (Samples.answer 429 None) = inr (Errors.ThrownHuefy e)
        /\ Errors.statusCode e = Some 429
        /\ Spec.kind e = Spec.Unknown
        /\ ~ Spec.consistent e)
  /\ (let e := GrpcClient.convertGrpcError Samples.grpc
                 (Some (Samples.rpc_error GrpcStatus.INTERNAL "fault")) in
      Spec.kind e = Spec.Internal
      /\ Errors.statusCode e = None
      /\ ~ Spec.consistent e).
Proof.
  split; [|split].
  - repeat split; try reflexivity. discriminate.
  - eexists. split; [reflexivity|]. repeat split; try reflexivity. discriminate.
  - repeat split; try reflexivity. discriminate.
Qed.

(** ** The child process *)

Section SpawnFacts.
Context {D : Type}.
Variable JSON_parse : string -> KernelClient.CLIResponse (D := D) + string.
Variable self : KernelClient.t.

Let step := KernelClient.on_event JSON_parse self.

(** A settled promise stays as it is. *)
Lemma on_event_settled (st : KernelClient.ProcState) (ev : KernelClient.ProcEvent)
    (r : option D + Errors.Thrown) :
  KernelClient.settled st = Some r ->
  KernelClient.settled (step st ev) = Some r.
Proof.
  intros Hs. unfold step.
  destruct ev as [chunk|chunk|exitCode|message|]; simpl;
    unfold KernelClient.on_close, KernelClient.reject, KernelClient.resolve;
    simpl; rewrite ?Hs;
    repeat match goal with
           | |- context [match ?x with _ => _ end] => destruct x
           | |- context [if ?x then _ else _] => destruct x
           end; simpl; rewrite ?Hs; reflexivity.
Qed.

Lemma fold_settled (events : list KernelClient.ProcEvent) :
  forall st r,
    KernelClient.settled st = Some r ->
    KernelClient.settled (fold_left step events st) = Some r.
Proof.
  induction events as [|ev events IH]; intros st r Hs; [exact Hs|].
  simpl. apply IH. apply on_event_settled. exact Hs.
Qed.

(** Once [kill()] was called it stays called. *)
Lemma on_event_killed (st : KernelClient.ProcState) (ev : KernelClient.ProcEvent) :
  KernelClient.killed st = true ->
  KernelClient.killed (step st ev) = true.
Proof.
  intros Hk. unfold step.
  destruct ev as [chunk|chunk|exitCode|message|]; simpl;
    unfold KernelClient.on_close, KernelClient.reject, KernelClient.resolve;
    simpl;
    repeat match goal with
           | |- context [match ?x with _ => _ end] => destruct x
           | |- context [if ?x then _ else _] => destruct x
           end; simpl; first [exact Hk | reflexivity].
Qed.

Lemma fold_killed (events : list KernelClient.ProcEvent) :
  forall st,
    KernelClient.killed st = true ->
    KernelClient.killed (fold_left step events st) = true.
Proof.
  induction events as [|ev events IH]; intros st Hk; [exact Hk|].
  simpl. apply IH. apply on_event_killed. exact Hk.
Qed.

(** Output and diagnostics do not settle the promise. *)
Lemma fold_data_pending (events : list KernelClient.ProcEvent) :
  forall st,
    forallb data_event events = true ->
    KernelClient.settled st = None ->
    KernelClient.settled (fold_left step events st) = None.
Proof.
  induction events as [|ev events IH]; intros st Hdata Hs; [exact Hs|].
  simpl in Hdata. apply andb_true_iff in Hdata. destruct Hdata as [Hev Hrest].
  simpl. apply IH; [exact Hrest|].
  destruct ev; try discriminate Hev; exact Hs.
Qed.

(** Before the child ends, the promise is pending or rejected. *)
Lemma fold_not_resolved (events : list KernelClient.ProcEvent) :
  forall st,
    forallb not_close events = true ->
    (forall value, KernelClient.settled st <> Some (inl value)) ->
    forall value,
      KernelClient.settled (fold_left step events st) <> Some (inl value).
Proof.
  induction events as [|ev events IH]; intros st Hnc Hs; [exact Hs|].
  simpl in Hnc. apply andb_true_iff in Hnc. destruct Hnc as [Hev Hrest].
  simpl. apply IH; [exact Hrest|].
  intros value. unfold step.
  destruct ev as [chunk|chunk|exitCode|message|]; simpl;
    try discriminate Hev; try apply Hs;
    unfold KernelClient.reject; simpl;
    destruct (KernelClient.settled st) as [r|] eqn:Hst; simpl;
    try discriminate; rewrite ?Hst; intros Heq; apply (Hs value);
    congruence.
Qed.

(** The timer settles a pending or rejected promise as rejected and
    calls [kill()]. *)
Lemma timeout_step (st : KernelClient.ProcState) :
  KernelClient.killed (step st KernelClient.TimeoutFired) = true
  /\ (KernelClient.settled st = None ->
      KernelClient.settled (step st KernelClient.TimeoutFired)
      = Some (inr (Errors.ThrownHuefy
                     (Errors.new_TimeoutError (KernelClient.timeout self))))).
Proof.
  unfold step. simpl. unfold KernelClient.reject. simpl.
  split.
  - destruct (KernelClient.settled st); reflexivity.
  - intros Hs. rewrite Hs. reflexivity.
Qed.

End SpawnFacts.

(** C9. When the timer of an attempt fires before the child has ended,
    the transport calls [kill()] on the child and the attempt is rejected,
    never resolved, whatever the child wrote before.  If nothing had
    rejected the attempt earlier (the child only wrote output or
    diagnostics, and the request was written), the rejection is the
    [TimeoutError] for [this.timeout], of kind [Timeout]; it is retryable
    and the converter hands it to the caller unchanged. *)
Theorem C9_timeout_kills_and_rejects (D : Type)
    (JSON_parse : string -> KernelClient.CLIResponse (D := D) + string)
    (self : KernelClient.t) (before after : list KernelClient.ProcEvent) :
  (forall writeFailure,
      forallb not_close before = true ->
      let st := KernelClient.spawnKernelProcess JSON_parse self writeFailure
                  (before ++ KernelClient.TimeoutFired :: after) in
      KernelClient.killed st = true
      /\ exists reason, KernelClient.settled st = Some (inr reason))
  /\ (forallb data_event before = true ->
      let st := KernelClient.spawnKernelProcess JSON_parse self None
                  (before ++ KernelClient.TimeoutFired :: after) in
      let timeoutError := Errors.new_TimeoutError (KernelClient.timeout self) in
      KernelClient.killed st = true
      /\ KernelClient.settled st = Some (inr (Errors.ThrownHuefy timeoutError))
      /\ Spec.kind timeoutError = Spec.Timeout
      /\ KernelClient.isRetryableError (Errors.ThrownHuefy timeoutError) = true
      /\ KernelClient.convertError self (Some (Errors.ThrownHuefy timeoutError))
         = timeoutError).
Proof.
  split.
  - intros writeFailure Hnc st. subst st. unfold KernelClient.spawnKernelProcess.
    rewrite fold_left_app. cbn [fold_left].
    match goal with
    | |- context [fold_left _ before ?s] => set (st0 := s)
    end.
    set (st1 := fold_left (KernelClient.on_event JSON_parse self) before st0).
    destruct (timeout_step JSON_parse self st1) as [Hkill Hpending].
    split; [apply fold_killed; exact Hkill|].
    assert (Hst1 : forall value, KernelClient.settled st1 <> Some (inl value)).
    { apply fold_not_resolved; [exact Hnc|].
      intros value. subst st0. destruct writeFailure; discriminate. }
    destruct (KernelClient.settled st1) as [[value|reason]|] eqn:Hs.
    + exfalso. apply (Hst1 value). reflexivity.
    + exists reason. apply fold_settled. apply on_event_settled. exact Hs.
    + eexists. apply fold_settled. apply Hpending. reflexivity.
  - intros Hdata st timeoutError. subst st timeoutError.
    unfold KernelClient.spawnKernelProcess.
    rewrite fold_left_app. cbn [fold_left].
    match goal with
    | |- context [fold_left _ before ?s] => set (st0 := s)
    end.
    set (st1 := fold_left (KernelClient.on_event JSON_parse self) before st0).
    destruct (timeout_step JSON_parse self st1) as [Hkill Hpending].
    split; [apply fold_killed; exact Hkill|].
    split.
    + apply fold_settled. apply Hpending.
      apply fold_data_pending; [exact Hdata|reflexivity].
    + repeat split; reflexivity.
Qed.

(** Instances of C9: the child wrote a complete answer and some
    diagnostics, the timer fired, then the child ended with exit code 0;
    and the same with a request that could not be written. *)
Lemma C9_timeout_kills_and_rejects_witness :
  (let st := KernelClient.spawnKernelProcess Samples.parse_ok_only Samples.kernel
               (Some "EPIPE")
               ([KernelClient.StdoutData "ok"; KernelClient.StderrData "slow"]
                ++ KernelClient.TimeoutFired :: [KernelClient.Close (Some 0)]) in
   KernelClient.killed st = true
   /\ exists reason, KernelClient.settled st = Some (inr reason))
  /\ (let st := KernelClient.spawnKernelProcess Samples.parse_ok_only Samples.kernel
                  None
                  ([KernelClient.StdoutData "ok"; KernelClient.StderrData "slow"]
                   ++ KernelClient.TimeoutFired :: [KernelClient.Close (Some 0)]) in
      KernelClient.killed st = true
      /\ KernelClient.settled st
         = Some (inr (Errors.ThrownHuefy (Errors.new_TimeoutError 30000)))
      /\ Spec.kind (Errors.new_TimeoutError 30000) = Spec.Timeout
      /\ KernelClient.isRetryableError
           (Errors.ThrownHuefy (Errors.new_TimeoutError 30000)) = true
      /\ KernelClient.convertError Samples.kernel
           (Some (Errors.ThrownHuefy (Errors.new_TimeoutError 30000)))
         = Errors.new_TimeoutError 30000).
Proof.
  destruct (C9_timeout_kills_and_rejects string Samples.parse_ok_only
              Samples.kernel
              [KernelClient.StdoutData "ok"; KernelClient.StderrData "slow"]
              [KernelClient.Close (Some 0)]) as [Hany Hdata].
  split.
  - apply (Hany (Some "EPIPE")). reflexivity.
  - apply Hdata. reflexivity.
Defined.

(** Without the timer the same child output is a success. *)
Example child_answer_in_time :
  KernelClient.settled
    (KernelClient.spawnKernelProcess Samples.parse_ok_only Samples.kernel None
       [KernelClient.StdoutData "ok"; KernelClient.Close (Some 0)])
  = Some (inl None).
Proof. reflexivity. Qed.

(** ** Constructor defaults *)

Lemma num_or_zero (d : Z) : num_or (Some 0) d = d.
Proof. reflexivity. Qed.

Lemma num_or_negative (t d : Z) : t < 0 -> (num_or (Some t) d <? 0) = true.
Proof.
  intros Ht. unfold num_or.
  destruct (Z.eqb_spec t 0); [lia|]. apply Z.ltb_lt. exact Ht.
Qed.

(** The three constructors start with the same assignments and checks. *)
Ltac constructor_defaults Hnew Hzero :=
  match type of Hnew with
  | context [negb (truthy ?k) || negb (HttpClient.is_string ?k)] =>
      destruct (negb (truthy k) || negb (HttpClient.is_string k));
      [discriminate Hnew|]
  end;
  match type of Hnew with
  | context [num_or ?t 30000 <? 0] =>
      destruct (num_or t 30000 <? 0); [discriminate Hnew|]
  end;
  repeat match type of Hnew with
         | context [match ?x with _ => _ end] => destruct x; [|discriminate Hnew]
         end;
  repeat match type of Hnew with
         | context [match ?x with _ => _ end] => destruct x; [discriminate Hnew|]
         end;
  inversion Hnew; subst; simpl; rewrite Hzero; reflexivity.

Ltac constructor_rejects Ht Hneg :=
  rewrite Ht, (num_or_negative _ 30000 Hneg);
  match goal with
  | |- context [negb (truthy ?k) || negb (HttpClient.is_string ?k)] =>
      destruct (negb (truthy k) || negb (HttpClient.is_string k))
  end; eexists; split; reflexivity.

(** C10. In each of the three constructors a [retryAttempts], [retryDelay]
    or [timeout] of 0 is replaced by the default (3 attempts, 1000 ms,
    30000 ms), so a client built with [retryAttempts = 0] still makes three
    attempts; and a negative [timeout] makes the constructor throw an
    error with code INVALID_CONFIG. *)
Theorem C10_zero_is_default_negative_timeout_rejected :
  (forall config self,
      HttpClient.new config = inl self ->
      (Types.retryAttempts config = Some 0 ->
       Types.maxAttempts (HttpClient.retryConfig self) = 3)
      /\ (Types.retryDelay config = Some 0 ->
          Types.initialDelay (HttpClient.retryConfig self) = 1000)
      /\ (Types.timeout config = Some 0 -> HttpClient.timeout self = 30000))
  /\ (forall isProduction initFailure config self,
      GrpcClient.new isProduction initFailure config = inl self ->
      (Types.retryAttempts config = Some 0 ->
       Types.maxAttempts (GrpcClient.retryConfig self) = 3)
      /\ (Types.retryDelay config = Some 0 ->
          Types.initialDelay (GrpcClient.retryConfig self) = 1000)
      /\ (Types.timeout config = Some 0 -> GrpcClient.timeout self = 30000))
  /\ (forall isProduction platform arch packageDir config self,
      KernelClient.new isProduction platform arch packageDir config = inl self ->
      (Types.retryAttempts config = Some 0 ->
       Types.maxAttempts (KernelClient.retryConfig self) = 3)
      /\ (Types.retryDelay config = Some 0 ->
          Types.initialDelay (KernelClient.retryConfig self) = 1000)
      /\ (Types.timeout config = Some 0 -> KernelClient.timeout self = 30000))
  /\ (forall config t,
      Types.timeout config = Some t -> t < 0 ->
      (exists e, HttpClient.new config = inr e
                 /\ Errors.code e = "INVALID_CONFIG")
      /\ (forall isProduction initFailure,
            exists e, GrpcClient.new isProduction initFailure config = inr e
                      /\ Errors.code e = "INVALID_CONFIG")
      /\ (forall isProduction platform arch packageDir,
            exists e,
              KernelClient.new isProduction platform arch packageDir config = inr e
              /\ Errors.code e = "INVALID_CONFIG")).
Proof.
  split; [|split; [|split]].
  - intros config self Hnew. unfold HttpClient.new in Hnew.
    split; [|split]; intros Hzero; constructor_defaults Hnew Hzero.
  - intros isProduction initFailure config self Hnew.
    unfold GrpcClient.new in Hnew.
    split; [|split]; intros Hzero; constructor_defaults Hnew Hzero.
  - intros isProduction platform arch packageDir config self Hnew.
    unfold KernelClient.new in Hnew.
    split; [|split]; intros Hzero; constructor_defaults Hnew Hzero.
  - intros config t Ht Hneg. split; [|split].
    + unfold HttpClient.new. constructor_rejects Ht Hneg.
    + intros isProduction initFailure. unfold GrpcClient.new.
      constructor_rejects Ht Hneg.
    + intros isProduction platform arch packageDir. unfold KernelClient.new.
      constructor_rejects Ht Hneg.
Qed.

(** Instances of C10: the configuration with three zeros builds the
    default clients, and a time-out of -1 is rejected by the three
    constructors. *)
Lemma C10_zero_is_default_witness :
  (HttpClient.new Samples.zero_config = inl Samples.http
   /\ Types.maxAttempts (HttpClient.retryConfig Samples.http) = 3
   /\ Types.initialDelay (HttpClient.retryConfig Samples.http) = 1000
   /\ HttpClient.timeout Samples.http = 30000)
  /\ (GrpcClient.new false None Samples.zero_config = inl Samples.grpc
      /\ Types.maxAttempts (GrpcClient.retryConfig Samples.grpc) = 3
      /\ Types.initialDelay (GrpcClient.retryConfig Samples.grpc) = 1000
      /\ GrpcClient.timeout Samples.grpc = 30000)
  /\ (KernelClient.new false "linux" "x64" "/pkg" Samples.zero_config
      = inl Samples.kernel
      /\ Types.maxAttempts (KernelClient.retryConfig Samples.kernel) = 3
      /\ Types.initialDelay (KernelClient.retryConfig Samples.kernel) = 1000
      /\ KernelClient.timeout Samples.kernel = 30000)
  /\ (exists e, HttpClient.new Samples.negative_timeout_config = inr e
                /\ Errors.code e = "INVALID_CONFIG")
  /\ (exists e, GrpcClient.new false None Samples.negative_timeout_config = inr e
                /\ Errors.code e = "INVALID_CONFIG")
  /\ (exists e, KernelClient.new false "linux" "x64" "/pkg"
                  Samples.negative_timeout_config = inr e
                /\ Errors.code e = "INVALID_CONFIG").
Proof.
  destruct C10_zero_is_default_negative_timeout_rejected
    as [Hhttp [Hgrpc [Hkernel Hnegative]]].
  split; [|split; [|split]].
  - split; [reflexivity|].
    destruct (Hhttp Samples.zero_config Samples.http eq_refl) as [Ha [Hd Ht]].
    split; [apply Ha; reflexivity|].
    split; [apply Hd; reflexivity | apply Ht; reflexivity].
  - split; [reflexivity|].
    destruct (Hgrpc false None Samples.zero_config Samples.grpc eq_refl)
      as [Ha [Hd Ht]].
    split; [apply Ha; reflexivity|].
    split; [apply Hd; reflexivity | apply Ht; reflexivity].
  - split; [reflexivity|].
    destruct (Hkernel false "linux" "x64" "/pkg" Samples.zero_config
                Samples.kernel eq_refl) as [Ha [Hd Ht]].
    split; [apply Ha; reflexivity|].
    split; [apply Hd; reflexivity | apply Ht; reflexivity].
  - destruct (Hnegative Samples.negative_timeout_config (-1) eq_refl ltac:(lia))
      as [H1 [H2 H3]].
    split; [exact H1|].
    split; [apply H2 | apply H3].
Defined.

(** Setting [retryAttempts] to 0 does not disable retries: the client it
    builds makes three attempts against a service that keeps failing. *)
Example zero_retry_attempts_still_retries :
  match HttpClient.new Samples.zero_config with
  | inl self =>
      option_map (fun r => Retry.attempts (snd r))
        (HttpClient.request Errors.typed self None
           (fun _ => Samples.answer 503 (Some Samples.unavailable_payload)))
  | inr _ => None
  end = Some [1; 2; 3].
Proof. reflexivity. Qed.

(** The sample clients are the ones the constructors build. *)
Example sample_clients_built :
  HttpClient.new Samples.config = inl Samples.http
  /\ GrpcClient.new false None Samples.config = inl Samples.grpc
  /\ KernelClient.new false "linux" "x64" "/pkg" Samples.config = inl Samples.kernel.
Proof. repeat split; reflexivity. Qed.

(** With a negative [retryAttempts] the loop body never runs: no attempt is
    made and the stream client throws the initial [lastError], [null]. *)
Example negative_retry_attempts_throws_null :
  match HttpClient.new
          {| Types.apiKey := VStr "test-api-key";
             Types.baseUrl := None;
             Types.timeout := None;
             Types.retryAttempts := Some (-1);
             Types.retryDelay := None |} with
  | inl self =>
      HttpClient.request Errors.typed self None
        (fun _ => Samples.answer 503 (Some Samples.unavailable_payload))
  | inr _ => None
  end = Some (Retry.Fell None, []).
Proof. reflexivity. Qed.

(** The sample failures of the subprocess client are what the close handler
    rejects with when the child writes the diagnostic and exits with
    code 1. *)
Example kernel_failure_from_child :
  KernelClient.settled
    (KernelClient.spawnKernelProcess Samples.parse_ok_only Samples.kernel None
       [KernelClient.StderrData "template rendering timeout";
        KernelClient.Close (Some 1)])
  = Some (inr (Samples.kernel_failure "template rendering timeout")).
Proof. reflexivity. Qed.

(** The [catch] of [makeRequest] tests the message for the text fetch
    before it tests for [HuefyError]: the error built from a 404 answer for
    a template key that contains that text is rethrown as a
    [NetworkError]. *)
Example message_with_fetch_becomes_network_error :
  HttpClient.makeRequest Errors.typed Samples.http None
    (Samples.answer 404
       (Some {| Types.error := "x";
                Types.code := "TEMPLATE_NOT_FOUND";
                Types.details := Some {[ "template_key" := VStr "prefetch" ]} |}))
  = inr (Errors.ThrownHuefy
           (Errors.new_NetworkError
              (Some "Network error: Template 'prefetch' not found")
              (Some "Template 'prefetch' not found"))).
Proof. vm_compute. reflexivity. Qed.

(** ** Regular expressions *)

Lemma lang_nullable (r : Regex.regex) (s : list N) :
  Regex.lang r s -> s = [] -> Regex.nullable r = true.
Proof.
  induction 1 as [|p c Hp|r1 r2 s1 s2 H1 IH1 H2 IH2|r1 r2 s H IH|r1 r2 s H IH
                  |r|r s1 s2 H1 IH1 H2 IH2]; intros Hs; simpl; try reflexivity.
  - discriminate Hs.
  - apply app_eq_nil in Hs. destruct Hs as [Hs1 Hs2].
    rewrite (IH1 Hs1), (IH2 Hs2). reflexivity.
  - rewrite (IH Hs). reflexivity.
  - rewrite (IH Hs). apply orb_true_r.
Qed.

Lemma nullable_lang (r : Regex.regex) :
  Regex.nullable r = true -> Regex.lang r [].
Proof.
  induction r as [| |p|r1 IH1 r2 IH2|r1 IH1 r2 IH2|r IH]; simpl; intros H;
    try discriminate H.
  - constructor.
  - apply andb_true_iff in H. destruct H as [H1 H2].
    change (@nil N) with (@nil N ++ [])%list.
    constructor; auto.
  - apply orb_true_iff in H. destruct H as [H|H];
      [apply Regex.lang_Alt_l | apply Regex.lang_Alt_r]; auto.
  - constructor.
Qed.

Lemma deriv_sound (c : N) (r : Regex.regex) :
  forall s, Regex.lang (Regex.deriv c r) s -> Regex.lang r (c :: s).
Proof.
  induction r as [| |p|r1 IH1 r2 IH2|r1 IH1 r2 IH2|r IH]; simpl; intros s H.
  - inversion H.
  - inversion H.
  - destruct (p c) eqn:Hp; inversion H; subst. constructor. exact Hp.
  - destruct (Regex.nullable r1) eqn:Hn.
    + inversion H as [| | | ? ? ? Hl | ? ? ? Hr | |]; subst.
      * inversion Hl as [| |? ? s1 s2 Ha Hb| | | |]; subst.
        change (c :: (s1 ++ s2)%list) with ((c :: s1) ++ s2)%list.
        constructor; auto.
      * change (c :: s) with ([] ++ c :: s)%list.
        constructor; [apply nullable_lang; exact Hn | auto].
    + inversion H as [| |? ? s1 s2 Ha Hb| | | |]; subst.
      change (c :: (s1 ++ s2)%list) with ((c :: s1) ++ s2)%list.
      constructor; auto.
  - inversion H; subst; [apply Regex.lang_Alt_l | apply Regex.lang_Alt_r]; auto.
  - inversion H as [| |? ? s1 s2 Ha Hb| | | |]; subst.
    change (c :: (s1 ++ s2)%list) with ((c :: s1) ++ s2)%list.
    constructor; auto.
Qed.

Lemma deriv_complete (r : Regex.regex) (w : list N) :
  Regex.lang r w ->
  forall c s, w = c :: s -> Regex.lang (Regex.deriv c r) s.
Proof.
  induction 1 as [|p c' Hp|r1 r2 s1 s2 H1 IH1 H2 IH2|r1 r2 s' H IH|r1 r2 s' H IH
                  |r|r s1 s2 H1 IH1 H2 IH2]; intros c s Hw; simpl.
  - discriminate Hw.
  - inversion Hw; subst. rewrite Hp. constructor.
  - destruct s1 as [|c1 s1'].
    + simpl in Hw. rewrite (lang_nullable _ _ H1 eq_refl).
      apply Regex.lang_Alt_r. apply IH2. exact Hw.
    + simpl in Hw. inversion Hw; subst.
      assert (Hcat : Regex.lang (Regex.Cat (Regex.deriv c r1) r2) (s1' ++ s2)%list).
      { constructor; [apply IH1; reflexivity | exact H2]. }
      destruct (Regex.nullable r1); [apply Regex.lang_Alt_l|]; exact Hcat.
  - apply Regex.lang_Alt_l. apply IH. exact Hw.
  - apply Regex.lang_Alt_r. apply IH. exact Hw.
  - discriminate Hw.
  - destruct s1 as [|c1 s1'].
    + simpl in Hw. apply (IH2 c s Hw).
    + simpl in Hw. inversion Hw; subst.
      constructor; [apply IH1; reflexivity | exact H2].
Qed.

(** The matcher decides the language of the pattern. *)
Lemma test_lang (s : list N) :
  forall r, Regex.test r s = true <-> Regex.lang r s.
Proof.
  induction s as [|c s IH]; intros r; simpl.
  - split; [apply nullable_lang | intros H; apply (lang_nullable _ _ H eq_refl)].
  - rewrite IH. split.
    + apply deriv_sound.
    + intros H. apply (deriv_complete _ _ H c s eq_refl).
Qed.

Lemma lang_Chr (c : N) (s : list N) :
  Regex.lang (Regex.Chr c) s <-> s = [c].
Proof.
  unfold Regex.Chr. split.
  - intros H. inversion H as [|? c' Hc| | | | |]; subst.
    apply N.eqb_eq in Hc. subst. reflexivity.
  - intros ->. constructor. apply N.eqb_refl.
Qed.

Lemma lang_Star_Class (p : N -> bool) (s : list N) :
  Regex.lang (Regex.Star (Regex.Class p)) s <-> forallb p s = true.
Proof.
  split.
  - intros H. remember (Regex.Star (Regex.Class p)) as r eqn:Hr.
    induction H as [| | | | |r'|r' s1 s2 H1 IH1 H2 IH2]; try discriminate Hr.
    + reflexivity.
    + inversion Hr; subst r'.
      inversion H1 as [|? c Hc| | | | |]; subst. simpl.
      rewrite Hc. apply IH2. reflexivity.
  - revert s. induction s as [|c s IH]; simpl; intros H.
    + constructor.
    + apply andb_true_iff in H. destruct H as [Hc Hs].
      change (c :: s) with ([c] ++ s)%list.
      constructor; [constructor; exact Hc | apply IH; exact Hs].
Qed.

Lemma lang_Plus_Class (p : N -> bool) (s : list N) :
  Regex.lang (Regex.Plus (Regex.Class p)) s
  <-> s <> [] /\ forallb p s = true.
Proof.
  unfold Regex.Plus. split.
  - intros H. inversion H as [| |? ? s1 s2 Ha Hb| | | |]; subst.
    inversion Ha as [|? c Hc| | | | |]; subst. simpl. split; [discriminate|].
    rewrite Hc. apply lang_Star_Class. exact Hb.
  - intros [Hne Hall]. destruct s as [|c s]; [contradiction|].
    simpl in Hall. apply andb_true_iff in Hall. destruct Hall as [Hc Hs].
    change (c :: s) with ([c] ++ s)%list.
    constructor; [constructor; exact Hc | apply lang_Star_Class; exact Hs].
Qed.

(** ** Input validation of the main client *)

(** The class [\s] on the code units below 256: tab, line feed, vertical
    tab, form feed, carriage return, space and no-break space. *)
Lemma is_space_below_256 (c : N) :
  (c < 256)%N ->
  HuefyClient.is_space c = existsb (N.eqb c) [9; 10; 11; 12; 13; 32; 160]%N.
Proof.
  intros Hc. unfold HuefyClient.is_space. simpl.
  repeat match goal with
         | |- context [(c =? ?k)%N] => destruct (N.eqb_spec c k); [subst c|]
         end; simpl; try reflexivity; try lia.
  destruct (N.leb_spec 8192 c); [lia|]. reflexivity.
Qed.

Lemma length_code_units (s : string) :
  List.length (HuefyClient.code_units s) = String.length s.
Proof.
  unfold HuefyClient.code_units. rewrite length_map.
  induction s as [|c s IH]; [reflexivity|]. simpl. rewrite IH. reflexivity.
Qed.

(** X1. [isValidEmail] accepts exactly the strings of the form
    [local@domain.rest] in which the three parts are non-empty and contain
    neither white space nor [@]; the parts may contain dots themselves.
    The statement is on the code units of the string. *)
Theorem isValidEmail_shape (email : list N) :
  HuefyClient.isValidEmail email = true
  <-> exists l d1 d2,
        email = (l ++ 64%N :: d1 ++ 46%N :: d2)%list
        /\ HuefyClient.word l /\ HuefyClient.word d1 /\ HuefyClient.word d2.
Proof.
  unfold HuefyClient.isValidEmail, HuefyClient.emailRegex, HuefyClient.word.
  rewrite test_lang. split.
  - intros H.
    inversion H as [| |? ? l s1 Hl H1| | | |]; subst.
    inversion H1 as [| |? ? a s2 Ha H2| | | |]; subst.
    inversion H2 as [| |? ? d1 s3 Hd1 H3| | | |]; subst.
    inversion H3 as [| |? ? dot d2 Hdot Hd2| | | |]; subst.
    apply lang_Chr in Ha, Hdot. subst a dot.
    apply lang_Plus_Class in Hl, Hd1, Hd2.
    exists l, d1, d2. auto.
  - intros [l [d1 [d2 [Heq [Hl [Hd1 Hd2]]]]]]. subst email.
    apply lang_Plus_Class in Hl, Hd1, Hd2.
    constructor; [exact Hl|].
    change (64%N :: d1 ++ 46%N :: d2)%list
      with ([64%N] ++ (d1 ++ ([46%N] ++ d2)))%list.
    constructor; [apply lang_Chr; reflexivity|].
    constructor; [exact Hd1|].
    constructor; [apply lang_Chr; reflexivity | exact Hd2].
Qed.

(** An instance of X1: the address [a@b.co]. *)
Lemma isValidEmail_shape_witness :
  HuefyClient.isValidEmail (HuefyClient.code_units "a@b.co") = true.
Proof.
  apply (proj2 (isValidEmail_shape (HuefyClient.code_units "a@b.co"))).
  exists (HuefyClient.code_units "a"), (HuefyClient.code_units "b"),
    (HuefyClient.code_units "co").
  split; [reflexivity|].
  split; [|split]; (split; [discriminate | reflexivity]).
Defined.

(** A zero-width no-break space (U+FEFF) or an ideographic space (U+3000)
    in the local part makes the address invalid, and a key that consists of
    such characters is blank. *)
Example wide_white_space :
  HuefyClient.isValidEmail (97 :: 65279 :: HuefyClient.code_units "@b.co")%N = false
  /\ HuefyClient.isValidEmail (97 :: 12288 :: HuefyClient.code_units "@b.co")%N = false
  /\ HuefyClient.trim [65279; 12288; 8232; 5760; 8200]%N = [].
Proof. repeat split; vm_compute; reflexivity. Qed.

(** The addresses of the test suite.  The ones it lists as valid are
    accepted.  Of the ones it lists as invalid the pattern rejects all but
    [user..name@example.com], which it accepts: the test and the pattern
    disagree on that address. *)
Example isValidEmail_test_vectors :
  forallb (fun s => HuefyClient.isValidEmail (HuefyClient.code_units s))
    ["test@example.com"; "user.name@domain.co.uk"; "user+tag@example.org";
     "user123@subdomain.example.com"; "a@b.co"] = true
  /\ map (fun s => HuefyClient.isValidEmail (HuefyClient.code_units s))
       ["not-an-email"; "@example.com"; "user@"; "user@.com";
        "user..name@example.com"; "user@example"; EmptyString;
        "user name@example.com"]
     = [false; false; false; false; true; false; false; false].
Proof. split; vm_compute; reflexivity. Qed.

Lemma typeof_string (v : JsAny) :
  String.eqb (HuefyClient.typeof v) "string" = true <-> exists s, v = AVal (VStr s).
Proof.
  destruct v as [[| |b|n|s]|o]; simpl; split; intros H;
    try discriminate H; eauto; destruct H as [? Hs]; discriminate Hs.
Qed.

Lemma first_non_string_None (entries : list (string * JsAny)) :
  HuefyClient.first_non_string entries = None
  <-> forall key value, In (key, value) entries -> exists s, value = AVal (VStr s).
Proof.
  unfold HuefyClient.first_non_string. split.
  - intros H key value Hin.
    pose proof (find_none _ _ H (key, value) Hin) as Hf. simpl in Hf.
    apply negb_false_iff in Hf. apply typeof_string. exact Hf.
  - intros H. induction entries as [|[k v] rest IH]; [reflexivity|].
    simpl. destruct (H k v (or_introl eq_refl)) as [s Hs]. subst v. simpl.
    apply IH. intros key value Hin. apply (H key value). right. exact Hin.
Qed.

Lemma length_zero {A : Type} (s : list A) :
  (List.length s =? 0)%nat = true <-> s = [].
Proof. destruct s; simpl; split; intros H; try reflexivity; discriminate H. Qed.

(** X2. For arguments whose strings have all their characters below
    U+0100, [validateSendEmailInput] returns without throwing exactly when
    the template key is a string that is not blank and has at most 100
    characters, the data is a plain object all of whose values are
    strings, and the recipient is a string that [isValidEmail] accepts
    and that has at most 254 characters. *)
Theorem validateSendEmailInput_accepts (templateKey : JsAny)
    (data : HuefyClient.JsData) (recipient : JsAny) :
  HuefyClient.validateSendEmailInput templateKey data recipient = None
  <-> exists k entries r,
        templateKey = AVal (VStr k)
        /\ HuefyClient.trim (HuefyClient.code_units k) <> []
        /\ (String.length k <= 100)%nat
        /\ data = HuefyClient.DataObject entries
        /\ (forall key value, In (key, value) entries ->
                              exists s, value = AVal (VStr s))
        /\ recipient = AVal (VStr r)
        /\ HuefyClient.isValidEmail (HuefyClient.code_units r) = true
        /\ (String.length r <= 254)%nat.
Proof.
  unfold HuefyClient.validateSendEmailInput. split.
  - intros H.
    destruct (negb (HuefyClient.truthy_any templateKey)
              || negb (String.eqb (HuefyClient.typeof templateKey) "string"))
      eqn:Hk; [discriminate H|].
    apply orb_false_iff in Hk. destruct Hk as [_ Hk].
    apply negb_false_iff, typeof_string in Hk. destruct Hk as [k Hk]. subst.
    cbn [HuefyClient.string_of] in H. rewrite length_code_units in H.
    destruct (List.length (HuefyClient.trim (HuefyClient.code_units k)) =? 0)%nat
      eqn:Ht; [discriminate H|].
    destruct (100 <? String.length k)%nat eqn:Hl; [discriminate H|].
    destruct data as [v|items|entries]; try discriminate H.
    destruct (HuefyClient.first_non_string entries) as [[key value]|] eqn:Hf;
      [discriminate H|].
    destruct (negb (HuefyClient.truthy_any recipient)
              || negb (String.eqb (HuefyClient.typeof recipient) "string"))
      eqn:Hr; [discriminate H|].
    apply orb_false_iff in Hr. destruct Hr as [_ Hr].
    apply negb_false_iff, typeof_string in Hr. destruct Hr as [r Hr]. subst.
    cbn [HuefyClient.string_of] in H. rewrite length_code_units in H.
    destruct (HuefyClient.isValidEmail (HuefyClient.code_units r)) eqn:He;
      [|discriminate H].
    cbn [negb] in H.
    destruct (254 <? String.length r)%nat eqn:Hlr; [discriminate H|].
    exists k, entries, r.
    split; [reflexivity|].
    split; [intros Hz; apply length_zero in Hz; congruence|].
    split; [apply Nat.ltb_ge; exact Hl|].
    split; [reflexivity|].
    split; [apply first_non_string_None; exact Hf|].
    split; [reflexivity|].
    split; [exact He | apply Nat.ltb_ge; exact Hlr].
  - intros [k [entries [r [Hk [Ht [Hl [Hd [Hv [Hr [He Hlr]]]]]]]]]]. subst.
    assert (Hkne : String.eqb k EmptyString = false).
    { apply String.eqb_neq. intros ->. apply Ht. reflexivity. }
    assert (Hrne : String.eqb r EmptyString = false).
    { apply String.eqb_neq. intros ->. discriminate He. }
    cbn [HuefyClient.truthy_any HuefyClient.typeof HuefyClient.string_of truthy].
    rewrite Hkne, Hrne, !length_code_units. cbn [negb orb String.eqb].
    destruct (List.length (HuefyClient.trim (HuefyClient.code_units k)) =? 0)%nat
      eqn:Hz; [apply length_zero in Hz; contradiction|].
    apply Nat.ltb_ge in Hl, Hlr. rewrite Hl, Hlr.
    rewrite (proj2 (first_non_string_None entries) Hv).
    rewrite He. reflexivity.
Qed.

(** An instance of X2: the arguments of the examples. *)
Lemma validateSendEmailInput_accepts_witness :
  HuefyClient.validateSendEmailInput (AVal (VStr "welcome-email"))
    (HuefyClient.DataObject [("name", AVal (VStr "John Doe"))])
    (AVal (VStr "john@example.com")) = None.
Proof.
  apply (proj2 (validateSendEmailInput_accepts _ _ _)).
  exists "welcome-email", [("name", AVal (VStr "John Doe"))], "john@example.com".
  split; [reflexivity|].
  split; [discriminate|].
  split; [simpl; lia|].
  split; [reflexivity|].
  split.
  { intros key value [Hin|[]]. inversion Hin; subst. eauto. }
  split; [reflexivity|].
  split; [reflexivity | simpl; lia].
Defined.

(** ** Where the retry loop stops *)

Section StopFacts.
Context {R E : Type}.
Variable retryConfig : Types.RetryConfig.
Variable attemptOp : Z -> R + E.
Variable isRetryable : E -> bool.

(** After retryable failures at the attempts before [k], the loop ends at
    attempt [k] if that attempt succeeds, fails with an error the
    predicate rejects, or is the last one allowed. *)
Lemma loop_stops_at (fuel : nat) :
  forall attempt lastError k,
    1 <= attempt <= k ->
    k <= Types.maxAttempts retryConfig ->
    (Z.to_nat (k - attempt) < fuel)%nat ->
    (forall j, attempt <= j < k ->
               exists e, attemptOp j = inr e /\ isRetryable e = true) ->
    (forall r, attemptOp k = inl r ->
               Retry.loop retryConfig attemptOp isRetryable fuel attempt lastError
               = Some (Retry.Returned r,
                       Spec.backoff_trace retryConfig attempt
                         (Z.to_nat (k - attempt + 1))))
    /\ (forall e, attemptOp k = inr e ->
                  k = Types.maxAttempts retryConfig \/ isRetryable e = false ->
                  Retry.loop retryConfig attemptOp isRetryable fuel attempt lastError
                  = Some (Retry.Fell (Some e),
                          Spec.backoff_trace retryConfig attempt
                            (Z.to_nat (k - attempt + 1)))).
Proof.
  induction fuel as [|fuel IH]; intros attempt lastError k Hrange HkN Hfuel Hprefix;
    [lia|].
  rewrite (loop_S retryConfig attemptOp isRetryable).
  assert (Hle : (attempt <=? Types.maxAttempts retryConfig) = true)
    by (apply Z.leb_le; lia).
  rewrite Hle.
  destruct (Z.eq_dec attempt k) as [Heq|Hne].
  - subst attempt. replace (Z.to_nat (k - k + 1)) with 1%nat by lia.
    split.
    + intros r Hr. rewrite Hr. reflexivity.
    + intros e He Hstop. rewrite He.
      destruct (k =? Types.maxAttempts retryConfig) eqn:Hlast; [reflexivity|].
      destruct Hstop as [Hstop|Hstop];
        [apply Z.eqb_neq in Hlast; contradiction|].
      rewrite Hstop. reflexivity.
  - destruct (Hprefix attempt ltac:(lia)) as [e0 [He0 Hr0]].
    rewrite He0, Hr0.
    assert (Hnl : (attempt =? Types.maxAttempts retryConfig) = false)
      by (apply Z.eqb_neq; lia).
    rewrite Hnl. cbn [negb].
    destruct (IH (attempt + 1) (Some e0) k ltac:(lia) HkN ltac:(lia)) as [Hret Hfell].
    { intros j Hj. apply Hprefix. lia. }
    replace (Z.to_nat (k - attempt + 1))
      with (S (Z.to_nat (k - (attempt + 1) + 1))) by lia.
    destruct (Z.to_nat (k - (attempt + 1) + 1)) as [|m] eqn:Hm; [lia|].
    split.
    + intros r Hr. rewrite (Hret r Hr). reflexivity.
    + intros e He Hstop. rewrite (Hfell e He Hstop). reflexivity.
Qed.

Lemma run_stops_at (k : Z) :
  1 <= k <= Types.maxAttempts retryConfig ->
  (forall j, 1 <= j < k -> exists e, attemptOp j = inr e /\ isRetryable e = true) ->
  (forall r, attemptOp k = inl r ->
             Retry.run retryConfig attemptOp isRetryable
             = Some (Retry.Returned r,
                     Spec.backoff_trace retryConfig 1 (Z.to_nat k)))
  /\ (forall e, attemptOp k = inr e ->
                k = Types.maxAttempts retryConfig \/ isRetryable e = false ->
                Retry.run retryConfig attemptOp isRetryable
                = Some (Retry.Fell (Some e),
                        Spec.backoff_trace retryConfig 1 (Z.to_nat k))).
Proof.
  intros Hk Hprefix. unfold Retry.run.
  replace (Z.to_nat k) with (Z.to_nat (k - 1 + 1)) by lia.
  apply loop_stops_at; [lia | lia | lia | exact Hprefix].
Qed.

(** A returned response is the response of some attempt. *)
Lemma loop_returned (fuel : nat) :
  forall attempt lastError r events,
    Retry.loop retryConfig attemptOp isRetryable fuel attempt lastError
    = Some (Retry.Returned r, events) ->
    exists k, attempt <= k <= Types.maxAttempts retryConfig /\ attemptOp k = inl r.
Proof.
  induction fuel as [|fuel IH]; intros attempt lastError r events Hrun;
    [discriminate|].
  rewrite (loop_S retryConfig attemptOp isRetryable) in Hrun.
  destruct (attempt <=? Types.maxAttempts retryConfig) eqn:Hle; [|discriminate].
  apply Z.leb_le in Hle.
  destruct (attemptOp attempt) as [response|error] eqn:Hop.
  { inversion Hrun; subst. exists attempt. split; [lia | exact Hop]. }
  destruct (attempt =? Types.maxAttempts retryConfig); [discriminate|].
  destruct (negb (isRetryable error)); [discriminate|].
  destruct (Retry.loop retryConfig attemptOp isRetryable fuel (attempt + 1) (Some error))
    as [[exit' events']|] eqn:Hrec; [|discriminate].
  inversion Hrun; subst.
  destruct (IH _ _ _ _ Hrec) as [k [Hk Hopk]].
  exists k. split; [lia | exact Hopk].
Qed.

End StopFacts.

(** X3. A success at attempt [k <= maxAttempts] after retryable failures
    at the attempts before it ends the call in each of the three clients:
    the response of attempt [k] is returned, the attempts made are 1 to
    [k], and the sleeps are the [k - 1] back-off delays. *)
Theorem success_short_circuits (k : Z) :
  (forall (T : Type) (asErrorResponse : T -> Errors.ErrorData)
          (self : HttpClient.t) (options_timeout : option Z)
          (net : Z -> HttpClient.FetchOutcome) (response : Types.HttpResponse T),
      1 <= k <= Types.maxAttempts (HttpClient.retryConfig self) ->
      (forall j, 1 <= j < k ->
         exists e,
           HttpClient.makeRequest asErrorResponse self
             (Some (num_or options_timeout (HttpClient.timeout self))) (net j) = inr e
           /\ Errors.isRetryableError e = true) ->
      HttpClient.makeRequest asErrorResponse self
        (Some (num_or options_timeout (HttpClient.timeout self))) (net k)
      = inl response ->
      exists events,
        HttpClient.request asErrorResponse self options_timeout net
        = Some (Retry.Returned response, events)
        /\ Spec.backoff_run (HttpClient.retryConfig self) events (Z.to_nat k))
  /\ (forall (T : Type) (self : GrpcClient.t) (rpc : Z -> T + GrpcClient.RawError)
             (response : T),
      1 <= k <= Types.maxAttempts (GrpcClient.retryConfig self) ->
      (forall j, 1 <= j < k ->
         exists e, rpc j = inr e /\ GrpcClient.isRetryableGrpcError self e = true) ->
      rpc k = inl response ->
      exists events,
        GrpcClient.makeGrpcRequest self rpc = Some (inl response, events)
        /\ Spec.backoff_run (GrpcClient.retryConfig self) events (Z.to_nat k))
  /\ (forall (D : Type) (self : KernelClient.t)
             (spawned : Z -> option D + Errors.Thrown) (response : option D),
      1 <= k <= Types.maxAttempts (KernelClient.retryConfig self) ->
      (forall j, 1 <= j < k ->
         exists e, spawned j = inr e /\ KernelClient.isRetryableError e = true) ->
      spawned k = inl response ->
      exists events,
        KernelClient.executeKernelCommand self spawned = Some (inl response, events)
        /\ Spec.backoff_run (KernelClient.retryConfig self) events (Z.to_nat k)).
Proof.
  split; [|split].
  - intros T asER self opt net response Hk Hprefix Hok.
    eexists. split; [|apply backoff_trace_run].
    unfold HttpClient.request.
    apply (proj1 (run_stops_at _ _ _ k Hk Hprefix)). exact Hok.
  - intros T self rpc response Hk Hprefix Hok.
    eexists. split; [|apply backoff_trace_run].
    unfold GrpcClient.makeGrpcRequest.
    rewrite (proj1 (run_stops_at _ _ _ k Hk Hprefix) response Hok). reflexivity.
  - intros D self spawned response Hk Hprefix Hok.
    eexists. split; [|apply backoff_trace_run].
    unfold KernelClient.executeKernelCommand.
    rewrite (proj1 (run_stops_at _ _ _ k Hk Hprefix) response Hok). reflexivity.
Qed.

(** X4. A failure that the client's predicate rejects, at attempt
    [k <= maxAttempts] after retryable failures at the attempts before it,
    ends the call in each of the three clients: attempts 1 to [k] are
    made and the error of attempt [k], not an earlier one, is thrown
    (converted on the RPC and subprocess clients). *)
Theorem rejected_failure_stops (k : Z) :
  (forall (T : Type) (asErrorResponse : T -> Errors.ErrorData)
          (self : HttpClient.t) (options_timeout : option Z)
          (net : Z -> HttpClient.FetchOutcome) (e : Errors.Thrown),
      1 <= k <= Types.maxAttempts (HttpClient.retryConfig self) ->
      (forall j, 1 <= j < k ->
         exists e',
           HttpClient.makeRequest asErrorResponse self
             (Some (num_or options_timeout (HttpClient.timeout self))) (net j) = inr e'
           /\ Errors.isRetryableError e' = true) ->
      HttpClient.makeRequest asErrorResponse self
        (Some (num_or options_timeout (HttpClient.timeout self))) (net k)
      = inr e ->
      Errors.isRetryableError e = false ->
      exists events,
        HttpClient.request asErrorResponse self options_timeout net
        = Some (Retry.Fell (Some e), events)
        /\ Spec.backoff_run (HttpClient.retryConfig self) events (Z.to_nat k))
  /\ (forall (T : Type) (self : GrpcClient.t) (rpc : Z -> T + GrpcClient.RawError)
             (e : GrpcClient.RawError),
      1 <= k <= Types.maxAttempts (GrpcClient.retryConfig self) ->
      (forall j, 1 <= j < k ->
         exists e', rpc j = inr e' /\ GrpcClient.isRetryableGrpcError self e' = true) ->
      rpc k = inr e ->
      GrpcClient.isRetryableGrpcError self e = false ->
      exists events,
        GrpcClient.makeGrpcRequest self rpc
        = Some (inr (GrpcClient.convertGrpcError self (Some e)), events)
        /\ Spec.backoff_run (GrpcClient.retryConfig self) events (Z.to_nat k))
  /\ (forall (D : Type) (self : KernelClient.t)
             (spawned : Z -> option D + Errors.Thrown) (e : Errors.Thrown),
      1 <= k <= Types.maxAttempts (KernelClient.retryConfig self) ->
      (forall j, 1 <= j < k ->
         exists e', spawned j = inr e' /\ KernelClient.isRetryableError e' = true) ->
      spawned k = inr e ->
      KernelClient.isRetryableError e = false ->
      exists events,
        KernelClient.executeKernelCommand self spawned
        = Some (inr (KernelClient.convertError self (Some e)), events)
        /\ Spec.backoff_run (KernelClient.retryConfig self) events (Z.to_nat k)).
Proof.
  split; [|split].
  - intros T asER self opt net e Hk Hprefix Hfail Hno.
    eexists. split; [|apply backoff_trace_run].
    unfold HttpClient.request.
    apply (proj2 (run_stops_at _ _ _ k Hk Hprefix)); [exact Hfail | right; exact Hno].
  - intros T self rpc e Hk Hprefix Hfail Hno.
    eexists. split; [|apply backoff_trace_run].
    unfold GrpcClient.makeGrpcRequest.
    rewrite (proj2 (run_stops_at _ _ _ k Hk Hprefix) e Hfail (or_intror Hno)).
    reflexivity.
  - intros D self spawned e Hk Hprefix Hfail Hno.
    eexists. split; [|apply backoff_trace_run].
    unfold KernelClient.executeKernelCommand.
    rewrite (proj2 (run_stops_at _ _ _ k Hk Hprefix) e Hfail (or_intror Hno)).
    reflexivity.
Qed.

(** Instances of X3: two retryable failures, then a success at the third
    attempt. *)
Lemma success_short_circuits_witness :
  (exists events,
      HttpClient.request ClientSamples.as_error Samples.http None ClientSamples.recovers
      = Some (Retry.Returned
                {| Types.data := ClientSamples.sent;
                   Types.status := 200;
                   Types.statusText := EmptyString;
                   Types.headers := ∅ |}, events)
      /\ Spec.backoff_run (HttpClient.retryConfig Samples.http) events 3)
  /\ (exists events,
      GrpcClient.makeGrpcRequest Samples.grpc ClientSamples.rpc_recovers
      = Some (inl tt, events)
      /\ Spec.backoff_run (GrpcClient.retryConfig Samples.grpc) events 3)
  /\ (exists events,
      KernelClient.executeKernelCommand Samples.kernel ClientSamples.child_recovers
      = Some (inl (Some tt), events)
      /\ Spec.backoff_run (KernelClient.retryConfig Samples.kernel) events 3).
Proof.
  destruct (success_short_circuits 3) as [Hhttp [Hgrpc Hkernel]].
  split; [|split].
  - apply (Hhttp ClientSamples.Body ClientSamples.as_error Samples.http None
             ClientSamples.recovers).
    + simpl. lia.
    + intros j Hj. assert (Hcase : j = 1 \/ j = 2) by lia.
      destruct Hcase; subst j; eexists; split; reflexivity.
    + reflexivity.
  - apply (Hgrpc unit Samples.grpc ClientSamples.rpc_recovers tt).
    + simpl. lia.
    + intros j Hj. assert (Hcase : j = 1 \/ j = 2) by lia.
      destruct Hcase; subst j; eexists; split; reflexivity.
    + reflexivity.
  - apply (Hkernel unit Samples.kernel ClientSamples.child_recovers (Some tt)).
    + simpl. lia.
    + intros j Hj. assert (Hcase : j = 1 \/ j = 2) by lia.
      destruct Hcase; subst j; eexists; split; reflexivity.
    + reflexivity.
Defined.

(** The trace of the first instance: the two sleeps last 1000 and 2000. *)
Example recovers_trace :
  option_map snd
    (HttpClient.request ClientSamples.as_error Samples.http None ClientSamples.recovers)
  = Some [Retry.Attempt 1; Retry.Sleep 1000; Retry.Attempt 2; Retry.Sleep 2000;
          Retry.Attempt 3].
Proof. reflexivity. Qed.

(** Instances of X4: one retryable failure, then a failure that is not
    retried, with three attempts allowed. *)
Lemma rejected_failure_stops_witness :
  (exists events,
      HttpClient.request ClientSamples.as_error Samples.http None
        ClientSamples.then_unauthorized
      = Some (Retry.Fell
                (Some (Errors.ThrownHuefy
                         (Errors.new_AuthenticationError (Some "bad key") undefined))),
              events)
      /\ Spec.backoff_run (HttpClient.retryConfig Samples.http) events 2)
  /\ (exists events,
      GrpcClient.makeGrpcRequest Samples.grpc ClientSamples.rpc_then_denied
      = Some (inr (GrpcClient.convertGrpcError Samples.grpc
                     (Some (Samples.rpc_error 7 "denied"))), events)
      /\ Spec.backoff_run (GrpcClient.retryConfig Samples.grpc) events 2)
  /\ (exists events,
      KernelClient.executeKernelCommand Samples.kernel ClientSamples.child_then_fails
      = Some (inr (KernelClient.convertError Samples.kernel
                     (Some (Samples.kernel_failure "unknown command"))), events)
      /\ Spec.backoff_run (KernelClient.retryConfig Samples.kernel) events 2).
Proof.
  destruct (rejected_failure_stops 2) as [Hhttp [Hgrpc Hkernel]].
  split; [|split].
  - apply (Hhttp ClientSamples.Body ClientSamples.as_error Samples.http None
             ClientSamples.then_unauthorized).
    + simpl. lia.
    + intros j Hj. assert (j = 1) by lia. subst j. eexists. split; reflexivity.
    + reflexivity.
    + reflexivity.
  - apply (Hgrpc unit Samples.grpc ClientSamples.rpc_then_denied).
    + simpl. lia.
    + intros j Hj. assert (j = 1) by lia. subst j. eexists. split; reflexivity.
    + reflexivity.
    + reflexivity.
  - apply (Hkernel unit Samples.kernel ClientSamples.child_then_fails).
    + simpl. lia.
    + intros j Hj. assert (j = 1) by lia. subst j. eexists. split; reflexivity.
    + reflexivity.
    + reflexivity.
Defined.

(** ** One HTTP exchange *)

(** What [makeRequest] returns comes from an answer with a status from
    200 to 299 and a decoded body. *)
Lemma makeRequest_returned (T : Type)
    (asErrorResponse : T -> Errors.ErrorData) (self : HttpClient.t)
    (timeout : option Z) (net : HttpClient.FetchOutcome)
    (response : Types.HttpResponse T) :
  HttpClient.makeRequest asErrorResponse self timeout net = inl response ->
  exists status statusText headers body,
    net = HttpClient.FetchResponds status statusText headers (Some body)
    /\ 200 <= status <= 299
    /\ response = {| Types.data := body;
                     Types.status := status;
                     Types.statusText := statusText;
                     Types.headers := HttpClient.extractHeaders headers |}.
Proof.
  unfold HttpClient.makeRequest, HttpClient.makeRequest_try, HttpClient.response_ok.
  intros H. destruct net as [reason|status statusText headers [body|]];
    try discriminate H.
  destruct (Z.leb_spec 200 status), (Z.leb_spec status 299); simpl in H;
    try (destruct (Errors.createErrorFromData _ _); discriminate H).
  inversion H; subst. exists status, statusText, headers, body.
  split; [reflexivity|]. split; [lia | reflexivity].
Qed.

(** X5. [makeRequest] returns a response exactly when [fetch] resolved
    with a status from 200 to 299 and the body decoded; the response then
    carries that body, the status, the status text and the extracted
    headers.  In every other case it throws. *)
Theorem makeRequest_returns_iff (T : Type)
    (asErrorResponse : T -> Errors.ErrorData) (self : HttpClient.t)
    (timeout : option Z) (net : HttpClient.FetchOutcome)
    (response : Types.HttpResponse T) :
  HttpClient.makeRequest asErrorResponse self timeout net = inl response
  <-> exists status statusText headers body,
        net = HttpClient.FetchResponds status statusText headers (Some body)
        /\ 200 <= status <= 299
        /\ response = {| Types.data := body;
                         Types.status := status;
                         Types.statusText := statusText;
                         Types.headers := HttpClient.extractHeaders headers |}.
Proof.
  split.
  - apply makeRequest_returned.
  - intros [status [statusText [headers [body [Hnet [Hrange Hresp]]]]]]. subst.
    unfold HttpClient.makeRequest, HttpClient.makeRequest_try,
      HttpClient.response_ok.
    destruct (Z.leb_spec 200 status), (Z.leb_spec status 299); try lia.
    reflexivity.
Qed.

(** An instance of X5: a 200 answer with a decodable body. *)
Lemma makeRequest_returns_witness :
  HttpClient.makeRequest ClientSamples.as_error Samples.http None
    (ClientSamples.respond 200 (Some ClientSamples.sent))
  = inl {| Types.data := ClientSamples.sent;
           Types.status := 200;
           Types.statusText := EmptyString;
           Types.headers := HttpClient.extractHeaders [] |}.
Proof.
  apply (proj2 (makeRequest_returns_iff _ _ _ _ _ _)).
  exists 200, EmptyString, [], ClientSamples.sent.
  split; [reflexivity|]. split; [lia | reflexivity].
Defined.

(** On a body of the declared type the two readings of
    [createErrorFromResponse] agree. *)
Lemma createErrorFromData_typed (data : Types.ErrorResponse) (statusCode : Z) :
  Errors.createErrorFromData (Errors.typed data) statusCode
  = inl (Errors.createErrorFromResponse data statusCode).
Proof.
  unfold Errors.createErrorFromData, Errors.createErrorFromResponse, Errors.typed,
    Errors.is_code.
  repeat match goal with
         | |- context [String.eqb (Types.code data) ?c] =>
             destruct (String.eqb (Types.code data) c); [reflexivity|]
         end.
  reflexivity.
Qed.

(** X6. For an answer outside 200..299 whose body decodes to something
    other than [null], [makeRequest] throws the error
    [createErrorFromResponse] builds from the body and the status (for a
    body of the declared type, the error of C8), unless the message of
    that error contains the text fetch: then it throws a [NetworkError]
    that wraps the message.  When the body is [null],
    [createErrorFromResponse] throws a [TypeError], which [makeRequest]
    rethrows as a [NetworkError]; that error is retryable. *)
Theorem makeRequest_error_answer (T : Type)
    (asErrorResponse : T -> Errors.ErrorData) (self : HttpClient.t)
    (timeout : option Z) (status : Z) (statusText : string)
    (headers : list (string * string)) (body : T) :
  HttpClient.response_ok status = false ->
  (forall error code details,
      asErrorResponse body = Errors.BodyFields error code details ->
      exists e,
        Errors.createErrorFromData (asErrorResponse body) status = inl e
        /\ HttpClient.makeRequest asErrorResponse self timeout
             (HttpClient.FetchResponds status statusText headers (Some body))
           = inr (Errors.ThrownHuefy
                    (if includes (Errors.message e) "fetch"
                     then Errors.new_NetworkError
                            (Some ("Network error: " +:+ Errors.message e))
                            (Some (Errors.message e))
                     else e)))
  /\ (forall data,
        asErrorResponse body = Errors.typed data ->
        Errors.createErrorFromData (asErrorResponse body) status
        = inl (Errors.createErrorFromResponse data status))
  /\ (forall m,
        asErrorResponse body = Errors.BodyNull m ->
        let e := Errors.new_NetworkError (Some ("Network error: " +:+ m)) (Some m) in
        HttpClient.makeRequest asErrorResponse self timeout
          (HttpClient.FetchResponds status statusText headers (Some body))
        = inr (Errors.ThrownHuefy e)
        /\ Errors.isRetryableError (Errors.ThrownHuefy e) = true).
Proof.
  intros Hok. split; [|split].
  - intros error code details Hbody.
    unfold HttpClient.makeRequest, HttpClient.makeRequest_try.
    rewrite Hok, Hbody. cbn [negb].
    destruct (Errors.createErrorFromData (Errors.BodyFields error code details) status)
      as [e|typeError] eqn:Hbuild; [|simpl in Hbuild; discriminate Hbuild].
    exists e. split; [reflexivity|].
    unfold HttpClient.makeRequest_catch. simpl.
    rewrite name_not_AbortError. simpl.
    destruct (includes (Errors.message e) "fetch"); reflexivity.
  - intros data Hbody. rewrite Hbody. apply createErrorFromData_typed.
  - intros m Hbody e. subst e.
    unfold HttpClient.makeRequest, HttpClient.makeRequest_try.
    rewrite Hok, Hbody. split; reflexivity.
Qed.

(** Instances of X6: a 401 answer with an invalid-key body, and a 502
    answer whose body is [null]. *)
Lemma makeRequest_error_answer_witness :
  (exists e,
      Errors.createErrorFromData
        (ClientSamples.as_error ClientSamples.invalid_key) 401 = inl e
      /\ HttpClient.makeRequest ClientSamples.as_error Samples.http None
           (ClientSamples.respond 401 (Some ClientSamples.invalid_key))
         = inr (Errors.ThrownHuefy
                  (if includes (Errors.message e) "fetch"
                   then Errors.new_NetworkError
                          (Some ("Network error: " +:+ Errors.message e))
                          (Some (Errors.message e))
                   else e)))
  /\ (let e := Errors.new_NetworkError
                 (Some "Network error: Cannot read properties of null")
                 (Some "Cannot read properties of null") in
      HttpClient.makeRequest (T := option Types.ErrorResponse)
        ClientSamples.nullable Samples.http None
        (HttpClient.FetchResponds 502 "Bad Gateway" [] (Some None))
      = inr (Errors.ThrownHuefy e)
      /\ Errors.isRetryableError (Errors.ThrownHuefy e) = true).
Proof.
  split.
  - apply (proj1 (makeRequest_error_answer ClientSamples.Body ClientSamples.as_error
                    Samples.http None 401 EmptyString [] ClientSamples.invalid_key
                    eq_refl)
             (Some "bad key") (Some "INVALID_API_KEY") None).
    reflexivity.
  - apply (proj2 (proj2 (makeRequest_error_answer (option Types.ErrorResponse)
                           ClientSamples.nullable Samples.http None 502
                           "Bad Gateway" [] None eq_refl))
             "Cannot read properties of null").
    reflexivity.
Defined.

(** The error thrown for the invalid-key answer, and what a body without
    the declared properties gives: a base error with code UNKNOWN_ERROR
    and an empty message. *)
Example error_answers :
  HttpClient.makeRequest ClientSamples.as_error Samples.http None
    (ClientSamples.respond 401 (Some ClientSamples.invalid_key))
  = inr (Errors.ThrownHuefy
           (Errors.new_AuthenticationError (Some "bad key") undefined))
  /\ HttpClient.makeRequest (T := unit)
       (fun _ => Errors.BodyFields None None None) Samples.http None
       (HttpClient.FetchResponds 500 EmptyString [] (Some tt))
     = inr (Errors.ThrownHuefy
              (Errors.new_HuefyError EmptyString (Some "UNKNOWN_ERROR") (Some 500)
                 undefined)).
Proof. split; reflexivity. Qed.

(** X7. An answer whose body does not decode is thrown as a base error
    with code INVALID_RESPONSE that carries the HTTP status, whatever the
    status is; it is retried exactly when the status is at least 500 or
    equal to 429, so an undecodable 2xx answer is never retried. *)
Theorem makeRequest_undecodable_body (T : Type)
    (asErrorResponse : T -> Errors.ErrorData) (self : HttpClient.t)
    (timeout : option Z) (status : Z) (statusText : string)
    (headers : list (string * string)) :
  let e := Errors.new_HuefyError "Failed to parse response as JSON"
             (Some "INVALID_RESPONSE") (Some status) undefined in
  HttpClient.makeRequest asErrorResponse self timeout
    (HttpClient.FetchResponds status statusText headers None)
  = inr (Errors.ThrownHuefy e)
  /\ (Errors.isRetryableError (Errors.ThrownHuefy e) = true
      <-> 500 <= status \/ status = 429)
  /\ (200 <= status <= 299 ->
      Errors.isRetryableError (Errors.ThrownHuefy e) = false).
Proof.
  intros e.
  assert (Hiff : Errors.isRetryableError (Errors.ThrownHuefy e) = true
                 <-> 500 <= status \/ status = 429).
  { rewrite isRetryableError_status. subst e. simpl.
    rewrite orb_true_iff, Z.leb_le, Z.eqb_eq. reflexivity. }
  split; [reflexivity|]. split; [exact Hiff|].
  intros Hrange. apply not_true_is_false. intros Hr.
  apply Hiff in Hr. lia.
Qed.

(** An instance of X7: an undecodable 200 answer. *)
Lemma makeRequest_undecodable_body_witness :
  Errors.isRetryableError
    (Errors.ThrownHuefy
       (Errors.new_HuefyError "Failed to parse response as JSON"
          (Some "INVALID_RESPONSE") (Some 200) undefined)) = false.
Proof.
  apply (proj2 (proj2 (makeRequest_undecodable_body ClientSamples.Body
                         ClientSamples.as_error Samples.http None 200
                         EmptyString []))).
  lia.
Defined.

(** X8. A value that is not a [HuefyError] and is thrown before a response
    is obtained leads to a retry exactly when it is an [Error] named
    AbortError, a [TypeError], or an [Error] whose message contains the
    text fetch; any other such value is rethrown as a base error with code
    UNEXPECTED_ERROR and without statusCode, and at the first attempt it
    ends the call. *)
Theorem makeRequest_rejection_retried (T : Type)
    (asErrorResponse : T -> Errors.ErrorData) (self : HttpClient.t)
    (timeout : option Z) (reason : Errors.Thrown) :
  Errors.isHuefyError reason = false ->
  exists e,
    HttpClient.makeRequest asErrorResponse self timeout
      (HttpClient.FetchRejects reason) = inr (Errors.ThrownHuefy e)
    /\ (Errors.isRetryableError (Errors.ThrownHuefy e) = true
        <-> Errors.thrown_name reason = Some "AbortError"
            \/ Errors.instanceofTypeError reason = true
            \/ exists m, Errors.thrown_message reason = Some m
                         /\ includes m "fetch" = true)
    /\ (Errors.isRetryableError (Errors.ThrownHuefy e) = false ->
        Errors.cls e = Errors.HuefyErrorC
        /\ Errors.code e = "UNEXPECTED_ERROR"
        /\ Errors.statusCode e = None
        /\ forall options_timeout (net : Z -> HttpClient.FetchOutcome),
             timeout = Some (num_or options_timeout (HttpClient.timeout self)) ->
             1 <= Types.maxAttempts (HttpClient.retryConfig self) ->
             net 1 = HttpClient.FetchRejects reason ->
             HttpClient.request asErrorResponse self options_timeout net
             = Some (Retry.Fell (Some (Errors.ThrownHuefy e)), [Retry.Attempt 1])).
Proof.
  intros Hh.
  assert (Hstop : forall e,
             HttpClient.makeRequest asErrorResponse self timeout
               (HttpClient.FetchRejects reason) = inr (Errors.ThrownHuefy e) ->
             Errors.isRetryableError (Errors.ThrownHuefy e) = false ->
             forall options_timeout (net : Z -> HttpClient.FetchOutcome),
               timeout = Some (num_or options_timeout (HttpClient.timeout self)) ->
               1 <= Types.maxAttempts (HttpClient.retryConfig self) ->
               net 1 = HttpClient.FetchRejects reason ->
               HttpClient.request asErrorResponse self options_timeout net
               = Some (Retry.Fell (Some (Errors.ThrownHuefy e)), [Retry.Attempt 1])).
  { intros e He Hno options_timeout net Ht HN Hnet. unfold HttpClient.request.
    apply run_first_not_retryable; [exact HN | | exact Hno].
    rewrite Hnet, <- Ht. exact He. }
  exists (HttpClient.makeRequest_catch self timeout reason).
  split; [reflexivity|]. split.
  - clear Hstop. unfold HttpClient.makeRequest_catch.
    destruct reason as [isTE n m|e|falsy r]; [| discriminate Hh |]; simpl.
    + destruct (String.eqb_spec n "AbortError") as [Hn|Hn].
      * split; [intros _; left; congruence | reflexivity].
      * destruct isTE; simpl.
        -- split; [intros _; right; left; reflexivity | reflexivity].
        -- destruct (includes m "fetch") eqn:Hm.
           ++ split; [intros _; right; right; eauto | reflexivity].
           ++ split; [discriminate|].
              intros [H|[H|[m' [Hm' Hf]]]].
              ** inversion H. contradiction.
              ** discriminate H.
              ** inversion Hm'; subst. congruence.
    + split; [discriminate|].
      intros [H|[H|[m' [Hm' _]]]]; discriminate.
  - intros Hno.
    assert (Hshape : Errors.cls (HttpClient.makeRequest_catch self timeout reason)
                     = Errors.HuefyErrorC
                     /\ Errors.code (HttpClient.makeRequest_catch self timeout reason)
                        = "UNEXPECTED_ERROR"
                     /\ Errors.statusCode (HttpClient.makeRequest_catch self timeout reason)
                        = None).
    { revert Hno. unfold HttpClient.makeRequest_catch.
      destruct reason as [isTE n m|e|falsy r]; [| discriminate Hh |]; simpl.
      - destruct (String.eqb n "AbortError"); [discriminate|].
        destruct (isTE || includes m "fetch"); [discriminate|]. auto.
      - auto. }
    destruct Hshape as [Hcls [Hcode Hstatus]].
    split; [exact Hcls|]. split; [exact Hcode|]. split; [exact Hstatus|].
    apply (Hstop _ eq_refl Hno).
Qed.

(** Instances of X8: a rejection that the timer aborted becomes a
    time-out error and is retryable; a thrown string ends the call. *)
Lemma makeRequest_rejection_retried_witness :
  (exists e,
      HttpClient.makeRequest ClientSamples.as_error Samples.http (Some 5000)
        (HttpClient.FetchRejects
           (Errors.ThrownError false "AbortError" "The operation was aborted"))
      = inr (Errors.ThrownHuefy e)
      /\ Errors.isRetryableError (Errors.ThrownHuefy e) = true)
  /\ (exists e,
        Errors.code e = "UNEXPECTED_ERROR"
        /\ Errors.statusCode e = None
        /\ HttpClient.request ClientSamples.as_error Samples.http None
             (fun _ => HttpClient.FetchRejects (Errors.ThrownOther false "boom"))
           = Some (Retry.Fell (Some (Errors.ThrownHuefy e)), [Retry.Attempt 1])).
Proof.
  split.
  - destruct (makeRequest_rejection_retried ClientSamples.Body ClientSamples.as_error
                Samples.http (Some 5000)
                (Errors.ThrownError false "AbortError" "The operation was aborted")
                eq_refl) as [e [He [Hiff _]]].
    exists e. split; [exact He|]. apply Hiff. left. reflexivity.
  - destruct (makeRequest_rejection_retried ClientSamples.Body ClientSamples.as_error
                Samples.http (Some 30000) (Errors.ThrownOther false "boom") eq_refl)
      as [e [He [Hiff Hother]]].
    assert (Hno : Errors.isRetryableError (Errors.ThrownHuefy e) = false).
    { apply not_true_is_false. intros Hyes. apply Hiff in Hyes.
      destruct Hyes as [H|[H|[m [H _]]]]; discriminate H. }
    destruct (Hother Hno) as [_ [Hcode [Hstatus Hcall]]].
    exists e. split; [exact Hcode|]. split; [exact Hstatus|].
    apply (Hcall None (fun _ => HttpClient.FetchRejects (Errors.ThrownOther false "boom")));
      [reflexivity | simpl; lia | reflexivity].
Defined.

(** The abort of the sample rejection becomes a time-out error for the
    time-out of the request. *)
Example abort_becomes_timeout :
  HttpClient.makeRequest ClientSamples.as_error Samples.http (Some 5000)
    (HttpClient.FetchRejects
       (Errors.ThrownError false "AbortError" "The operation was aborted"))
  = inr (Errors.ThrownHuefy (Errors.new_TimeoutError 5000)).
Proof. reflexivity. Qed.

(** ** Response headers *)

Lemma extractHeaders_snoc (headers : list (string * string)) (k v : string) :
  HttpClient.extractHeaders (headers ++ [(k, v)])
  = <[k := v]> (HttpClient.extractHeaders headers).
Proof. unfold HttpClient.extractHeaders. rewrite fold_left_app. reflexivity. Qed.

(** X9. [extractHeaders] keeps, for every header name, the value given
    last: a name that does not occur is absent from the result, and when
    no name occurs twice the result holds exactly the given pairs. *)
Theorem extractHeaders_lookup :
  (forall headers k v,
      HttpClient.extractHeaders (headers ++ [(k, v)]) !! k = Some v)
  /\ (forall headers k,
        (forall v, ~ In (k, v) headers) ->
        HttpClient.extractHeaders headers !! k = None)
  /\ (forall headers k v,
        List.NoDup (map fst headers) ->
        (HttpClient.extractHeaders headers !! k = Some v <-> In (k, v) headers)).
Proof.
  split; [|split].
  - intros headers k v. rewrite extractHeaders_snoc. apply lookup_insert_eq.
  - intros headers k. induction headers as [|[k' v'] headers IH] using rev_ind;
      intros Hnot; [reflexivity|].
    rewrite extractHeaders_snoc.
    destruct (String.eqb_spec k' k) as [Heq|Hne].
    + subst k'. exfalso. apply (Hnot v'). apply in_or_app. right. left. reflexivity.
    + rewrite lookup_insert_ne by exact Hne.
      apply IH. intros v Hin. apply (Hnot v). apply in_or_app. left. exact Hin.
  - intros headers k v. induction headers as [|[k' v'] headers IH] using rev_ind;
      intros Hnd.
    + split; [discriminate | intros []].
    + rewrite extractHeaders_snoc.
      rewrite map_app in Hnd. simpl in Hnd.
      apply NoDup_remove in Hnd. rewrite app_nil_r in Hnd.
      destruct Hnd as [Hnd Hfresh].
      destruct (String.eqb_spec k' k) as [Heq|Hne].
      * subst k'. rewrite lookup_insert_eq. split.
        -- intros H. inversion H; subst. apply in_or_app. right. left. reflexivity.
        -- intros Hin. apply in_app_or in Hin. destruct Hin as [Hin|[Hin|[]]].
           ++ exfalso. apply Hfresh. apply in_map_iff. exists (k, v). auto.
           ++ inversion Hin; subst. reflexivity.
      * rewrite lookup_insert_ne by exact Hne. rewrite (IH Hnd). split.
        -- intros Hin. apply in_or_app. left. exact Hin.
        -- intros Hin. apply in_app_or in Hin. destruct Hin as [Hin|[Hin|[]]].
           ++ exact Hin.
           ++ inversion Hin; subst. contradiction.
Qed.

(** An instance of X9: two different header names. *)
Lemma extractHeaders_lookup_witness :
  HttpClient.extractHeaders [("content-type", "application/json"); ("x-id", "7")]
    !! "x-id" = Some "7".
Proof.
  apply (proj2 (proj2 extractHeaders_lookup)
           [("content-type", "application/json"); ("x-id", "7")] "x-id" "7").
  - repeat constructor; simpl; intuition discriminate.
  - right. left. reflexivity.
Defined.

(** ** Errors built from a response *)

(** X10. The error [createErrorFromResponse] builds always carries the
    code of the response, so [isErrorCode] recognises it by that code, and
    its details hold every entry of the details of the response. *)
Theorem createErrorFromResponse_keeps_code_and_details
    (data : Types.ErrorResponse) (statusCode : Z) :
  Errors.code (Errors.createErrorFromResponse data statusCode) = Types.code data
  /\ Errors.isErrorCode
       (Errors.ThrownHuefy (Errors.createErrorFromResponse data statusCode))
       (Types.code data) = true
  /\ (forall o k v,
        Types.details data = Some o ->
        o !! k = Some v ->
        details_get (Errors.createErrorFromResponse data statusCode) k = Some v).
Proof.
  assert (Hcode : Errors.code (Errors.createErrorFromResponse data statusCode)
                  = Types.code data).
  { unfold Errors.createErrorFromResponse.
    repeat match goal with
           | |- context [String.eqb ?a ?b] =>
               destruct (String.eqb_spec a b) as [Heq|?];
               [rewrite Heq; reflexivity|]
           end.
    reflexivity. }
  split; [exact Hcode|]. split.
  - simpl. rewrite Hcode. apply String.eqb_refl.
  - intros o k v Hd Hk. unfold Errors.createErrorFromResponse, details_get.
    rewrite Hd.
    repeat match goal with
           | |- context [String.eqb ?a ?b] => destruct (String.eqb a b)
           end; simpl; try exact Hk;
      apply lookup_union_Some_l; exact Hk.
Qed.

(** An instance of X10: the payload of the round-trip property. *)
Lemma createErrorFromResponse_keeps_witness :
  details_get
    (Errors.createErrorFromResponse Samples.template_not_found_payload 404)
    "template_key" = Some (VStr "t").
Proof.
  apply (proj2 (proj2 (createErrorFromResponse_keeps_code_and_details
                         Samples.template_not_found_payload 404))
           {[ "template_key" := VStr "t" ]} "template_key" (VStr "t")).
  - reflexivity.
  - reflexivity.
Defined.

(** ** Bounds on the back-off sleeps *)

Lemma delayMs_le_maxDelay (config : Types.RetryConfig) (attempt : Z) :
  Spec.delayMs config attempt <= Types.maxDelay config.
Proof. unfold Spec.delayMs. apply Z.le_min_r. Qed.

Lemma delayMs_nonneg (config : Types.RetryConfig) (attempt : Z) :
  0 <= Types.initialDelay config ->
  0 <= Types.backoffMultiplier config ->
  0 <= Types.maxDelay config ->
  0 <= Spec.delayMs config attempt.
Proof.
  intros Hi Hb Hm. unfold Spec.delayMs. apply Z.min_glb; [|exact Hm].
  apply Z.mul_nonneg_nonneg; [exact Hi|]. apply Z.pow_nonneg. exact Hb.
Qed.

Section SleepFacts.
Context {R E : Type}.
Variable retryConfig : Types.RetryConfig.
Variable attemptOp : Z -> R + E.
Variable isRetryable : E -> bool.

(** In every run each sleep is at most [maxDelay], there are fewer sleeps
    than attempts allowed, and no sleep is negative when the three numbers
    of the policy are not. *)
Lemma run_sleeps_bounded :
  exists exit events,
    Retry.run retryConfig attemptOp isRetryable = Some (exit, events)
    /\ Forall (fun ms => ms <= Types.maxDelay retryConfig) (Retry.sleeps events)
    /\ (List.length (Retry.sleeps events)
        <= Z.to_nat (Types.maxAttempts retryConfig) - 1)%nat
    /\ (0 <= Types.initialDelay retryConfig ->
        0 <= Types.backoffMultiplier retryConfig ->
        0 <= Types.maxDelay retryConfig ->
        Forall (fun ms => 0 <= ms) (Retry.sleeps events)).
Proof.
  destruct (run_trace retryConfig attemptOp isRetryable) as [exit [n [Hrun Hn]]].
  exists exit, (Spec.backoff_trace retryConfig 1 n).
  split; [exact Hrun|]. rewrite sleeps_backoff_trace.
  split; [|split].
  - apply Forall_forall. intros ms Hin. apply in_map_iff in Hin.
    destruct Hin as [k [Hk _]]. subst ms. apply delayMs_le_maxDelay.
  - rewrite length_map, length_Zrange. lia.
  - intros Hi Hb Hm. apply Forall_forall. intros ms Hin. apply in_map_iff in Hin.
    destruct Hin as [k [Hk _]]. subst ms. apply delayMs_nonneg; assumption.
Qed.

End SleepFacts.

Lemma new_http_policy (config : Types.HuefyConfig) (self : HttpClient.t) :
  HttpClient.new config = inl self ->
  HttpClient.retryConfig self = built_policy config [429; 500; 502; 503; 504]
  /\ HttpClient.timeout self = num_or (Types.timeout config) 30000.
Proof.
  unfold HttpClient.new. intros Hnew.
  destruct (negb (truthy (Types.apiKey config))
            || negb (HttpClient.is_string (Types.apiKey config))); [discriminate|].
  destruct (num_or (Types.timeout config) 30000 <? 0); [discriminate|].
  inversion Hnew; subst. split; reflexivity.
Qed.

Lemma new_grpc_policy (isProduction : bool) (initFailure : option string)
    (config : Types.HuefyConfig) (self : GrpcClient.t) :
  GrpcClient.new isProduction initFailure config = inl self ->
  GrpcClient.retryConfig self = built_policy config [14; 13; 8]
  /\ GrpcClient.timeout self = num_or (Types.timeout config) 30000.
Proof.
  unfold GrpcClient.new. intros Hnew.
  destruct (negb (truthy (Types.apiKey config))
            || negb (HttpClient.is_string (Types.apiKey config))); [discriminate|].
  destruct (num_or (Types.timeout config) 30000 <? 0); [discriminate|].
  destruct initFailure; [discriminate|].
  inversion Hnew; subst. split; reflexivity.
Qed.

Lemma new_kernel_policy (isProduction : bool) (platform arch packageDir : string)
    (config : Types.HuefyConfig) (self : KernelClient.t) :
  KernelClient.new isProduction platform arch packageDir config = inl self ->
  KernelClient.retryConfig self = built_policy config [14; 13; 8]
  /\ KernelClient.timeout self = num_or (Types.timeout config) 30000.
Proof.
  unfold KernelClient.new. intros Hnew.
  destruct (negb (truthy (Types.apiKey config))
            || negb (HttpClient.is_string (Types.apiKey config))); [discriminate|].
  destruct (num_or (Types.timeout config) 30000 <? 0); [discriminate|].
  destruct (KernelClient.getKernelBinaryPath platform arch packageDir);
    [|discriminate].
  inversion Hnew; subst. split; reflexivity.
Qed.

Lemma built_policy_nonneg (config : Types.HuefyConfig) (codes : list Z) :
  (forall d, Types.retryDelay config = Some d -> 0 <= d) ->
  0 <= Types.initialDelay (built_policy config codes).
Proof.
  intros Hd. simpl. unfold num_or.
  destruct (Types.retryDelay config) as [d|]; [|lia].
  destruct (d =? 0); [lia|]. apply Hd. reflexivity.
Qed.

(** X11. For a client built by one of the three constructors from a
    configuration whose numbers are integers, in every run of a call each
    back-off sleep lasts at most 10000 ms, the number of sleeps is at most
    the number of attempts allowed minus one, and no sleep is negative
    unless a negative [retryDelay] was configured. *)
Theorem built_client_sleeps_bounded (config : Types.HuefyConfig) :
  (forall (T : Type) (asErrorResponse : T -> Errors.ErrorData)
          (self : HttpClient.t) (options_timeout : option Z)
          (net : Z -> HttpClient.FetchOutcome) exit events,
      HttpClient.new config = inl self ->
      HttpClient.request asErrorResponse self options_timeout net
      = Some (exit, events) ->
      Forall (fun ms => ms <= 10000) (Retry.sleeps events)
      /\ (List.length (Retry.sleeps events)
          <= Z.to_nat (num_or (Types.retryAttempts config) 3) - 1)%nat
      /\ ((forall d, Types.retryDelay config = Some d -> 0 <= d) ->
          Forall (fun ms => 0 <= ms) (Retry.sleeps events)))
  /\ (forall (T : Type) isProduction initFailure (self : GrpcClient.t)
             (rpc : Z -> T + GrpcClient.RawError) result events,
      GrpcClient.new isProduction initFailure config = inl self ->
      GrpcClient.makeGrpcRequest self rpc = Some (result, events) ->
      Forall (fun ms => ms <= 10000) (Retry.sleeps events)
      /\ (List.length (Retry.sleeps events)
          <= Z.to_nat (num_or (Types.retryAttempts config) 3) - 1)%nat
      /\ ((forall d, Types.retryDelay config = Some d -> 0 <= d) ->
          Forall (fun ms => 0 <= ms) (Retry.sleeps events)))
  /\ (forall (D : Type) isProduction platform arch packageDir
             (self : KernelClient.t) (spawned : Z -> option D + Errors.Thrown)
             result events,
      KernelClient.new isProduction platform arch packageDir config = inl self ->
      KernelClient.executeKernelCommand self spawned = Some (result, events) ->
      Forall (fun ms => ms <= 10000) (Retry.sleeps events)
      /\ (List.length (Retry.sleeps events)
          <= Z.to_nat (num_or (Types.retryAttempts config) 3) - 1)%nat
      /\ ((forall d, Types.retryDelay config = Some d -> 0 <= d) ->
          Forall (fun ms => 0 <= ms) (Retry.sleeps events))).
Proof.
  split; [|split].
  - intros T asER self opt net exit events Hnew Hcall.
    destruct (new_http_policy _ _ Hnew) as [Hpol _].
    unfold HttpClient.request in Hcall. rewrite Hpol in Hcall.
    destruct (run_sleeps_bounded (built_policy config [429; 500; 502; 503; 504])
                (fun attempt =>
                   HttpClient.makeRequest asER self
                     (Some (num_or opt (HttpClient.timeout self))) (net attempt))
                Errors.isRetryableError)
      as [exit0 [events0 [Hrun [Hmax [Hlen Hnn]]]]].
    rewrite Hrun in Hcall. inversion Hcall; subst exit0 events0.
    split; [exact Hmax|]. split; [exact Hlen|].
    intros Hd. apply Hnn; [apply built_policy_nonneg; exact Hd | simpl; lia | simpl; lia].
  - intros T isProduction initFailure self rpc result events Hnew Hcall.
    destruct (new_grpc_policy _ _ _ _ Hnew) as [Hpol _].
    unfold GrpcClient.makeGrpcRequest in Hcall. rewrite Hpol in Hcall.
    destruct (run_sleeps_bounded (built_policy config [14; 13; 8]) rpc
                (GrpcClient.isRetryableGrpcError self))
      as [exit0 [events0 [Hrun [Hmax [Hlen Hnn]]]]].
    rewrite Hrun in Hcall.
    destruct exit0; inversion Hcall; subst events0;
      (split; [exact Hmax|]); (split; [exact Hlen|]);
      intros Hd; (apply Hnn; [apply built_policy_nonneg; exact Hd | simpl; lia | simpl; lia]).
  - intros D isProduction platform arch packageDir self spawned result events Hnew Hcall.
    destruct (new_kernel_policy _ _ _ _ _ _ Hnew) as [Hpol _].
    unfold KernelClient.executeKernelCommand in Hcall. rewrite Hpol in Hcall.
    destruct (run_sleeps_bounded (built_policy config [14; 13; 8]) spawned
                KernelClient.isRetryableError)
      as [exit0 [events0 [Hrun [Hmax [Hlen Hnn]]]]].
    rewrite Hrun in Hcall.
    destruct exit0; inversion Hcall; subst events0;
      (split; [exact Hmax|]); (split; [exact Hlen|]);
      intros Hd; (apply Hnn; [apply built_policy_nonneg; exact Hd | simpl; lia | simpl; lia]).
Qed.

(** ** When the constructors succeed *)

Lemma key_check (k : JsVal) :
  negb (truthy k) || negb (HttpClient.is_string k) = false
  <-> exists s, k = VStr s /\ s <> EmptyString.
Proof.
  destruct k as [| |b|n|s]; simpl; try (rewrite orb_true_r);
    try (split; [discriminate | intros [s' [Hs _]]; discriminate Hs]).
  rewrite orb_false_r, negb_involutive. split.
  - intros H. exists s. split; [reflexivity|]. apply String.eqb_neq. exact H.
  - intros [s' [Hs Hne]]. inversion Hs; subst. apply String.eqb_neq. exact Hne.
Qed.

Lemma timeout_check (t : option Z) :
  (num_or t 30000 <? 0) = false <-> (forall x, t = Some x -> 0 <= x).
Proof.
  unfold num_or. destruct t as [x|].
  - destruct (Z.eqb_spec x 0) as [Hz|Hz].
    + split; [intros _ y Hy; inversion Hy; lia | intros _; reflexivity].
    + rewrite Z.ltb_ge. split.
      * intros H y Hy. inversion Hy; subst. exact H.
      * intros H. apply H. reflexivity.
  - split; [intros _ y Hy; discriminate Hy | intros _; reflexivity].
Qed.

Lemma getKernelBinaryPath_supported (platform arch packageDir : string) :
  (exists path, KernelClient.getKernelBinaryPath platform arch packageDir = inl path)
  <-> platform = "darwin" \/ platform = "linux" \/ platform = "win32".
Proof.
  unfold KernelClient.getKernelBinaryPath.
  destruct (String.eqb_spec platform "darwin") as [Hd|Hd];
    [split; [auto | eauto]|].
  destruct (String.eqb_spec platform "linux") as [Hl|Hl];
    [split; [auto | eauto]|].
  destruct (String.eqb_spec platform "win32") as [Hw|Hw];
    [split; [auto | eauto]|].
  split.
  - intros [path Hp]. discriminate Hp.
  - intros [H|[H|H]]; contradiction.
Qed.

(** X12. [new HttpClient(config)] succeeds exactly when the API key is a
    non-empty string and the time-out, if given, is not negative.
    [new GrpcClient(config)] needs in addition that the protocol
    definitions load, and [new KernelClient(config)] that the platform is
    darwin, linux or win32; the processor architecture never makes it
    fail. *)
Theorem constructors_succeed_iff (config : Types.HuefyConfig) :
  ((exists self, HttpClient.new config = inl self)
   <-> (exists s, Types.apiKey config = VStr s /\ s <> EmptyString)
       /\ (forall t, Types.timeout config = Some t -> 0 <= t))
  /\ (forall isProduction initFailure,
        (exists self, GrpcClient.new isProduction initFailure config = inl self)
        <-> (exists s, Types.apiKey config = VStr s /\ s <> EmptyString)
            /\ (forall t, Types.timeout config = Some t -> 0 <= t)
            /\ initFailure = None)
  /\ (forall isProduction platform arch packageDir,
        (exists self,
            KernelClient.new isProduction platform arch packageDir config = inl self)
        <-> (exists s, Types.apiKey config = VStr s /\ s <> EmptyString)
            /\ (forall t, Types.timeout config = Some t -> 0 <= t)
            /\ (platform = "darwin" \/ platform = "linux" \/ platform = "win32")).
Proof.
  pose proof (key_check (Types.apiKey config)) as Hkey.
  pose proof (timeout_check (Types.timeout config)) as Htime.
  split; [|split].
  - unfold HttpClient.new.
    destruct (negb (truthy (Types.apiKey config))
              || negb (HttpClient.is_string (Types.apiKey config))).
    { split; [intros [self H]; discriminate H|].
      intros [Hk _]. apply Hkey in Hk. discriminate Hk. }
    destruct (num_or (Types.timeout config) 30000 <? 0).
    { split; [intros [self H]; discriminate H|].
      intros [_ Ht]. apply Htime in Ht. discriminate Ht. }
    split; [intros _|eauto].
    split; [apply Hkey | apply Htime]; reflexivity.
  - intros isProduction initFailure. unfold GrpcClient.new.
    destruct (negb (truthy (Types.apiKey config))
              || negb (HttpClient.is_string (Types.apiKey config))).
    { split; [intros [self H]; discriminate H|].
      intros [Hk _]. apply Hkey in Hk. discriminate Hk. }
    destruct (num_or (Types.timeout config) 30000 <? 0).
    { split; [intros [self H]; discriminate H|].
      intros [_ [Ht _]]. apply Htime in Ht. discriminate Ht. }
    destruct initFailure as [rendering|].
    { split; [intros [self H]; discriminate H|].
      intros [_ [_ Hi]]. discriminate Hi. }
    split; [intros _|eauto].
    split; [apply Hkey; reflexivity|].
    split; [apply Htime; reflexivity | reflexivity].
  - intros isProduction platform arch packageDir. unfold KernelClient.new.
    pose proof (getKernelBinaryPath_supported platform arch packageDir) as Hpath.
    destruct (negb (truthy (Types.apiKey config))
              || negb (HttpClient.is_string (Types.apiKey config))).
    { split; [intros [self H]; discriminate H|].
      intros [Hk _]. apply Hkey in Hk. discriminate Hk. }
    destruct (num_or (Types.timeout config) 30000 <? 0).
    { split; [intros [self H]; discriminate H|].
      intros [_ [Ht _]]. apply Htime in Ht. discriminate Ht. }
    destruct (KernelClient.getKernelBinaryPath platform arch packageDir)
      as [path|e].
    + split; [intros _|eauto].
      split; [apply Hkey; reflexivity|].
      split; [apply Htime; reflexivity|]. apply Hpath. eauto.
    + split; [intros [self H]; discriminate H|].
      intros [_ [_ Hp]]. apply Hpath in Hp. destruct Hp as [path Hp].
      discriminate Hp.
Qed.

(** An instance of X12: the sample configuration on a linux host. *)
Lemma constructors_succeed_witness :
  exists self,
    KernelClient.new false "linux" "riscv64" "/pkg" Samples.config = inl self.
Proof.
  apply (proj2 (proj2 (proj2 (constructors_succeed_iff Samples.config))
                  false "linux" "riscv64" "/pkg")).
  split; [exists "test-api-key"; split; [reflexivity | discriminate]|].
  split; [intros t Ht; discriminate Ht|].
  right. left. reflexivity.
Defined.

(** An instance of X11: the stream client built from the sample
    configuration, against a service that answers 503 twice and then
    200. *)
Lemma built_client_sleeps_bounded_witness :
  Forall (fun ms => ms <= 10000) [1000; 2000]
  /\ (List.length [1000; 2000]
      <= Z.to_nat (num_or (Types.retryAttempts Samples.config) 3) - 1)%nat
  /\ ((forall d, Types.retryDelay Samples.config = Some d -> 0 <= d) ->
      Forall (fun ms => 0 <= ms) [1000; 2000]).
Proof.
  apply (proj1 (built_client_sleeps_bounded Samples.config) ClientSamples.Body
           ClientSamples.as_error Samples.http None ClientSamples.recovers
           (Retry.Returned
              {| Types.data := ClientSamples.sent;
                 Types.status := 200;
                 Types.statusText := EmptyString;
                 Types.headers := ∅ |})
           [Retry.Attempt 1; Retry.Sleep 1000; Retry.Attempt 2; Retry.Sleep 2000;
            Retry.Attempt 3]).
  - reflexivity.
  - reflexivity.
Defined.

(** ** Sending through the main client *)

Section SendFacts.
Context {T : Type}.
Variable asErrorResponse : T -> Errors.ErrorData.

(** Every error [validateSendEmailInput] throws is a [ValidationError]. *)
Lemma validateSendEmailInput_error (templateKey : JsAny)
    (data : HuefyClient.JsData) (recipient : JsAny) (e : Errors.HuefyError) :
  HuefyClient.validateSendEmailInput templateKey data recipient = Some e ->
  exists message, e = HuefyClient.ValidationError message.
Proof.
  unfold HuefyClient.validateSendEmailInput. intros H.
  repeat match type of H with
         | context [if ?c then _ else _] => destruct c
         | context [match ?x with _ => _ end] => destruct x
         end;
    inversion H; subst; eexists; reflexivity.
Qed.

(** [sendEmail] always ends. *)
Lemma sendEmail_total (self : HuefyClient.t) (templateKey : JsAny)
    (data : HuefyClient.JsData) (recipient : JsAny) (provider : option string)
    (net : Z -> HttpClient.FetchOutcome) :
  exists r,
    HuefyClient.sendEmail asErrorResponse self templateKey data recipient provider net
    = Some r.
Proof.
  unfold HuefyClient.sendEmail.
  destruct (HuefyClient.validateSendEmailInput templateKey data recipient);
    [eauto|].
  destruct (HuefyClient.call_back self HuefyClient.onSendStart _ _) as [started [th|]];
    [eauto|].
  unfold HttpClient.request.
  destruct (run_total (HttpClient.retryConfig (HuefyClient.http self))
              (fun attempt =>
                 HttpClient.makeRequest asErrorResponse (HuefyClient.http self)
                   (Some (num_or None (HttpClient.timeout (HuefyClient.http self))))
                   (net attempt))
              Errors.isRetryableError) as [[exit events] Hrun].
  rewrite Hrun. destruct exit as [response|lastError]; [|eauto].
  destruct (HuefyClient.call_back self HuefyClient.onSendSuccess _ _)
    as [succeeded [th|]]; eauto.
Qed.

(** The [catch] clause when [onSendError] does not throw: the converted
    error is thrown, after [onSendError] was called with it if it is
    defined. *)
Lemma sendEmail_catch_spec (self : HuefyClient.t (T := T))
    (error : option Errors.Thrown)
    (before : list HuefyClient.ClientEvent) :
  (forall cbs g e,
      HuefyClient.callbacks self = Some cbs ->
      HuefyClient.onSendError cbs = Some g -> g e = None) ->
  exists notified,
    HuefyClient.sendEmail_catch self error before
    = (inr (Errors.ThrownHuefy (HuefyClient.toHuefyError error)),
       (before ++ notified)%list)
    /\ (forall cbs g,
          HuefyClient.callbacks self = Some cbs ->
          HuefyClient.onSendError cbs = Some g ->
          notified = [HuefyClient.CalledSendError (HuefyClient.toHuefyError error)]).
Proof.
  intros Hquiet. unfold HuefyClient.sendEmail_catch, HuefyClient.call_back.
  destruct (HuefyClient.callbacks self) as [cbs|] eqn:Hcbs.
  - destruct (HuefyClient.onSendError cbs) as [g|] eqn:Hg.
    + rewrite (Hquiet cbs g _ eq_refl Hg).
      eexists. split; [reflexivity|]. intros cbs' g' Hc' Hg'. reflexivity.
    + eexists. split; [reflexivity|]. intros cbs' g' Hc' Hg'.
      inversion Hc'; subst. congruence.
  - eexists. split; [reflexivity|]. intros cbs' g' Hc'. discriminate Hc'.
Qed.

End SendFacts.

(** X13. When [validateSendEmailInput] rejects the arguments, [sendEmail]
    throws that error, a [ValidationError] with statusCode 400, without
    calling any call-back (not even [onSendError]) and without any HTTP
    attempt. *)
Theorem sendEmail_invalid_input (T : Type)
    (asErrorResponse : T -> Errors.ErrorData) (self : HuefyClient.t)
    (templateKey : JsAny) (data : HuefyClient.JsData) (recipient : JsAny)
    (provider : option string) (net : Z -> HttpClient.FetchOutcome)
    (e : Errors.HuefyError) :
  HuefyClient.validateSendEmailInput templateKey data recipient = Some e ->
  HuefyClient.sendEmail asErrorResponse self templateKey data recipient provider net
  = Some (inr (Errors.ThrownHuefy e), [])
  /\ Errors.cls e = Errors.ValidationErrorC
  /\ Errors.code e = "VALIDATION_ERROR"
  /\ Errors.statusCode e = Some 400.
Proof.
  intros Hv. split.
  - unfold HuefyClient.sendEmail. rewrite Hv. reflexivity.
  - destruct (validateSendEmailInput_error _ _ _ _ Hv) as [message He]. subst e.
    repeat split; reflexivity.
Qed.

(** An instance of X13: a blank template key, on the client whose
    call-backs are all defined. *)
Lemma sendEmail_invalid_input_witness :
  HuefyClient.sendEmail ClientSamples.as_error ClientSamples.observed_client
    (AVal (VStr "   ")) ClientSamples.data ClientSamples.to None ClientSamples.recovers
  = Some (inr (Errors.ThrownHuefy
                 (HuefyClient.ValidationError "Template key cannot be empty")), [])
  /\ Errors.cls (HuefyClient.ValidationError "Template key cannot be empty")
     = Errors.ValidationErrorC
  /\ Errors.code (HuefyClient.ValidationError "Template key cannot be empty")
     = "VALIDATION_ERROR"
  /\ Errors.statusCode (HuefyClient.ValidationError "Template key cannot be empty")
     = Some 400.
Proof.
  apply (sendEmail_invalid_input ClientSamples.Body ClientSamples.as_error
           ClientSamples.observed_client (AVal (VStr "   ")) ClientSamples.data
           ClientSamples.to None ClientSamples.recovers).
  reflexivity.
Defined.

(** X14. When [onSendError] is absent or does not throw, whatever
    [sendEmail] throws is a [HuefyError], also when the HTTP client threw
    [null] or a call-back threw something else; and if the arguments
    passed validation and [onSendError] is defined, its call with the
    thrown error is the last thing [sendEmail] does. *)
Theorem sendEmail_throws_HuefyError (T : Type)
    (asErrorResponse : T -> Errors.ErrorData) (self : HuefyClient.t)
    (templateKey : JsAny) (data : HuefyClient.JsData) (recipient : JsAny)
    (provider : option string) (net : Z -> HttpClient.FetchOutcome)
    (thrown : Errors.Thrown) (events : list HuefyClient.ClientEvent) :
  (forall cbs g e,
      HuefyClient.callbacks self = Some cbs ->
      HuefyClient.onSendError cbs = Some g -> g e = None) ->
  HuefyClient.sendEmail asErrorResponse self templateKey data recipient provider net
  = Some (inr thrown, events) ->
  exists e,
    thrown = Errors.ThrownHuefy e
    /\ (HuefyClient.validateSendEmailInput templateKey data recipient = None ->
        forall cbs g,
          HuefyClient.callbacks self = Some cbs ->
          HuefyClient.onSendError cbs = Some g ->
          exists before,
            events = (before ++ [HuefyClient.CalledSendError e])%list).
Proof.
  intros Hquiet Hsend. unfold HuefyClient.sendEmail in Hsend.
  destruct (HuefyClient.validateSendEmailInput templateKey data recipient)
    as [ev|] eqn:Hv.
  { inversion Hsend; subst. exists ev. split; [reflexivity|]. discriminate. }
  assert (Hcatch : forall error before,
             HuefyClient.sendEmail_catch self error before = (inr thrown, events) ->
             exists e,
               thrown = Errors.ThrownHuefy e
               /\ (None = None (A := Errors.HuefyError) ->
                   forall cbs g,
                     HuefyClient.callbacks self = Some cbs ->
                     HuefyClient.onSendError cbs = Some g ->
                     exists before',
                       events = (before' ++ [HuefyClient.CalledSendError e])%list)).
  { intros error before Hc.
    destruct (sendEmail_catch_spec self error before Hquiet)
      as [notified [Heq Hnot]].
    rewrite Heq in Hc. inversion Hc; subst.
    eexists. split; [reflexivity|]. intros _ cbs g Hcbs Hg.
    rewrite (Hnot cbs g Hcbs Hg). eauto. }
  destruct (HuefyClient.call_back self HuefyClient.onSendStart _ _) as [started [th|]].
  { inversion Hsend as [Hc]. apply (Hcatch _ _ Hc). }
  destruct (HttpClient.request asErrorResponse (HuefyClient.http self) None net)
    as [[[response|lastError] revents]|]; [| |discriminate].
  - destruct (HuefyClient.call_back self HuefyClient.onSendSuccess _ _)
      as [succeeded [th|]]; [|discriminate].
    inversion Hsend as [Hc]. apply (Hcatch _ _ Hc).
  - inversion Hsend as [Hc]. apply (Hcatch _ _ Hc).
Qed.

(** An instance of X14: an invalid key, reported to the three call-backs
    of the sample client. *)
Lemma sendEmail_throws_HuefyError_witness :
  exists e,
    Errors.ThrownHuefy (Errors.new_AuthenticationError (Some "bad key") undefined)
    = Errors.ThrownHuefy e
    /\ (HuefyClient.validateSendEmailInput ClientSamples.key ClientSamples.data
          ClientSamples.to = None ->
        forall cbs g,
          HuefyClient.callbacks ClientSamples.observed_client = Some cbs ->
          HuefyClient.onSendError cbs = Some g ->
          exists before,
            [HuefyClient.CalledSendStart (T := ClientSamples.Body)
               ClientSamples.request;
             HuefyClient.Posted ClientSamples.request [Retry.Attempt 1];
             HuefyClient.CalledSendError
               (Errors.new_AuthenticationError (Some "bad key") undefined)]
            = (before ++ [HuefyClient.CalledSendError e])%list).
Proof.
  apply (sendEmail_throws_HuefyError ClientSamples.Body ClientSamples.as_error
           ClientSamples.observed_client ClientSamples.key ClientSamples.data
           ClientSamples.to None ClientSamples.unauthorized).
  - intros cbs g e Hcbs Hg. inversion Hcbs; subst cbs.
    inversion Hg; subst g. reflexivity.
  - reflexivity.
Defined.

(** X15. A value [sendEmail] returns is the decoded body of an answer
    with a status from 200 to 299 that the service gave at one of the
    attempts allowed, for arguments that passed validation. *)
Theorem sendEmail_returns_server_body (T : Type)
    (asErrorResponse : T -> Errors.ErrorData) (self : HuefyClient.t)
    (templateKey : JsAny) (data : HuefyClient.JsData) (recipient : JsAny)
    (provider : option string) (net : Z -> HttpClient.FetchOutcome)
    (r : T) (events : list HuefyClient.ClientEvent) :
  HuefyClient.sendEmail asErrorResponse self templateKey data recipient provider net
  = Some (inl r, events) ->
  HuefyClient.validateSendEmailInput templateKey data recipient = None
  /\ exists k status statusText headers,
       1 <= k <= Types.maxAttempts (HttpClient.retryConfig (HuefyClient.http self))
       /\ net k = HttpClient.FetchResponds status statusText headers (Some r)
       /\ 200 <= status <= 299.
Proof.
  unfold HuefyClient.sendEmail. intros Hsend.
  destruct (HuefyClient.validateSendEmailInput templateKey data recipient);
    [discriminate|].
  split; [reflexivity|].
  destruct (HuefyClient.call_back self HuefyClient.onSendStart _ _) as [started [th|]].
  { unfold HuefyClient.sendEmail_catch in Hsend.
    destruct (HuefyClient.call_back self HuefyClient.onSendError _ _) as [? [?|]];
      discriminate. }
  destruct (HttpClient.request asErrorResponse (HuefyClient.http self) None net)
    as [[[response|lastError] revents]|] eqn:Hreq; [| |discriminate].
  - destruct (HuefyClient.call_back self HuefyClient.onSendSuccess _ _)
      as [succeeded [th|]].
    { unfold HuefyClient.sendEmail_catch in Hsend.
      destruct (HuefyClient.call_back self HuefyClient.onSendError _ _) as [? [?|]];
        discriminate. }
    inversion Hsend; subst.
    unfold HttpClient.request, Retry.run in Hreq.
    destruct (loop_returned _ _ _ _ _ _ _ _ Hreq) as [k [Hk Hop]].
    apply makeRequest_returned in Hop.
    destruct Hop as [status [statusText [headers [body [Hnet [Hrange Hresp]]]]]].
    subst response. simpl.
    exists k, status, statusText, headers. auto.
  - unfold HuefyClient.sendEmail_catch in Hsend.
    destruct (HuefyClient.call_back self HuefyClient.onSendError _ _) as [? [?|]];
      discriminate.
Qed.

(** An instance of X15: the service accepts at the third attempt. *)
Lemma sendEmail_returns_server_body_witness :
  HuefyClient.validateSendEmailInput ClientSamples.key ClientSamples.data
    ClientSamples.to = None
  /\ exists k status statusText headers,
       1 <= k <= Types.maxAttempts
                   (HttpClient.retryConfig (HuefyClient.http ClientSamples.client))
       /\ ClientSamples.recovers k
          = HttpClient.FetchResponds status statusText headers (Some ClientSamples.sent)
       /\ 200 <= status <= 299.
Proof.
  apply (sendEmail_returns_server_body ClientSamples.Body ClientSamples.as_error
           ClientSamples.client ClientSamples.key ClientSamples.data ClientSamples.to
           None ClientSamples.recovers ClientSamples.sent
           [HuefyClient.Posted ClientSamples.request
              [Retry.Attempt 1; Retry.Sleep 1000; Retry.Attempt 2; Retry.Sleep 2000;
               Retry.Attempt 3]]).
  reflexivity.
Defined.

(** X16. If the service accepted the message but [onSendSuccess] throws,
    [sendEmail] fails although the POST succeeded: the value that the
    call-back threw is converted to a [HuefyError], [onSendError] is
    called with it when it is defined, and [sendEmail] throws that
    [HuefyError], or what [onSendError] throws if it throws. *)
Theorem sendEmail_success_callback_throws (T : Type)
    (asErrorResponse : T -> Errors.ErrorData) (self : HuefyClient.t)
    (templateKey : JsAny) (data : HuefyClient.JsData) (recipient : JsAny)
    (provider : option string) (net : Z -> HttpClient.FetchOutcome)
    (cbs : HuefyClient.HuefyEventCallbacks) (g : T -> option Errors.Thrown)
    (response : Types.HttpResponse T) (revents : list Retry.Event)
    (thrown : Errors.Thrown) :
  HuefyClient.validateSendEmailInput templateKey data recipient = None ->
  HuefyClient.callbacks self = Some cbs ->
  (forall f request, HuefyClient.onSendStart cbs = Some f -> f request = None) ->
  HuefyClient.onSendSuccess cbs = Some g ->
  HttpClient.request asErrorResponse (HuefyClient.http self) None net
  = Some (Retry.Returned response, revents) ->
  g (Types.data response) = Some thrown ->
  let huefyError := HuefyClient.toHuefyError (Some thrown) in
  exists request events,
    HuefyClient.sendEmail asErrorResponse self templateKey data recipient provider net
    = Some (inr (match HuefyClient.onSendError cbs with
                 | Some h =>
                     match h huefyError with
                     | Some rethrown => rethrown
                     | None => Errors.ThrownHuefy huefyError
                     end
                 | None => Errors.ThrownHuefy huefyError
                 end),
            events)
    /\ In (HuefyClient.Posted request revents) events
    /\ (forall h, HuefyClient.onSendError cbs = Some h ->
                  In (HuefyClient.CalledSendError huefyError) events).
Proof.
  intros Hv Hcbs Hstart Hsucc Hreq Hthrows huefyError. subst huefyError.
  unfold HuefyClient.sendEmail. rewrite Hv.
  unfold HuefyClient.call_back at 1. rewrite Hcbs.
  destruct (HuefyClient.onSendStart cbs) as [f|] eqn:Hf;
    [rewrite (Hstart f _ eq_refl)|];
    rewrite Hreq;
    unfold HuefyClient.call_back at 1; rewrite Hcbs, Hsucc, Hthrows;
    unfold HuefyClient.sendEmail_catch, HuefyClient.call_back; rewrite Hcbs;
    (destruct (HuefyClient.onSendError cbs) as [h|];
     [destruct (h (HuefyClient.toHuefyError (Some thrown)))|]);
    eexists; eexists; (split; [reflexivity|]);
    (split; [repeat rewrite in_app_iff; simpl; tauto|]);
    intros h' Hh'; try discriminate Hh';
    repeat rewrite in_app_iff; simpl; tauto.
Qed.

(** An instance of X16: the service answers 200 and the success call-back
    of the sample client throws. *)
Lemma sendEmail_success_callback_throws_witness :
  exists request events,
    HuefyClient.sendEmail ClientSamples.as_error ClientSamples.observed_client
      ClientSamples.key ClientSamples.data ClientSamples.to None ClientSamples.accepts
    = Some (inr (Errors.ThrownHuefy
                   (HuefyClient.toHuefyError
                      (Some (Errors.ThrownError false "Error" "metrics down")))),
            events)
    /\ In (HuefyClient.Posted request [Retry.Attempt 1]) events
    /\ (forall h,
          HuefyClient.onSendError ClientSamples.failing_success_callbacks = Some h ->
          In (HuefyClient.CalledSendError
                (HuefyClient.toHuefyError
                   (Some (Errors.ThrownError false "Error" "metrics down"))))
             events).
Proof.
  apply (sendEmail_success_callback_throws ClientSamples.Body ClientSamples.as_error
           ClientSamples.observed_client ClientSamples.key ClientSamples.data
           ClientSamples.to None ClientSamples.accepts
           ClientSamples.failing_success_callbacks
           (fun _ => Some (Errors.ThrownError false "Error" "metrics down"))
           {| Types.data := ClientSamples.sent;
              Types.status := 200;
              Types.statusText := EmptyString;
              Types.headers := ∅ |}
           [Retry.Attempt 1]).
  - reflexivity.
  - reflexivity.
  - intros f request Hf. inversion Hf; subst f. reflexivity.
  - reflexivity.
  - reflexivity.
  - reflexivity.
Defined.

(** When [onSendError] throws as well, its value replaces the error of the
    send. *)
Example onSendError_throws :
  option_map fst
    (HuefyClient.sendEmail ClientSamples.as_error
       {| HuefyClient.http := Samples.http;
          HuefyClient.callbacks :=
            Some {| HuefyClient.onSendStart := None;
                    HuefyClient.onSendSuccess := None;
                    HuefyClient.onSendError :=
                      Some (fun _ => Some (Errors.ThrownOther false "logger down")) |} |}
       ClientSamples.key ClientSamples.data ClientSamples.to None
       ClientSamples.unauthorized)
  = Some (inr (Errors.ThrownOther false "logger down")).
Proof. reflexivity. Qed.

(** X17. [validateTemplate] answers [true] whenever the template key or
    the test data do not pass the local validation, without any HTTP
    attempt; and when the send throws a [HuefyError], it answers [false]
    exactly when the code of the error is TEMPLATE_NOT_FOUND or
    INVALID_TEMPLATE_DATA. *)
Theorem validateTemplate_answers (T : Type)
    (asErrorResponse : T -> Errors.ErrorData) (self : HuefyClient.t)
    (templateKey : JsAny) (testData : HuefyClient.JsData)
    (net : Z -> HttpClient.FetchOutcome) :
  (forall e,
      HuefyClient.validateSendEmailInput templateKey testData
        (AVal (VStr "test@huefy.com")) = Some e ->
      HuefyClient.validateTemplate asErrorResponse self templateKey testData net
      = Some true)
  /\ (forall e events,
        HuefyClient.sendEmail asErrorResponse self templateKey testData
          (AVal (VStr "test@huefy.com")) None net
        = Some (inr (Errors.ThrownHuefy e), events) ->
        (HuefyClient.validateTemplate asErrorResponse self templateKey testData net
         = Some false
         <-> Errors.code e = "TEMPLATE_NOT_FOUND"
             \/ Errors.code e = "INVALID_TEMPLATE_DATA")).
Proof.
  split.
  - intros e Hv. unfold HuefyClient.validateTemplate, HuefyClient.sendEmail.
    rewrite Hv.
    destruct (validateSendEmailInput_error _ _ _ _ Hv) as [message He]. subst e.
    reflexivity.
  - intros e events Hsend. unfold HuefyClient.validateTemplate. rewrite Hsend.
    simpl. rewrite orb_false_r.
    destruct (String.eqb_spec (Errors.code e) "TEMPLATE_NOT_FOUND") as [H1|H1];
      destruct (String.eqb_spec (Errors.code e) "INVALID_TEMPLATE_DATA") as [H2|H2];
      simpl; split; auto; try discriminate; intros [H|H]; contradiction.
Qed.

(** An instance of X17: a blank template key is reported as valid. *)
Lemma validateTemplate_answers_witness :
  HuefyClient.validateTemplate ClientSamples.as_error ClientSamples.client
    (AVal (VStr " ")) ClientSamples.data ClientSamples.unauthorized
  = Some true.
Proof.
  apply (proj1 (validateTemplate_answers ClientSamples.Body ClientSamples.as_error
                  ClientSamples.client (AVal (VStr " ")) ClientSamples.data
                  ClientSamples.unauthorized)
           (HuefyClient.ValidationError "Template key cannot be empty")).
  reflexivity.
Defined.

(** A template that the service does not know is reported as valid when
    its key contains the text fetch: the 404 answer is rethrown as a
    [NetworkError] by [makeRequest], retried, and its code is neither of
    the two that [validateTemplate] looks for. *)
Example validateTemplate_key_with_fetch :
  HuefyClient.validateTemplate ClientSamples.as_error ClientSamples.client
    (AVal (VStr "prefetch")) ClientSamples.data
    (fun _ => ClientSamples.respond 404
                (Some {| ClientSamples.message_id := EmptyString;
                         ClientSamples.error_response :=
                           {| Types.error := "x";
                              Types.code := "TEMPLATE_NOT_FOUND";
                              Types.details :=
                                Some {[ "template_key" := VStr "prefetch" ]} |} |}))
  = Some true.
Proof. vm_compute. reflexivity. Qed.

(** ** Bulk sending *)

Section BulkFacts.
Context {T : Type}.
Variable asErrorResponse : T -> Errors.ErrorData.
Variable self : HuefyClient.t (T := T).
Variable net : nat -> Z -> HttpClient.FetchOutcome (T := T).

Lemma sendBulkEmails_one_spec (item : HuefyClient.BulkEmail)
    (env : Z -> HttpClient.FetchOutcome (T := T)) :
  exists r,
    HuefyClient.sendBulkEmails_one asErrorResponse self item env = Some r
    /\ HuefyClient.email r = HuefyClient.bulk_recipient item
    /\ (HuefyClient.success r = true
        <-> exists x events,
              HuefyClient.sendEmail asErrorResponse self
                (HuefyClient.bulk_templateKey item) (HuefyClient.bulk_data item)
                (HuefyClient.bulk_recipient item) (HuefyClient.bulk_provider item) env
              = Some (inl x, events)
              /\ HuefyClient.result r = Some x)
    /\ (HuefyClient.success r = false -> exists e, HuefyClient.error r = Some e).
Proof.
  unfold HuefyClient.sendBulkEmails_one.
  destruct (sendEmail_total asErrorResponse self
              (HuefyClient.bulk_templateKey item) (HuefyClient.bulk_data item)
              (HuefyClient.bulk_recipient item) (HuefyClient.bulk_provider item) env)
    as [[[x|thrown] events] Hsend]; rewrite Hsend.
  - eexists. split; [reflexivity|]. split; [reflexivity|]. simpl. split.
    + split; [intros _; eauto | reflexivity].
    + discriminate.
  - eexists. split; [reflexivity|]. split; [reflexivity|]. simpl. split.
    + split; [discriminate|]. intros [x [ev [Hx _]]]. discriminate Hx.
    + intros _. eauto.
Qed.

Lemma sendBulkEmails_all_spec (items : list HuefyClient.BulkEmail) :
  forall index,
  exists results,
    HuefyClient.sendBulkEmails_all asErrorResponse self index items net = Some results
    /\ List.length results = List.length items
    /\ (forall i item,
          nth_error items i = Some item ->
          exists r,
            nth_error results i = Some r
            /\ HuefyClient.sendBulkEmails_one asErrorResponse self item
                 (net (index + i)%nat) = Some r).
Proof.
  induction items as [|item rest IH]; intros index.
  - exists []. split; [reflexivity|]. split; [reflexivity|].
    intros i item Hi. destruct i; discriminate Hi.
  - simpl.
    destruct (sendBulkEmails_one_spec item (net index)) as [r [Hone _]].
    destruct (IH (S index)) as [rs [Hall [Hlen Hnth]]].
    rewrite Hone, Hall. exists (r :: rs).
    split; [reflexivity|]. split; [simpl; congruence|].
    intros i item' Hi. destruct i as [|i]; simpl in Hi.
    + inversion Hi; subst item'. exists r. split; [reflexivity|].
      rewrite Nat.add_0_r. exact Hone.
    + destruct (Hnth i item' Hi) as [r' [Hr' Hone']].
      exists r'. split; [exact Hr'|].
      replace (index + S i)%nat with (S index + i)%nat by lia. exact Hone'.
Qed.

End BulkFacts.

(** X18. [sendBulkEmails] throws a [ValidationError] when its argument
    is not an array, is empty, or has more than 100 elements.  For 1 to
    100 elements it never throws: it resolves to one result per element,
    in the order given, each with the recipient of its element, with
    [success] set exactly when the send of that element returned, and with
    an error otherwise (also for an element that fails validation). *)
Theorem sendBulkEmails_results (T : Type)
    (asErrorResponse : T -> Errors.ErrorData) (self : HuefyClient.t)
    (net : nat -> Z -> HttpClient.FetchOutcome) :
  HuefyClient.sendBulkEmails asErrorResponse self None net
  = Some (inr (HuefyClient.ValidationError
                 "Emails array is required and must not be empty"))
  /\ HuefyClient.sendBulkEmails asErrorResponse self (Some []) net
     = Some (inr (HuefyClient.ValidationError
                    "Emails array is required and must not be empty"))
  /\ (forall items,
        (100 < List.length items)%nat ->
        HuefyClient.sendBulkEmails asErrorResponse self (Some items) net
        = Some (inr (HuefyClient.ValidationError
                       "Maximum 100 emails allowed per bulk request")))
  /\ (forall items,
        (1 <= List.length items <= 100)%nat ->
        exists results,
          HuefyClient.sendBulkEmails asErrorResponse self (Some items) net
          = Some (inl results)
          /\ List.length results = List.length items
          /\ (forall i item,
                nth_error items i = Some item ->
                exists r,
                  nth_error results i = Some r
                  /\ HuefyClient.email r = HuefyClient.bulk_recipient item
                  /\ (HuefyClient.success r = true
                      <-> exists x events,
                            HuefyClient.sendEmail asErrorResponse self
                              (HuefyClient.bulk_templateKey item)
                              (HuefyClient.bulk_data item)
                              (HuefyClient.bulk_recipient item)
                              (HuefyClient.bulk_provider item) (net i)
                            = Some (inl x, events)
                            /\ HuefyClient.result r = Some x)
                  /\ (HuefyClient.success r = false ->
                      exists e, HuefyClient.error r = Some e))).
Proof.
  split; [reflexivity|]. split; [reflexivity|]. split.
  - intros items Hlen. unfold HuefyClient.sendBulkEmails.
    destruct items as [|item rest]; [simpl in Hlen; lia|].
    apply Nat.ltb_lt in Hlen. rewrite Hlen. reflexivity.
  - intros items Hlen. unfold HuefyClient.sendBulkEmails.
    destruct items as [|item rest]; [simpl in Hlen; lia|].
    assert (Hle : (100 <? List.length (item :: rest))%nat = false)
      by (apply Nat.ltb_ge; lia).
    rewrite Hle.
    destruct (sendBulkEmails_all_spec asErrorResponse self net (item :: rest) 0%nat)
      as [results [Hall [Hl Hnth]]].
    rewrite Hall. exists results. split; [reflexivity|]. split; [exact Hl|].
    intros i item' Hi.
    destruct (Hnth i item' Hi) as [r [Hr Hone]]. simpl in Hone.
    destruct (sendBulkEmails_one_spec asErrorResponse self item' (net i))
      as [r' [Hone' Hspec]].
    rewrite Hone in Hone'. inversion Hone'; subst r'.
    exists r. split; [exact Hr | exact Hspec].
Qed.

(** An instance of X18: of two elements the second has a malformed
    recipient; the call resolves with two results. *)
Lemma sendBulkEmails_results_witness :
  exists results,
    HuefyClient.sendBulkEmails ClientSamples.as_error ClientSamples.client
      (Some [ClientSamples.bulk "a@b.co"; ClientSamples.bulk "not-an-email"])
      (fun _ => ClientSamples.accepts)
    = Some (inl results)
    /\ List.length results = 2%nat.
Proof.
  destruct (proj2 (proj2 (proj2
              (sendBulkEmails_results ClientSamples.Body ClientSamples.as_error
                 ClientSamples.client (fun _ => ClientSamples.accepts))))
              [ClientSamples.bulk "a@b.co"; ClientSamples.bulk "not-an-email"])
    as [results [Hsend [Hlen _]]].
  - simpl. lia.
  - exists results. split; [exact Hsend | exact Hlen].
Defined.

(** The malformed element of that call fails on its own. *)
Example sendBulkEmails_mixed :
  option_map (sum_rect (fun _ => list bool) (map HuefyClient.success) (fun _ => []))
    (HuefyClient.sendBulkEmails ClientSamples.as_error ClientSamples.client
       (Some [ClientSamples.bulk "a@b.co"; ClientSamples.bulk "not-an-email"])
       (fun _ => ClientSamples.accepts))
  = Some [true; false].
Proof. vm_compute. reflexivity. Qed.

(** ** The child process, continued *)

Lemma includes_app_r (prefix s sub : string) :
  includes s sub = true -> includes (prefix +:+ s) sub = true.
Proof.
  intros Hs. induction prefix as [|c prefix IH]; [exact Hs|].
  change (String c prefix +:+ s) with (String c (prefix +:+ s)).
  cbn [includes]. rewrite IH.
  destruct (String.prefix sub (String c (prefix +:+ s))); reflexivity.
Qed.

Lemma string_app_assoc (s1 s2 s3 : string) :
  (s1 +:+ s2) +:+ s3 = s1 +:+ (s2 +:+ s3).
Proof.
  induction s1 as [|c s1 IH]; [reflexivity|].
  change ((String c s1 +:+ s2) +:+ s3) with (String c ((s1 +:+ s2) +:+ s3)).
  rewrite IH. reflexivity.
Qed.

Lemma string_app_nil_r (s : string) : s +:+ EmptyString = s.
Proof.
  induction s as [|c s IH]; [reflexivity|].
  change (String c s +:+ EmptyString) with (String c (s +:+ EmptyString)).
  rewrite IH. reflexivity.
Qed.

Section CloseFacts.
Context {D : Type}.
Variable JSON_parse : string -> KernelClient.CLIResponse (D := D) + string.
Variable self : KernelClient.t.

Let step := KernelClient.on_event JSON_parse self.

(** Output and diagnostics are appended in the order of arrival and
    change nothing else. *)
Lemma fold_data_collects (events : list KernelClient.ProcEvent) :
  forall st,
    forallb data_event events = true ->
    fold_left step events st
    = {| KernelClient.stdout := KernelClient.stdout st +:+ stdout_of events;
         KernelClient.stderr := KernelClient.stderr st +:+ stderr_of events;
         KernelClient.settled := KernelClient.settled st;
         KernelClient.killed := KernelClient.killed st |}.
Proof.
  induction events as [|ev events IH]; intros st Hdata.
  - simpl. rewrite !string_app_nil_r. destruct st; reflexivity.
  - simpl in Hdata. apply andb_true_iff in Hdata. destruct Hdata as [Hev Hrest].
    cbn [fold_left]. rewrite (IH _ Hrest).
    destruct ev as [chunk|chunk| | |]; try discriminate Hev; simpl;
      rewrite string_app_assoc; reflexivity.
Qed.

(** [kill()] is called by the timer only. *)
Lemma on_event_killed_iff (st : KernelClient.ProcState) (ev : KernelClient.ProcEvent) :
  KernelClient.killed (step st ev) = true
  <-> KernelClient.killed st = true \/ ev = KernelClient.TimeoutFired.
Proof.
  unfold step.
  destruct ev as [chunk|chunk|exitCode|message|]; simpl;
    unfold KernelClient.on_close, KernelClient.reject, KernelClient.resolve;
    simpl;
    repeat match goal with
           | |- context [match ?x with _ => _ end] => destruct x
           | |- context [if ?x then _ else _] => destruct x
           end; simpl;
    (split; [intros H; first [left; exact H | right; reflexivity]
            | intros [H|H]; first [exact H | discriminate H | reflexivity]]).
Qed.

Lemma fold_killed_iff (events : list KernelClient.ProcEvent) :
  forall st,
    KernelClient.killed (fold_left step events st) = true
    <-> KernelClient.killed st = true \/ In KernelClient.TimeoutFired events.
Proof.
  induction events as [|ev events IH]; intros st.
  - simpl. tauto.
  - cbn [fold_left]. rewrite IH, on_event_killed_iff. simpl.
    split; [intros [[H|H]|H] | intros [H|[H|H]]]; auto.
Qed.

(** Every event other than output and diagnostics settles a pending
    promise. *)
Lemma on_event_settles (st : KernelClient.ProcState) (ev : KernelClient.ProcEvent) :
  data_event ev = false ->
  exists r, KernelClient.settled (step st ev) = Some r.
Proof.
  intros Hev. unfold step.
  destruct (KernelClient.settled st) as [r|] eqn:Hs.
  { exists r. apply on_event_settled. exact Hs. }
  destruct ev as [chunk|chunk|exitCode|message|]; try discriminate Hev; simpl;
    unfold KernelClient.on_close, KernelClient.reject, KernelClient.resolve;
    simpl; rewrite ?Hs;
    repeat match goal with
           | |- context [match ?x with _ => _ end] => destruct x
           | |- context [if ?x then _ else _] => destruct x
           end; simpl; rewrite ?Hs; eexists; reflexivity.
Qed.

Lemma fold_pending_iff (events : list KernelClient.ProcEvent) :
  forall st,
    KernelClient.settled st = None ->
    (KernelClient.settled (fold_left step events st) = None
     <-> forallb data_event events = true).
Proof.
  induction events as [|ev events IH]; intros st Hs.
  - simpl. tauto.
  - cbn [fold_left forallb]. rewrite andb_true_iff.
    destruct (data_event ev) eqn:Hev.
    + rewrite IH; [tauto|].
      destruct ev; try discriminate Hev; exact Hs.
    + destruct (on_event_settles st ev Hev) as [r Hr].
      unfold step in *.
      rewrite (fold_settled JSON_parse self events _ r Hr).
      split; [discriminate | intros [H _]; discriminate H].
Qed.

(** When the child ends first, the attempt is settled by the [close]
    handler on what the child wrote. *)
Lemma fold_close_first (before after : list KernelClient.ProcEvent)
    (exitCode : option Z) :
  forallb data_event before = true ->
  KernelClient.settled
    (KernelClient.spawnKernelProcess JSON_parse self None
       (before ++ KernelClient.Close exitCode :: after))
  = KernelClient.settled
      (KernelClient.on_close JSON_parse exitCode
         {| KernelClient.stdout := stdout_of before;
            KernelClient.stderr := stderr_of before;
            KernelClient.settled := None;
            KernelClient.killed := false |}).
Proof.
  intros Hdata. unfold KernelClient.spawnKernelProcess.
  rewrite fold_left_app. cbn [fold_left].
  rewrite (fold_data_collects before _ Hdata).
  cbn [KernelClient.stdout KernelClient.stderr KernelClient.settled
       KernelClient.killed KernelClient.on_event].
  change (EmptyString +:+ stdout_of before) with (stdout_of before).
  change (EmptyString +:+ stderr_of before) with (stderr_of before).
  match goal with
  | |- KernelClient.settled (fold_left _ after ?s) = _ =>
      destruct (KernelClient.settled s) as [r|] eqn:Hs
  end.
  - apply (fold_settled JSON_parse self after _ r Hs).
  - exfalso. revert Hs.
    unfold KernelClient.on_close, KernelClient.reject, KernelClient.resolve.
    simpl.
    repeat match goal with
           | |- context [match ?x with _ => _ end] => destruct x
           | |- context [if ?x then _ else _] => destruct x
           end; discriminate.
Qed.

(** A code other than 0 rejects with the code and the diagnostics. *)
Lemma close_nonzero (exitCode : option Z) (st : KernelClient.ProcState) :
  exitCode <> Some 0 ->
  KernelClient.settled st = None ->
  KernelClient.settled (KernelClient.on_close JSON_parse exitCode st)
  = Some (inr (KernelClient.plainError
                 ("Kernel process exited with code "
                  +:+ KernelClient.render_exit exitCode +:+ ": "
                  +:+ KernelClient.stderr st))).
Proof.
  intros Hcode Hs. unfold KernelClient.on_close, KernelClient.reject.
  destruct exitCode as [n|].
  - destruct (Z.eqb_spec n 0) as [->|Hn]; [contradiction Hcode; reflexivity|].
    simpl. rewrite Hs. reflexivity.
  - simpl. rewrite Hs. reflexivity.
Qed.

End CloseFacts.

(** X19. When the child ends before the timer fires and before any
    spawn error, with the request written, the attempt is decided by the
    exit code and by everything the child wrote, whatever happens later:
    a code other than 0 rejects with a plain error that quotes the code
    and the diagnostics; with code 0, output that does not parse rejects
    with a plain error, a response whose [success] is falsy rejects with a
    [HuefyError] that carries the code of the response (or KERNEL_ERROR)
    and that the converter leaves unchanged, and any other response
    resolves with its [data]. *)
Theorem spawnKernelProcess_child_ends_first (D : Type)
    (JSON_parse : string -> KernelClient.CLIResponse (D := D) + string)
    (self : KernelClient.t) (before after : list KernelClient.ProcEvent)
    (exitCode : option Z) :
  forallb data_event before = true ->
  let st := KernelClient.spawnKernelProcess JSON_parse self None
              (before ++ KernelClient.Close exitCode :: after) in
  (exitCode <> Some 0 ->
   KernelClient.settled st
   = Some (inr (KernelClient.plainError
                  ("Kernel process exited with code "
                   +:+ KernelClient.render_exit exitCode +:+ ": "
                   +:+ stderr_of before))))
  /\ (exitCode = Some 0 ->
      forall parseError,
        JSON_parse (stdout_of before) = inr parseError ->
        KernelClient.settled st
        = Some (inr (KernelClient.plainError
                       ("Failed to parse kernel response: " +:+ parseError))))
  /\ (exitCode = Some 0 ->
      forall response,
        JSON_parse (stdout_of before) = inl response ->
        KernelClient.success response = false ->
        exists e,
          KernelClient.settled st = Some (inr (Errors.ThrownHuefy e))
          /\ Errors.code e
             = str_or (option_map KernelClient.error_code
                         (KernelClient.error response)) "KERNEL_ERROR"
          /\ Errors.message e
             = str_or (option_map KernelClient.error_message
                         (KernelClient.error response)) "Unknown kernel error"
          /\ KernelClient.convertError self (Some (Errors.ThrownHuefy e)) = e)
  /\ (exitCode = Some 0 ->
      forall response,
        JSON_parse (stdout_of before) = inl response ->
        KernelClient.success response = true ->
        KernelClient.settled st = Some (inl (KernelClient.data response))).
Proof.
  intros Hdata st. subst st.
  rewrite (fold_close_first JSON_parse self before after exitCode Hdata).
  repeat split.
  - intros Hcode. apply close_nonzero; [exact Hcode | reflexivity].
  - intros -> parseError Hparse. unfold KernelClient.on_close.
    cbn [KernelClient.stdout]. rewrite Hparse. reflexivity.
  - intros -> response Hparse Hfail. eexists. split; [|split; [|split]].
    + unfold KernelClient.on_close.
      cbn [KernelClient.stdout]. rewrite Hparse, Hfail. reflexivity.
    + reflexivity.
    + reflexivity.
    + reflexivity.
  - intros -> response Hparse Hok. unfold KernelClient.on_close.
    cbn [KernelClient.stdout]. rewrite Hparse, Hok. reflexivity.
Qed.

(** An instance of X19: the child answers in two chunks and ends with
    code 0; the timer fires afterwards. *)
Lemma spawnKernelProcess_child_ends_first_witness :
  KernelClient.settled
    (KernelClient.spawnKernelProcess Samples.parse_ok_only Samples.kernel None
       ([KernelClient.StdoutData "o"; KernelClient.StdoutData "k"]
        ++ KernelClient.Close (Some 0) :: [KernelClient.TimeoutFired]))
  = Some (inl None).
Proof.
  destruct (spawnKernelProcess_child_ends_first string Samples.parse_ok_only
              Samples.kernel
              [KernelClient.StdoutData "o"; KernelClient.StdoutData "k"]
              [KernelClient.TimeoutFired] (Some 0) eq_refl)
    as [_ [_ [_ Hok]]].
  apply (Hok eq_refl {| KernelClient.success := true;
                        KernelClient.data := None;
                        KernelClient.error := None |});
    reflexivity.
Defined.

(** X20. [spawnKernelProcess] never clears its timer and never calls
    [kill()] elsewhere: the child is killed exactly when the timer fires,
    also after the attempt was settled.  With the request written, the
    attempt stays pending exactly as long as the child only writes; and
    when writing the request throws, the attempt is rejected with that
    failure whatever the child does afterwards. *)
Theorem spawnKernelProcess_kill_and_settlement (D : Type)
    (JSON_parse : string -> KernelClient.CLIResponse (D := D) + string)
    (self : KernelClient.t) (events : list KernelClient.ProcEvent) :
  (forall writeFailure,
      KernelClient.killed
        (KernelClient.spawnKernelProcess JSON_parse self writeFailure events) = true
      <-> In KernelClient.TimeoutFired events)
  /\ (KernelClient.settled
        (KernelClient.spawnKernelProcess JSON_parse self None events) = None
      <-> forallb data_event events = true)
  /\ (forall rendering,
        KernelClient.settled
          (KernelClient.spawnKernelProcess JSON_parse self (Some rendering) events)
        = Some (inr (KernelClient.plainError
                       ("Failed to write to kernel process: " +:+ rendering)))).
Proof.
  split; [|split].
  - intros writeFailure. unfold KernelClient.spawnKernelProcess.
    rewrite fold_killed_iff.
    destruct writeFailure; simpl; split;
      [intros [H|H]; [discriminate H | exact H] | auto
      |intros [H|H]; [discriminate H | exact H] | auto].
  - unfold KernelClient.spawnKernelProcess. apply fold_pending_iff. reflexivity.
  - intros rendering. unfold KernelClient.spawnKernelProcess.
    apply fold_settled. reflexivity.
Qed.

(** X21. A child that ends with a code other than 0 is retried when its
    diagnostics contain the text timeout or ECONNREFUSED: the rejection
    of the attempt quotes the diagnostics and the retry predicate looks
    for these texts in the message. *)
Theorem exit_diagnostics_retried (D : Type)
    (JSON_parse : string -> KernelClient.CLIResponse (D := D) + string)
    (self : KernelClient.t) (before after : list KernelClient.ProcEvent)
    (exitCode : option Z) :
  forallb data_event before = true ->
  exitCode <> Some 0 ->
  includes (stderr_of before) "timeout" = true
  \/ includes (stderr_of before) "ECONNREFUSED" = true ->
  exists reason,
    KernelClient.settled
      (KernelClient.spawnKernelProcess JSON_parse self None
         (before ++ KernelClient.Close exitCode :: after))
    = Some (inr reason)
    /\ KernelClient.isRetryableError reason = true.
Proof.
  intros Hdata Hcode Htext.
  rewrite (fold_close_first JSON_parse self before after exitCode Hdata).
  rewrite close_nonzero; [|exact Hcode|reflexivity].
  eexists. split; [reflexivity|].
  unfold KernelClient.isRetryableError, KernelClient.message_includes,
    KernelClient.plainError.
  cbn [Errors.thrown_message KernelClient.stderr].
  destruct Htext as [Ht|He].
  - rewrite (includes_app_r _ _ "timeout"
               (includes_app_r _ _ _ (includes_app_r _ _ _ Ht))).
    rewrite orb_true_r. reflexivity.
  - rewrite (includes_app_r _ _ "ECONNREFUSED"
               (includes_app_r _ _ _ (includes_app_r _ _ _ He))).
    reflexivity.
Qed.

(** An instance of X21: the child reports a refused connection and ends
    with code 1. *)
Lemma exit_diagnostics_retried_witness :
  exists reason,
    KernelClient.settled
      (KernelClient.spawnKernelProcess Samples.parse_ok_only Samples.kernel None
         ([KernelClient.StderrData "dial tcp: "; KernelClient.StderrData "ECONNREFUSED"]
          ++ KernelClient.Close (Some 1) :: []))
    = Some (inr reason)
    /\ KernelClient.isRetryableError reason = true.
Proof.
  apply (exit_diagnostics_retried string Samples.parse_ok_only Samples.kernel
           [KernelClient.StderrData "dial tcp: "; KernelClient.StderrData "ECONNREFUSED"]
           [] (Some 1)).
  - reflexivity.
  - discriminate.
  - right. reflexivity.
Defined.

(** The timer of an attempt that has already resolved still kills the
    child when it fires. *)
Example resolved_attempt_still_killed :
  let st := KernelClient.spawnKernelProcess Samples.parse_ok_only Samples.kernel None
              [KernelClient.StdoutData "ok"; KernelClient.Close (Some 0);
               KernelClient.TimeoutFired] in
  KernelClient.settled st = Some (inl None) /\ KernelClient.killed st = true.
Proof. split; reflexivity. Qed.
